(** * Kriptunukas: the risk gate and the trade life cycle

    A shallow embedding of the risk rules ([trading/risk.py]), the trade
    repository ([db/database.py]), the venue adapters ([data/collector.py],
    [trading/executor.py]) and the two periodic tasks of [main.py], with the
    properties of the design document checked against them.

    Conventions of the embedding.
    - A Python number (int or float) is an exact rational, kept in lowest
      terms; rounding of binary floating point is outside the model.
    - A Python dict is a finite map from strings to values; a missing key and
      a key bound to [None] are different things, as for [dict.get].
    - A raised exception is a value of [exn]; a function that can raise
      returns a [result].
    - The clock, the venue and the signal source are inputs. *)

From Stdlib Require Import ZArith QArith Qround Qabs Qminmax String Ascii List Lia Lqa.
From Stdlib Require OrderedTypeEx.
From Stdlib Require Import Sorted.
From stdpp Require Import base option list gmap strings.

Local Open Scope string_scope.
Local Open Scope Z_scope.

(** ** Values and exceptions *)

(** [datetime.datetime]: wall-clock microseconds since 1970-01-01T00:00:00,
    and the UTC offset in microseconds of an aware value ([None] when naive). *)
Record datetime : Type := mk_datetime { dt_micros : Z; dt_tz : option Z }.

Inductive value : Type :=
| VNone
| VBool (b : bool)
| VNum (q : Q)
| VStr (s : string)
| VDatetime (d : datetime).

Abbreviation dict := (gmap string value).

Inductive exn : Type :=
| TypeError
| ZeroDivisionError
| ValueError
| OverflowError
| KeyError
| OperationalError
| IntegrityError
| NetworkError
| ExchangeError
| InsufficientFunds
| InvalidOrder.

Inductive result (T : Type) : Type :=
| Ok (t : T)
| Raise (e : exn).
Arguments Ok {T} t.
Arguments Raise {T} e.

Definition rbind {A B : Type} (r : result A) (k : A -> result B) : result B :=
  match r with
  | Ok a => k a
  | Raise e => Raise e
  end.

Declare Scope py_scope.
Delimit Scope py_scope with py.
Notation "x <- r ;; k" := (rbind r (fun x => k))
  (at level 100, r at next level, right associativity) : py_scope.
Local Open Scope py_scope.

(** Numbers are stored reduced, so that equal numbers are equal terms. *)
Definition num (q : Q) : value := VNum (Qred q).

(** [bool] is a subclass of [int]. *)
Definition as_number (v : value) : option Q :=
  match v with
  | VNum q => Some q
  | VBool true => Some 1%Q
  | VBool false => Some 0%Q
  | _ => None
  end.

Definition Qltb (x y : Q) : bool := negb (Qle_bool y x).

(** Truth value testing: [None], zero and the empty string are false. *)
Definition truthy (v : value) : bool :=
  match v with
  | VNone => false
  | VBool b => b
  | VNum q => negb (Qeq_bool q 0)
  | VStr s => negb (String.eqb s "")
  | VDatetime _ => true
  end.

(** [a or b] *)
Definition py_or (a b : value) : value := if truthy a then a else b.

Definition arith (f : Q -> Q -> Q) (a b : value) : result value :=
  match as_number a, as_number b with
  | Some x, Some y => Ok (num (f x y))
  | _, _ => Raise TypeError
  end.

Definition py_add : value -> value -> result value := arith Qplus.
Definition py_sub : value -> value -> result value := arith Qminus.
Definition py_mul : value -> value -> result value := arith Qmult.

(** True division raises on a zero divisor, for ints and floats alike. *)
Definition py_div (a b : value) : result value :=
  match as_number a, as_number b with
  | Some x, Some y =>
      if Qeq_bool y 0 then Raise ZeroDivisionError else Ok (num (x / y))
  | _, _ => Raise TypeError
  end.

Definition py_abs (a : value) : result value :=
  match as_number a with
  | Some x => Ok (num (Qabs x))
  | None => Raise TypeError
  end.

Definition py_neg (a : value) : result value :=
  match as_number a with
  | Some x => Ok (num (- x))
  | None => Raise TypeError
  end.

(** [a < b]: defined between numbers and between strings. *)
Definition py_lt (a b : value) : result bool :=
  match as_number a, as_number b with
  | Some x, Some y => Ok (Qltb x y)
  | _, _ =>
      match a, b with
      | VStr s, VStr t => Ok (String.ltb s t)
      | _, _ => Raise TypeError
      end
  end.

Definition py_gt (a b : value) : result bool := py_lt b a.

Definition py_ge (a b : value) : result bool :=
  match as_number a, as_number b with
  | Some x, Some y => Ok (Qle_bool y x)
  | _, _ =>
      match a, b with
      | VStr s, VStr t => Ok (negb (String.ltb s t))
      | _, _ => Raise TypeError
      end
  end.

(** [a == b] never raises. *)
Definition py_eq (a b : value) : bool :=
  match as_number a, as_number b with
  | Some x, Some y => Qeq_bool x y
  | _, _ =>
      match a, b with
      | VNone, VNone => true
      | VStr s, VStr t => String.eqb s t
      | VDatetime d, VDatetime e =>
          match dt_tz d, dt_tz e with
          | None, None => (dt_micros d =? dt_micros e)%Z
          | Some o, Some p => (dt_micros d - o =? dt_micros e - p)%Z
          | _, _ => false
          end
      | _, _ => false
      end
  end.

(** [min(a, b)] keeps its first argument unless the second is smaller. *)
Definition py_min (a b : value) : result value :=
  lt <- py_lt b a ;; Ok (if lt then b else a).

(** [sum(xs)]: starts from the int 0. *)
Definition py_sum (xs : list value) : result value :=
  foldl (fun acc x => a <- acc ;; py_add a x) (Ok (num 0)) xs.

(** [d.get(k, default)], [d.get(k)] and [d[k]]. *)
Definition get (d : dict) (k : string) (dflt : value) : value :=
  default dflt (d !! k).
Definition get_ (d : dict) (k : string) : value := get d k VNone.
Definition getitem (d : dict) (k : string) : result value :=
  match d !! k with
  | Some v => Ok v
  | None => Raise KeyError
  end.

(** [x in ['BUY', 'SELL']] *)
Definition is_buy_or_sell (action : value) : bool :=
  py_eq action (VStr "BUY") || py_eq action (VStr "SELL").

(** ** Dates and durations *)

Module Datetime.

(** A [timedelta] is a number of microseconds. *)
Definition timedelta := Z.

Definition micros_per_hour : Z := 3600000000.
Definition micros_per_day : Z := 86400000000.

Definition round_half_even (q : Q) : Z :=
  let f := Qfloor q in
  match Qcompare (q - inject_Z f) (1 # 2) with
  | Lt => f
  | Gt => f + 1
  | Eq => if Z.even f then f else f + 1
  end.

(** [timedelta(hours=h)]: rounded to the microsecond, and limited to
    999999999 days either way. *)
Definition timedelta_hours (h : Q) : result timedelta :=
  let us := round_half_even (h * inject_Z micros_per_hour) in
  if (Z.abs us <? 1000000000 * micros_per_day) then Ok us
  else Raise OverflowError.

(** [a - b] on datetimes: both naive, or both aware. *)
Definition sub (a b : datetime) : result timedelta :=
  match dt_tz a, dt_tz b with
  | None, None => Ok (dt_micros a - dt_micros b)
  | Some o, Some p => Ok ((dt_micros a - o) - (dt_micros b - p))
  | _, _ => Raise TypeError
  end.

(** [now - v] for an arbitrary Python value [v]. *)
Definition sub_value (now : datetime) (v : value) : result timedelta :=
  match v with
  | VDatetime d => sub now d
  | _ => Raise TypeError
  end.

Definition digit_of (c : ascii) : option Z :=
  let n := Z.of_nat (nat_of_ascii c) in
  if (48 <=? n) && (n <=? 57) then Some (n - 48) else None.

(** Exactly [n] decimal digits at the head of [s]. *)
Fixpoint digits (n : nat) (acc : Z) (s : string) : option (Z * string) :=
  match n with
  | O => Some (acc, s)
  | S n' =>
      match s with
      | String c r =>
          match digit_of c with
          | Some d => digits n' (10 * acc + d) r
          | None => None
          end
      | EmptyString => None
      end
  end.

Definition expect (c : ascii) (s : string) : option string :=
  match s with
  | String c' r => if Ascii.eqb c c' then Some r else None
  | EmptyString => None
  end.

Definition is_leap (y : Z) : bool :=
  ((y mod 4 =? 0)%Z && negb (y mod 100 =? 0)%Z) || (y mod 400 =? 0)%Z.

Definition days_in_month (y m : Z) : Z :=
  if (m =? 2)%Z then (if is_leap y then 29 else 28)
  else if (m =? 4)%Z || (m =? 6)%Z || (m =? 9)%Z || (m =? 11)%Z then 30
  else 31.

(** Days from 1970-01-01 to the given civil date. *)
Definition days_from_civil (y m d : Z) : Z :=
  let y' := if m <=? 2 then y - 1 else y in
  let era := y' / 400 in
  let yoe := y' - era * 400 in
  let doy := (153 * (m + (if 2 <? m then -3 else 9)) + 2) / 5 + d - 1 in
  let doe := yoe * 365 + yoe / 4 - yoe / 100 + doy in
  era * 146097 + doe - 719468.

(** The fraction of a second: three or six digits. *)
Definition parse_fraction (s : string) : option (Z * string) :=
  match digits 6 0 s with
  | Some r => Some r
  | None =>
      match digits 3 0 s with
      | Some (ms, r) => Some (ms * 1000, r)
      | None => None
      end
  end.

(** [HH[:MM[:SS[.fff[fff]]]]], in microseconds since midnight. *)
Definition parse_clock (s : string) : option (Z * string) :=
  '(h, s1) ← digits 2 0 s;
  if negb (h <? 24) then None else
  match expect ":" s1 with
  | None => Some (h * micros_per_hour, s1)
  | Some s2 =>
      '(mi, s3) ← digits 2 0 s2;
      if negb (mi <? 60) then None else
      match expect ":" s3 with
      | None => Some (h * micros_per_hour + mi * 60000000, s3)
      | Some s4 =>
          '(sec, s5) ← digits 2 0 s4;
          if negb (sec <? 60) then None else
          let base := h * micros_per_hour + mi * 60000000 + sec * 1000000 in
          match expect "." s5 with
          | None => Some (base, s5)
          | Some s6 =>
              '(us, s7) ← parse_fraction s6;
              Some (base + us, s7)
          end
      end
  end.

(** The UTC offset [+HH:MM] or [-HH:MM], or nothing (a naive value). *)
Definition parse_offset (s : string) : option (option Z) :=
  match s with
  | EmptyString => Some None
  | String c r =>
      sign ← (if Ascii.eqb c "+" then Some 1
              else if Ascii.eqb c "-" then Some (-1) else None);
      '(h, s1) ← digits 2 0 r;
      s2 ← expect ":" s1;
      '(mi, s3) ← digits 2 0 s2;
      if negb ((h <? 24) && (mi <? 60)) then None else
      match s3 with
      | EmptyString => Some (Some (sign * (h * micros_per_hour + mi * 60000000)))
      | _ => None
      end
  end.

(** [datetime.fromisoformat]: [YYYY-MM-DD], then optionally one separator
    character, a time and an offset. [None] stands for [ValueError]. *)
Definition parse_iso (s : string) : option datetime :=
  '(y, s1) ← digits 4 0 s;
  s2 ← expect "-" s1;
  '(m, s3) ← digits 2 0 s2;
  s4 ← expect "-" s3;
  '(d, s5) ← digits 2 0 s4;
  if negb ((1 <=? y) && (1 <=? m) && (m <=? 12) && (1 <=? d)
           && (d <=? days_in_month y m)) then None else
  let day0 := days_from_civil y m d * micros_per_day in
  match s5 with
  | EmptyString => Some (mk_datetime day0 None)
  | String _ s6 =>
      '(t, s7) ← parse_clock s6;
      tz ← parse_offset s7;
      Some (mk_datetime (day0 + t) tz)
  end.

Definition fromisoformat (s : string) : result datetime :=
  match parse_iso s with
  | Some d => Ok d
  | None => Raise ValueError
  end.

(** [s.replace('Z', '+00:00')] *)
Fixpoint replace_Z (s : string) : string :=
  match s with
  | EmptyString => EmptyString
  | String c r =>
      if Ascii.eqb c "Z" then "+00:00" ++ replace_Z r
      else String c (replace_Z r)
  end.

End Datetime.

(** ** trading/risk.py *)

(** The second component of the pair [validate_signal] returns; the
    formatted texts of the source carry the values kept here. *)
Inductive reason : Type :=
| ConfidenceBelowThreshold (confidence : value) (min_confidence : Q)
| HoldRequiresNoValidation
| MaxOpenPositionsReached (max_open_positions : Q)
| DailyDrawdownLimitReached (daily_pnl max_loss : value)
| SymbolInCooldown (symbol : value) (cooldown_hours : Q)
| RewardRiskBelowMinimum (rr_ratio : value) (minimum : Q)
| InvalidStopLoss
| MissingPrices
| InvalidPositionSize (position_size_pct : value)
| SignalValidated.

Module RiskManager.

(** The risk section of the configuration file: numeric options by name. *)
Record t : Type := {
  config : gmap string Q;
  max_risk_per_trade : Q;
  max_daily_drawdown : Q;
  max_open_positions : Q;
  cooldown_hours : Q;
  min_reward_risk_ratio : Q
}.

Definition init (config : gmap string Q) : t := {|
  config := config;
  max_risk_per_trade := default 0.02%Q (config !! "max_risk_per_trade");
  max_daily_drawdown := default 0.05%Q (config !! "max_daily_drawdown");
  max_open_positions := default 3%Q (config !! "max_open_positions");
  cooldown_hours := default 2%Q (config !! "cooldown_hours");
  min_reward_risk_ratio := default 2%Q (config !! "min_reward_risk_ratio")
|}.

(** Realized PnL of today's closed trades plus unrealized PnL of the open
    ones. *)
Definition calculate_daily_pnl (trades_today open_trades : list dict)
  : result value :=
  realized_pnl <-
    py_sum (map (fun trade => py_or (get trade "pnl" (num 0)) (num 0))
              (filter (fun trade => py_eq (get_ trade "status") (VStr "CLOSED") = true)
                 trades_today)) ;;
  unrealized_pnl <-
    py_sum (map (fun trade => py_or (get trade "unrealized_pnl" (num 0)) (num 0))
              open_trades) ;;
  py_add realized_pnl unrealized_pnl.

(** The body of the [try] block of [is_in_cooldown]. *)
Definition cooldown_check (self : t) (now : datetime) (opened_at : value)
  : result bool :=
  last_trade_time <-
    match opened_at with
    | VStr s =>
        d <- Datetime.fromisoformat (Datetime.replace_Z s) ;; Ok (VDatetime d)
    | v => Ok v
    end ;;
  cooldown_delta <- Datetime.timedelta_hours (cooldown_hours self) ;;
  time_since_trade <- Datetime.sub_value now last_trade_time ;;
  Ok (time_since_trade <? cooldown_delta).

(** [now] is the reading of [datetime.now()], a naive local time. A
    [last_trade] that is [None] or an empty dict is false. *)
Definition is_in_cooldown (self : t) (now : datetime)
    (last_trade : option dict) : bool :=
  match last_trade with
  | None => false
  | Some trade =>
      if (size trade =? 0)%nat then false else
      let opened_at := get_ trade "opened_at" in
      if negb (truthy opened_at) then false else
      match cooldown_check self now opened_at with
      | Ok in_cooldown => in_cooldown
      | Raise _ => false
      end
  end.

Definition last_trade_truthy (last_trade : option dict) : bool :=
  match last_trade with
  | None => false
  | Some trade => negb (size trade =? 0)%nat
  end.

(** Rule 6, entered for BUY and SELL only. [None] lets the chain go on. *)
Definition check_reward_risk (self : t) (signal : dict)
  : result (option (bool * reason)) :=
  let entry := get_ signal "entry_price" in
  let stop_loss := get_ signal "stop_loss" in
  let take_profit := get_ signal "take_profit" in
  if truthy entry && truthy stop_loss && truthy take_profit then
    d1 <- py_sub entry stop_loss ;;
    risk <- py_abs d1 ;;
    d2 <- py_sub take_profit entry ;;
    reward <- py_abs d2 ;;
    positive <- py_gt risk (num 0) ;;
    if positive then
      rr_ratio <- py_div reward risk ;;
      low <- py_lt rr_ratio (VNum (min_reward_risk_ratio self)) ;;
      if low then
        Ok (Some (false, RewardRiskBelowMinimum rr_ratio (min_reward_risk_ratio self)))
      else Ok None
    else Ok (Some (false, InvalidStopLoss))
  else Ok (Some (false, MissingPrices)).

(** Rule 7, entered for BUY and SELL only. *)
Definition check_position_size (signal : dict)
  : result (option (bool * reason)) :=
  let position_size_pct := get_ signal "position_size_pct" in
  if negb (truthy position_size_pct) then
    Ok (Some (false, InvalidPositionSize position_size_pct))
  else
    small <- py_lt position_size_pct (num 1) ;;
    if small then Ok (Some (false, InvalidPositionSize position_size_pct))
    else
      large <- py_gt position_size_pct (num 5) ;;
      if large then Ok (Some (false, InvalidPositionSize position_size_pct))
      else Ok None.

Definition validate_signal (self : t) (now : datetime) (signal : dict)
    (portfolio_balance : Q) (open_trades trades_today : list dict)
    (last_trade : option dict) : result (bool * reason) :=
  let symbol := get_ signal "symbol" in
  let action := get_ signal "action" in
  let confidence := get signal "confidence" (num 0) in
  (* Rule 1: confidence threshold *)
  let min_confidence := default 70%Q (config self !! "min_confidence") in
  below <- py_lt confidence (VNum min_confidence) ;;
  if below then Ok (false, ConfidenceBelowThreshold confidence min_confidence)
  else
  (* Rule 2: HOLD requires no validation *)
  if py_eq action (VStr "HOLD") then Ok (true, HoldRequiresNoValidation)
  else
  (* Rule 3: max open positions *)
  if is_buy_or_sell action
     && Qle_bool (max_open_positions self) (inject_Z (Z.of_nat (length open_trades)))
  then Ok (false, MaxOpenPositionsReached (max_open_positions self))
  else
  (* Rule 4: daily drawdown limit *)
  daily_pnl <- calculate_daily_pnl trades_today open_trades ;;
  let max_loss := num (portfolio_balance * max_daily_drawdown self) in
  neg_max_loss <- py_neg max_loss ;;
  exceeded <- py_lt daily_pnl neg_max_loss ;;
  if exceeded then Ok (false, DailyDrawdownLimitReached daily_pnl max_loss)
  else
  (* Rule 5: cooldown period *)
  if last_trade_truthy last_trade && is_buy_or_sell action
     && is_in_cooldown self now last_trade
  then Ok (false, SymbolInCooldown symbol (cooldown_hours self))
  else
  (* Rule 6: reward-to-risk ratio *)
  r6 <- (if is_buy_or_sell action then check_reward_risk self signal
         else Ok None) ;;
  match r6 with
  | Some verdict => Ok verdict
  | None =>
      (* Rule 7: position size *)
      r7 <- (if is_buy_or_sell action then check_position_size signal
             else Ok None) ;;
      match r7 with
      | Some verdict => Ok verdict
      | None => Ok (true, SignalValidated)
      end
  end.

Definition calculate_position_size (self : t) (signal : dict)
    (portfolio_balance : Q) (current_price : value) : result value :=
  let entry_price := get signal "entry_price" current_price in
  let stop_loss := get_ signal "stop_loss" in
  if negb (truthy stop_loss) || py_eq stop_loss entry_price then Ok (num 0)
  else
    let risk_amount := num (portfolio_balance * max_risk_per_trade self) in
    d <- py_sub entry_price stop_loss ;;
    risk_per_unit <- py_abs d ;;
    position_size <- py_div risk_amount risk_per_unit ;;
    position_size_pct <- py_div (get signal "position_size_pct" (num 2)) (num 100) ;;
    max_position_value <- py_mul (VNum portfolio_balance) position_size_pct ;;
    max_position_size <- py_div max_position_value entry_price ;;
    py_min position_size max_position_size.

(** The fixed 10 % threshold on the total drawdown. *)
Definition check_emergency_stop (portfolio_balance initial_balance : Q)
  : result bool :=
  total_drawdown <-
    py_div (num (initial_balance - portfolio_balance)) (VNum initial_balance) ;;
  py_ge total_drawdown (num 0.10%Q).

End RiskManager.

(** ** db/database.py *)

Module Database.

(** The columns of the [trades] table, as [_create_tables] declares them. *)
Definition trade_columns : list string :=
  ["id"; "signal_id"; "symbol"; "side"; "quantity"; "entry_price";
   "exit_price"; "stop_loss"; "take_profit"; "status"; "pnl";
   "pnl_percent"; "exchange_order_id"; "opened_at"; "closed_at"].

Definition trade_not_null : list string :=
  ["symbol"; "side"; "quantity"; "entry_price"].

Definition signal_not_null : list string :=
  ["symbol"; "action"; "confidence"].

(** Each table maps the primary key [id] to the other columns of the row.
    Portfolio snapshots are only ever appended. The candle and AI-log
    tables hold nothing the trade life cycle reads and are left out. *)
Record t : Type := {
  trades : gmap Z dict;
  signals : gmap Z dict;
  portfolio_snapshots : list dict
}.

Definition empty_db : t :=
  {| trades := ∅; signals := ∅; portfolio_snapshots := [] |}.

Definition set_trades (db : t) (tr : gmap Z dict) : t :=
  {| trades := tr; signals := signals db;
     portfolio_snapshots := portfolio_snapshots db |}.

(** AUTOINCREMENT: one more than the largest key. Rows are never deleted,
    so this is the largest key ever used. *)
Definition next_id (table : gmap Z dict) : Z :=
  1 + foldr Z.max 0 (map fst (map_to_list table)).

(** [dict(row)]: every column of the row, the key included. *)
Definition row_dict (kr : Z * dict) : dict :=
  <["id" := num (inject_Z kr.1)]> kr.2.

Definition is_none (v : value) : bool :=
  match v with VNone => true | _ => false end.

(** The key a bound parameter selects in [WHERE id = ?]. *)
Definition as_id (v : value) : option Z :=
  match as_number v with
  | Some q => if (Qden (Qred q) =? 1)%positive then Some (Qnum (Qred q)) else None
  | None => None
  end.

(** The order of SQL values: NULL, then numbers, then text. *)
Definition sql_rank (v : value) : Z :=
  match v with
  | VNone => 0
  | VBool _ | VNum _ => 1
  | VStr _ => 2
  | VDatetime _ => 3
  end.

Definition sql_le (a b : value) : bool :=
  match as_number a, as_number b with
  | Some x, Some y => Qle_bool x y
  | _, _ =>
      match a, b with
      | VStr s, VStr u => negb (String.ltb u s)
      | _, _ => sql_rank a <=? sql_rank b
      end
  end.

(** [ORDER BY opened_at DESC], by insertion; rows with equal stamps keep
    the order of the scan. *)
Fixpoint insert_desc (x : Z * dict) (l : list (Z * dict)) : list (Z * dict) :=
  match l with
  | [] => [x]
  | y :: l' =>
      if sql_le (get_ y.2 "opened_at") (get_ x.2 "opened_at")
      then x :: y :: l'
      else y :: insert_desc x l'
  end.

Definition order_by_opened_at_desc (l : list (Z * dict)) : list (Z * dict) :=
  foldr insert_desc [] l.

Definition select_trades (db : t) (where_ : dict -> bool) : list dict :=
  map row_dict
    (order_by_opened_at_desc
       (filter (fun kr => where_ kr.2 = true) (map_to_list (trades db)))).

Definition status_is (s : string) (row : dict) : bool :=
  py_eq (get_ row "status") (VStr s).

Definition symbol_is (symbol : value) (row : dict) : bool :=
  py_eq (get_ row "symbol") symbol.

Definition get_open_trades (db : t) (symbol : value) : list dict :=
  if truthy symbol then
    select_trades db (fun row => status_is "OPEN" row && symbol_is symbol row)
  else
    select_trades db (status_is "OPEN").

(** [DATE(x)] of a text stamp: its first ten characters. *)
Definition sql_date (v : value) : option string :=
  match v with
  | VStr s =>
      match Datetime.parse_iso s with
      | Some _ => Some (substring 0 10 s)
      | None => None
      end
  | _ => None
  end.

(** [current_timestamp] is the text SQLite writes for CURRENT_TIMESTAMP. *)
Definition get_trades_today (db : t) (current_timestamp : string) : list dict :=
  select_trades db (fun row =>
    match sql_date (get_ row "opened_at"), sql_date (VStr current_timestamp) with
    | Some d, Some today => String.eqb d today
    | _, _ => false
    end).

Definition get_last_trade (db : t) (symbol : value) : option dict :=
  head (select_trades db (symbol_is symbol)).

Definition violates_not_null (cols : list string) (row : dict) : bool :=
  existsb (fun c => is_none (get_ row c)) cols.

Definition save_signal (db : t) (signal_dict : dict) : result (Z * t) :=
  if violates_not_null signal_not_null signal_dict then Raise IntegrityError
  else
    let id := next_id (signals db) in
    Ok (id, {| trades := trades db;
               signals := <[id := signal_dict]> (signals db);
               portfolio_snapshots := portfolio_snapshots db |}).

(** The row an INSERT of [save_trade] creates: nine columns from the
    argument, the stamp of the insertion, NULL elsewhere. The values are
    stored as they are bound, which is what SQLite does with a string in a
    text column and a number in a number column; the conversions of its
    column types (a number to text, a numeric string to a number) and the
    limits of its integers are not followed, and the statements about what
    is stored keep to values that need none ([stored_as_given] below). *)
Definition new_trade_row (trade_dict : dict) (current_timestamp : string) : dict :=
  list_to_map
    [("signal_id", get_ trade_dict "signal_id");
     ("symbol", get_ trade_dict "symbol");
     ("side", get_ trade_dict "side");
     ("quantity", get_ trade_dict "quantity");
     ("entry_price", get_ trade_dict "entry_price");
     ("exit_price", VNone);
     ("stop_loss", get_ trade_dict "stop_loss");
     ("take_profit", get_ trade_dict "take_profit");
     ("status", get trade_dict "status" (VStr "OPEN"));
     ("pnl", VNone);
     ("pnl_percent", VNone);
     ("exchange_order_id", get_ trade_dict "exchange_order_id");
     ("opened_at", VStr current_timestamp);
     ("closed_at", VNone)].

Definition save_trade (db : t) (trade_dict : dict) (current_timestamp : string)
  : result (Z * t) :=
  let row := new_trade_row trade_dict current_timestamp in
  if violates_not_null trade_not_null row then Raise IntegrityError
  else
    let id := next_id (trades db) in
    Ok (id, set_trades db (<[id := row]> (trades db))).

(** The assignments of the UPDATE statement [update_trade] builds. *)
Definition assignments (updates_dict : dict) (current_timestamp : string) : dict :=
  match updates_dict !! "status" with
  | Some status =>
      if py_eq status (VStr "CLOSED")
      then <["closed_at" := VStr current_timestamp]> updates_dict
      else updates_dict
  | None => updates_dict
  end.

(** The names of the assignments, compared as written with the declared
    columns. That is SQLite's own test for a key that is a plain identifier
    in lower case; SQLite also resolves other case, the aliases of the row
    id and quoted names, and a key is spliced into the statement as it is.
    The statements about unknown columns keep to plain identifiers that
    SQLite resolves to nothing ([resolvable_names] below). *)
Definition known_columns (sets : dict) : bool :=
  forallb (fun k => bool_decide (k ∈ trade_columns)) (map fst (map_to_list sets)).

Definition assigns_null (sets : dict) (c : string) : bool :=
  match sets !! c with
  | Some VNone => true
  | _ => false
  end.

(** [UPDATE trades SET ... WHERE id = ?]. The statement is prepared before
    any row is looked at: an empty assignment list or an unknown column is
    an [OperationalError] whatever the table holds. *)
Definition update_trade (db : t) (trade_id : value) (updates_dict : dict)
    (current_timestamp : string) : result t :=
  let sets := assignments updates_dict current_timestamp in
  if (size sets =? 0)%nat then Raise OperationalError
  else if negb (known_columns sets) then Raise OperationalError
  else
    match as_id trade_id with
    | None => Ok db
    | Some k =>
        match trades db !! k with
        | None => Ok db
        | Some row =>
            if existsb (assigns_null sets) trade_not_null
            then Raise IntegrityError
            else
              let row' := delete "id" sets ∪ row in
              match sets !! "id" with
              | None => Ok (set_trades db (<[k := row']> (trades db)))
              | Some v =>
                  match as_id v with
                  | None => Raise IntegrityError
                  | Some k' =>
                      if bool_decide (k' = k) then
                        Ok (set_trades db (<[k := row']> (trades db)))
                      else if bool_decide (is_Some (trades db !! k')) then
                        Raise IntegrityError
                      else
                        Ok (set_trades db (<[k' := row']> (delete k (trades db))))
                  end
              end
        end
    end.

Definition snapshot_not_null : list string :=
  ["total_balance"; "available_balance"].

Definition save_portfolio_snapshot (db : t) (snapshot_dict : dict)
    (current_timestamp : string) : result (Z * t) :=
  let row : dict :=
    {[ "total_balance" := get_ snapshot_dict "total_balance";
       "available_balance" := get_ snapshot_dict "available_balance";
       "unrealized_pnl" := get snapshot_dict "unrealized_pnl" (num 0);
       "open_positions" := get snapshot_dict "open_positions" (num 0);
       "daily_pnl" := get snapshot_dict "daily_pnl" (num 0);
       "recorded_at" := VStr current_timestamp ]} in
  if violates_not_null snapshot_not_null row then Raise IntegrityError
  else
    Ok (Z.of_nat (S (length (portfolio_snapshots db))),
        {| trades := trades db; signals := signals db;
           portfolio_snapshots := portfolio_snapshots db ++ [row] |}).

End Database.

(** ** The venue, as the adapters see it *)

(** What the ccxt client answers to the n-th request of a run. *)
Record exchange : Type := {
  fetch_ohlcv : nat -> result (list (list value));
  fetch_ticker : nat -> result dict;
  fetch_balance : nat -> result (gmap string dict);
  fetch_positions : nat -> result (list dict);
  create_market_order : nat -> result dict;
  create_order : nat -> result dict;
  fetch_open_orders : nat -> result (list dict);
  cancel_order : nat -> result unit
}.

(** The requests made so far and the pauses taken, in seconds, oldest first. *)
Record venue : Type := { requests : nat; sleeps : list Q }.

(** The readings of the clock during one task. *)
Record clock : Type := {
  now : datetime;            (* datetime.now() *)
  time_ms : Q;               (* int(time.time() * 1000) *)
  current_timestamp : string (* CURRENT_TIMESTAMP of SQLite *)
}.

(** Computations that thread a state and may raise. *)
Definition M (S A : Type) : Type := S -> result A * S.

Definition ret {S A : Type} (a : A) : M S A := fun s => (Ok a, s).
Definition raise {S A : Type} (e : exn) : M S A := fun s => (Raise e, s).
Definition lift {S A : Type} (r : result A) : M S A := fun s => (r, s).
Definition bind {S A B : Type} (m : M S A) (k : A -> M S B) : M S B :=
  fun s =>
    match m s with
    | (Ok a, s1) => k a s1
    | (Raise e, s1) => (Raise e, s1)
    end.
(** [try: m except Exception as e: handler e] *)
Definition try_except {S A : Type} (m : M S A) (handler : exn -> M S A) : M S A :=
  fun s =>
    match m s with
    | (Ok a, s1) => (Ok a, s1)
    | (Raise e, s1) => handler e s1
    end.

Notation "x <~ m ;; k" := (bind m (fun x => k))
  (at level 100, m at next level, right associativity) : py_scope.

Definition request {A : Type} (reply : nat -> result A) : M venue A :=
  fun v => (reply (requests v),
            {| requests := S (requests v); sleeps := sleeps v |}).

Definition sleep (seconds : Q) : M venue unit :=
  fun v => (Ok tt, {| requests := requests v; sleeps := sleeps v ++ [seconds] |}).

(** The classes the [except] clauses tell apart. *)
Definition is_network_error (e : exn) : bool :=
  match e with NetworkError => true | _ => false end.

Definition is_exchange_error (e : exn) : bool :=
  match e with
  | ExchangeError | InsufficientFunds | InvalidOrder => true
  | _ => false
  end.

Definition str_exn (e : exn) : string :=
  match e with
  | TypeError => "TypeError"
  | ZeroDivisionError => "ZeroDivisionError"
  | ValueError => "ValueError"
  | OverflowError => "OverflowError"
  | KeyError => "KeyError"
  | OperationalError => "OperationalError"
  | IntegrityError => "IntegrityError"
  | NetworkError => "NetworkError"
  | ExchangeError => "ExchangeError"
  | InsufficientFunds => "InsufficientFunds"
  | InvalidOrder => "InvalidOrder"
  end.

Definition lower_ascii (c : ascii) : ascii :=
  let n := nat_of_ascii c in
  if (65 <=? n)%nat && (n <=? 90)%nat then ascii_of_nat (n + 32) else c.

Fixpoint lower (s : string) : string :=
  match s with
  | EmptyString => EmptyString
  | String c r => String (lower_ascii c) (lower r)
  end.

(** ** data/collector.py *)

Module DataCollector.

Record t : Type := { exchange_ : exchange; demo_mode : bool }.

Definition max_retries : nat := 3.
Definition retry_delay : Q := 1.

(** The loop [for attempt in range(max_retries)] around a [try] whose body
    is [body]: a network error is retried after a pause of
    [retry_delay * 2 ** attempt] seconds unless it was the last attempt,
    any other exception is raised again at once; [after_loop] is the
    [return] that follows the loop. *)
Fixpoint retry_loop {A : Type} (body : M venue A) (after_loop : A)
    (attempts : list nat) : M venue A :=
  match attempts with
  | [] => ret after_loop
  | attempt :: rest =>
      try_except body (fun e =>
        if is_network_error e then
          if (attempt <? max_retries - 1)%nat then
            _ <~ sleep (retry_delay * inject_Z (2 ^ Z.of_nat attempt)) ;;
            retry_loop body after_loop rest
          else raise e
        else raise e)
  end.

Definition range (n : nat) : list nat := seq 0 n.

(** [pd.DataFrame(ohlcv, columns=[six names])] and the cast of the
    timestamp column to int. *)
Definition to_dataframe (ohlcv : list (list value)) : result (list (list value)) :=
  foldr (fun row acc =>
           rows <- acc ;;
           match row with
           | ts :: ((_ :: _ :: _ :: _ :: _ :: []) as rest) =>
               match as_number ts with
               | Some q => Ok ((num (inject_Z (Z.quot (Qnum q) (Zpos (Qden q)))) :: rest) :: rows)
               | None => Raise TypeError
               end
           | _ => Raise ValueError
           end) (Ok []) ohlcv.

Definition fetch_candles (self : t) (symbol timeframe : string) (limit : Q)
  : M venue (list (list value)) :=
  retry_loop
    (ohlcv <~ request (fetch_ohlcv (exchange_ self)) ;; lift (to_dataframe ohlcv))
    [] (range max_retries).

Definition fetch_ticker (self : t) (clk : clock) (symbol : value) : M venue dict :=
  retry_loop
    (ticker <~ request (fetch_ticker (exchange_ self)) ;;
     ret ({[ "symbol" := symbol;
             "price" := get ticker "last" (num 0);
             "change_24h" := get ticker "percentage" (num 0);
             "volume_24h" := get ticker "quoteVolume" (num 0);
             "high_24h" := get ticker "high" (num 0);
             "low_24h" := get ticker "low" (num 0);
             "timestamp" := get ticker "timestamp" (num (time_ms clk)) ]} : dict))
    ∅ (range max_retries).

(** [float(x)] of what the venue reports as a balance: a number. *)
Definition py_float (v : value) : result Q :=
  match as_number v with
  | Some q => Ok (Qred q)
  | None => Raise TypeError
  end.

Definition fetch_balance (self : t) : M venue Q :=
  if demo_mode self then ret 10000%Q
  else
    retry_loop
      (balance <~ request (fetch_balance (exchange_ self)) ;;
       let usdt_balance := get (default ∅ (balance !! "USDT")) "free" (num 0) in
       lift (py_float usdt_balance))
      0%Q (range max_retries).

Definition format_position (pos : dict) (contracts : value) : dict :=
  {[ "symbol" := get_ pos "symbol";
     "side" := get_ pos "side";
     "size" := contracts;
     "entry_price" := get pos "entryPrice" (num 0);
     "current_price" := get pos "markPrice" (num 0);
     "unrealized_pnl" := get pos "unrealizedPnl" (num 0);
     "percentage" := get pos "percentage" (num 0);
     "leverage" := get pos "leverage" (num 1);
     "liquidation_price" := get pos "liquidationPrice" (num 0) ]}.

(** Positions whose [contracts] is missing, [None] or zero are dropped. *)
Definition open_positions_of (positions : list dict) : list dict :=
  omap (fun pos =>
          let contracts := get pos "contracts" (num 0) in
          if negb (truthy contracts) || py_eq contracts (num 0) then None
          else Some (format_position pos contracts))
       positions.

Definition fetch_open_positions (self : t) (symbol : value) : M venue (list dict) :=
  if demo_mode self then ret []
  else
    retry_loop
      (positions <~ request (fetch_positions (exchange_ self)) ;;
       ret (open_positions_of positions))
      [] (range max_retries).

End DataCollector.

(** ** trading/executor.py *)

Module TradeExecutor.

Record t : Type := { exchange_ : exchange }.

Definition failure (error : string) (e : exn) : dict :=
  {[ "success" := VBool false; "error" := VStr error; "details" := VStr (str_exn e) ]}.

(** [order.get('average') or order.get('price', 0)] *)
Definition fill_price (order : dict) : value :=
  py_or (get_ order "average") (get order "price" (num 0)).

(** Both protective orders are attempted; a failure of either is logged
    and swallowed. *)
Definition _set_sl_tp (self : t) (stop_loss take_profit : value) : M venue unit :=
  _ <~ (if truthy stop_loss then
          try_except (_ <~ request (create_order (exchange_ self)) ;; ret tt)
                     (fun _ => ret tt)
        else ret tt) ;;
  if truthy take_profit then
    try_except (_ <~ request (create_order (exchange_ self)) ;; ret tt)
               (fun _ => ret tt)
  else ret tt.

(** The [try] block of [place_market_order]. Formatting the quantity with
    [:.6f] needs a number. *)
Definition place_market_order_body (self : t) (symbol side : string)
    (quantity stop_loss take_profit : value) : M venue dict :=
  _ <~ lift (match as_number quantity with
             | Some _ => Ok tt
             | None => Raise TypeError
             end) ;;
  order <~ request (create_market_order (exchange_ self)) ;;
  _ <~ (if truthy stop_loss || truthy take_profit
        then _set_sl_tp self stop_loss take_profit else ret tt) ;;
  ret ({[ "success" := VBool true;
          "order_id" := get_ order "id";
          "symbol" := VStr symbol;
          "side" := VStr side;
          "quantity" := quantity;
          "price" := fill_price order;
          "status" := get_ order "status";
          "timestamp" := get_ order "timestamp" ]} : dict).

(** The [error] text of each [except] clause, in their order. *)
Definition order_error (e : exn) : string :=
  match e with
  | InsufficientFunds => "Insufficient funds"
  | InvalidOrder => "Invalid order"
  | NetworkError => "Network error"
  | _ => "Unknown error"
  end.

(** One attempt; every exception becomes a failure dict. *)
Definition place_market_order (self : t) (symbol side : string)
    (quantity stop_loss take_profit : value) : M venue dict :=
  try_except (place_market_order_body self symbol side quantity stop_loss take_profit)
    (fun e => ret (failure (order_error e) e)).

Definition closing_side (side : string) : string :=
  if String.eqb side "long" || String.eqb side "buy" then "sell" else "buy".

(** [position.get('side', '').lower()]: needs a string. *)
Definition position_side (position : dict) : result string :=
  match get position "side" (VStr "") with
  | VStr s => Ok (lower s)
  | _ => Raise TypeError
  end.

Definition close_position (self : t) (symbol : string) (position : dict)
  : M venue dict :=
  try_except
    (side <~ lift (position_side position) ;;
     let size := get position "size" (num 0) in
     let close_side := closing_side side in
     amount <~ lift (py_abs size) ;;
     order <~ request (create_market_order (exchange_ self)) ;;
     ret ({[ "success" := VBool true;
             "order_id" := get_ order "id";
             "symbol" := VStr symbol;
             "side" := VStr close_side;
             "quantity" := amount;
             "price" := fill_price order;
             "status" := get_ order "status" ]} : dict))
    (fun e => ret (failure "Failed to close position" e)).

(** Cancels the stop orders found, then places the new one. A failed
    cancellation is logged with the order's id and otherwise ignored. *)
Fixpoint cancel_stop_orders (self : t) (open_orders : list dict) : M venue unit :=
  match open_orders with
  | [] => ret tt
  | order :: rest =>
      _ <~ (if py_eq (get_ order "type") (VStr "stop_market") then
              try_except
                (_ <~ lift (getitem order "id") ;;
                 _ <~ request (cancel_order (exchange_ self)) ;; ret tt)
                (fun _ => _ <~ lift (getitem order "id") ;; ret tt)
            else ret tt) ;;
      cancel_stop_orders self rest
  end.

Definition adjust_stop_loss (self : t) (symbol : string) (position : dict)
    (new_stop_loss : value) : M venue bool :=
  try_except
    (open_orders <~ request (fetch_open_orders (exchange_ self)) ;;
     _ <~ cancel_stop_orders self open_orders ;;
     side <~ lift (position_side position) ;;
     amount <~ lift (py_abs (get position "size" (num 0))) ;;
     _ <~ request (create_order (exchange_ self)) ;;
     ret true)
    (fun _ => ret false).

End TradeExecutor.

(** ** data/indicators.py *)

Module Indicators.


End Indicators.

(** ** main.py *)

(** What a task leaves behind besides the tables: error and warning log
    lines, and the messages handed to the notifier. *)
Inductive event : Type :=
| LogError (context : string) (subject : value) (e : exn)
| LogSignalRejected (r : reason)
| LogExecutionFailed (error : value)
| TradeAlert (signal : dict) (trade : option dict)
| ErrorAlert (message : string) (details : value).

Record world : Type := { db : Database.t; market : venue; journal : list event }.

(** The module-level handles of [main.py], with the two collaborators that
    lie outside the core: the indicator computation and the signal source. *)
Record bot : Type := {
  risk_manager : RiskManager.t;
  collector : DataCollector.t;
  executor : option TradeExecutor.t;
  dry_run : bool;
  calculate_all_indicators : list (list value) -> result dict;
  get_ai_signal : string -> dict -> option dict -> Q -> dict
}.

Definition emit (ev : event) : M world unit :=
  fun w => (Ok tt, {| db := db w; market := market w; journal := journal w ++ [ev] |}).

Definition on_venue {A : Type} (m : M venue A) : M world A :=
  fun w =>
    let '(r, v) := m (market w) in
    (r, {| db := db w; market := v; journal := journal w |}).

Definition read_db {A : Type} (f : Database.t -> A) : M world A :=
  fun w => (Ok (f (db w)), w).

Definition write_db {A : Type} (f : Database.t -> result (A * Database.t)) : M world A :=
  fun w =>
    match f (db w) with
    | Ok (a, d) => (Ok a, {| db := d; market := market w; journal := journal w |})
    | Raise e => (Raise e, w)
    end.

Definition update_trade (trade_id : value) (updates_dict : dict) (clk : clock)
  : M world unit :=
  write_db (fun d =>
    d' <- Database.update_trade d trade_id updates_dict (current_timestamp clk) ;;
    Ok (tt, d')).

(** [not dry_run and executor] *)
Definition live_executor (b : bot) : option TradeExecutor.t :=
  if dry_run b then None else executor b.

Definition dict_truthy (d : option dict) : bool :=
  match d with
  | Some m => negb (size m =? 0)%nat
  | None => false
  end.

(** The BUY/SELL branch of [run_analysis]. *)
Definition admit_signal (b : bot) (clk : clock) (symbol : string) (signal : dict)
    (signal_id : Z) (portfolio_balance : Q) (indicators : dict) (action : value)
  : M world unit :=
  open_trades <~ read_db (fun d => Database.get_open_trades d (VStr symbol)) ;;
  trades_today <~ read_db (fun d => Database.get_trades_today d (current_timestamp clk)) ;;
  last_trade <~ read_db (fun d => Database.get_last_trade d (VStr symbol)) ;;
  verdict <~ lift (RiskManager.validate_signal (risk_manager b) (now clk) signal
                     portfolio_balance open_trades trades_today last_trade) ;;
  if verdict.1 then
    let current_price := get_ indicators "current_price" in
    position_size <~ lift (RiskManager.calculate_position_size (risk_manager b)
                             signal portfolio_balance current_price) ;;
    match live_executor b with
    | Some ex =>
        side <~ lift (match action with
                      | VStr a => Ok (lower a)
                      | _ => Raise TypeError
                      end) ;;
        trade_result <~ on_venue (TradeExecutor.place_market_order ex symbol side
                                    position_size (get_ signal "stop_loss")
                                    (get_ signal "take_profit")) ;;
        if truthy (get_ trade_result "success") then
          _ <~ write_db (fun d =>
                 Database.save_trade d
                   {[ "signal_id" := num (inject_Z signal_id);
                      "symbol" := VStr symbol;
                      "side" := action;
                      "quantity" := position_size;
                      "entry_price" := get trade_result "price" current_price;
                      "stop_loss" := get_ signal "stop_loss";
                      "take_profit" := get_ signal "take_profit";
                      "status" := VStr "OPEN";
                      "exchange_order_id" := get_ trade_result "order_id" ]}
                   (current_timestamp clk)) ;;
          emit (TradeAlert signal (Some trade_result))
        else
          _ <~ emit (LogExecutionFailed (get_ trade_result "error")) ;;
          emit (ErrorAlert "Trade execution failed" (get_ trade_result "details"))
    | None => emit (TradeAlert signal None)
    end
  else emit (LogSignalRejected verdict.2).

(** The fields both close paths write. *)
Definition closing_updates (exit_price pnl pnl_percent : value) : dict :=
  {[ "exit_price" := exit_price;
     "pnl" := pnl;
     "pnl_percent" := pnl_percent;
     "status" := VStr "CLOSED" ]}.

(** The bookkeeping of an explicit close, once the venue confirmed it. *)
Definition record_close (clk : clock) (signal close_result trade : dict)
  : M world unit :=
  let entry_price := get trade "entry_price" (num 0) in
  let exit_price := get close_result "price" (num 0) in
  diff <~ lift (py_sub exit_price entry_price) ;;
  pnl <~ lift (py_mul diff (get trade "quantity" (num 0))) ;;
  notional <~ lift (py_mul entry_price (get trade "quantity" (num 1))) ;;
  ratio <~ lift (py_div pnl notional) ;;
  pnl_percent <~ lift (py_mul ratio (num 100)) ;;
  trade_id <~ lift (getitem trade "id") ;;
  _ <~ update_trade trade_id (closing_updates exit_price pnl pnl_percent) clk ;;
  emit (TradeAlert signal (Some close_result)).

(** The CLOSE branch of [run_analysis]. *)
Definition close_signal (b : bot) (clk : clock) (symbol : string) (signal : dict)
    (current_position : option dict) : M world unit :=
  match current_position with
  | Some position =>
      if dict_truthy current_position then
        match live_executor b with
        | Some ex =>
            close_result <~ on_venue (TradeExecutor.close_position ex symbol position) ;;
            if truthy (get_ close_result "success") then
              open_trades <~ read_db (fun d => Database.get_open_trades d (VStr symbol)) ;;
              match open_trades with
              | trade :: _ => record_close clk signal close_result trade
              | [] => ret tt
              end
            else ret tt
        | None => ret tt
        end
      else ret tt
  | None => ret tt
  end.

(** The HOLD branch of [run_analysis]. *)
Definition hold_signal (b : bot) (symbol : string) (signal : dict)
    (current_position : option dict) : M world unit :=
  match current_position with
  | Some position =>
      if truthy (get_ signal "adjust_stop_loss") && dict_truthy current_position then
        new_sl <~ lift (getitem signal "adjust_stop_loss") ;;
        match live_executor b with
        | Some ex =>
            _ <~ on_venue (TradeExecutor.adjust_stop_loss ex symbol position new_sl) ;;
            ret tt
        | None => ret tt
        end
      else ret tt
  | None => ret tt
  end.

(** The [try] block of [run_analysis]. *)
Definition run_analysis_body (b : bot) (clk : clock) (symbol : string) : M world unit :=
  candles_1h <~ on_venue (DataCollector.fetch_candles (collector b) symbol "1h" 200) ;;
  candles_4h <~ on_venue (DataCollector.fetch_candles (collector b) symbol "4h" 200) ;;
  indicators <~ lift (calculate_all_indicators b candles_1h) ;;
  portfolio_balance <~ on_venue (DataCollector.fetch_balance (collector b)) ;;
  open_positions <~ on_venue (DataCollector.fetch_open_positions (collector b) (VStr symbol)) ;;
  let current_position := head open_positions in
  let signal := get_ai_signal b symbol indicators current_position portfolio_balance in
  signal_id <~ write_db (fun d => Database.save_signal d signal) ;;
  _ <~ lift (getitem signal "action") ;;
  _ <~ lift (getitem signal "confidence") ;;
  let action := get_ signal "action" in
  if is_buy_or_sell action then
    admit_signal b clk symbol signal signal_id portfolio_balance indicators action
  else if py_eq action (VStr "CLOSE") then
    close_signal b clk symbol signal current_position
  else if py_eq action (VStr "HOLD") then
    hold_signal b symbol signal current_position
  else ret tt.

(** A task runs to completion: an exception ends the cycle with a log line
    and an alert, and what was written before it stays written. *)
Definition run_analysis (b : bot) (clk : clock) (symbol : string) (w : world) : world :=
  match run_analysis_body b clk symbol w with
  | (Ok _, w') => w'
  | (Raise e, w') =>
      snd ((_ <~ emit (LogError "Error in analysis" (VStr symbol) e) ;;
            emit (ErrorAlert "Analysis error" (VStr (str_exn e)))) w')
  end.

(** The inner loop of [run_monitor] over the venue's positions: the first
    one of non-zero size gets its unrealized PnL written to the trade. *)
Fixpoint position_exists (clk : clock) (trade : dict) (exchange_positions : list dict)
  : M world bool :=
  match exchange_positions with
  | [] => ret false
  | pos :: rest =>
      size_ <~ lift (py_abs (get pos "size" (num 0))) ;;
      nonzero <~ lift (py_gt size_ (num 0)) ;;
      if nonzero then
        trade_id <~ lift (getitem trade "id") ;;
        _ <~ update_trade trade_id
               {[ "unrealized_pnl" := get pos "unrealized_pnl" (num 0) ]} clk ;;
        ret true
      else position_exists clk trade rest
  end.

(** The bookkeeping of an implicit close: the venue no longer shows the
    position. *)
Definition record_venue_close (b : bot) (clk : clock) (trade : dict) (symbol : value)
  : M world unit :=
  ticker <~ on_venue (DataCollector.fetch_ticker (collector b) clk symbol) ;;
  let exit_price := get ticker "price" (num 0) in
  let entry_price := get trade "entry_price" (num 0) in
  let quantity := get trade "quantity" (num 0) in
  let side := get trade "side" (VStr "BUY") in
  pnl <~ lift (if py_eq side (VStr "BUY")
               then d <- py_sub exit_price entry_price ;; py_mul d quantity
               else d <- py_sub entry_price exit_price ;; py_mul d quantity) ;;
  notional <~ lift (py_mul entry_price quantity) ;;
  guarded <~ lift (py_gt notional (num 0)) ;;
  pnl_percent <~ lift (if guarded
                       then n <- py_mul entry_price quantity ;;
                            r <- py_div pnl n ;; py_mul r (num 100)
                       else Ok (num 0)) ;;
  trade_id <~ lift (getitem trade "id") ;;
  update_trade trade_id (closing_updates exit_price pnl pnl_percent) clk.

(** One turn of the loop over the open trades, with its own handler. *)
Definition monitor_trade (b : bot) (clk : clock) (trade : dict) : M world unit :=
  try_except
    (let symbol := get_ trade "symbol" in
     exchange_positions <~ on_venue (DataCollector.fetch_open_positions (collector b) symbol) ;;
     exists_ <~ position_exists clk trade exchange_positions ;;
     if negb exists_ then record_venue_close b clk trade symbol else ret tt)
    (fun e => emit (LogError "Error monitoring trade" (get_ trade "id") e)).

Fixpoint monitor_trades (b : bot) (clk : clock) (open_trades : list dict) : M world unit :=
  match open_trades with
  | [] => ret tt
  | trade :: rest => _ <~ monitor_trade b clk trade ;; monitor_trades b clk rest
  end.

Definition take_snapshot (b : bot) (clk : clock) : M world unit :=
  try_except
    (balance <~ on_venue (DataCollector.fetch_balance (collector b)) ;;
     all_positions <~ on_venue (DataCollector.fetch_open_positions (collector b) VNone) ;;
     trades_today <~ read_db (fun d => Database.get_trades_today d (current_timestamp clk)) ;;
     daily_pnl <~ lift (RiskManager.calculate_daily_pnl trades_today all_positions) ;;
     unrealized <~ lift (py_sum (map (fun p => get p "unrealized_pnl" (num 0)) all_positions)) ;;
     _ <~ write_db (fun d =>
            Database.save_portfolio_snapshot d
              {[ "total_balance" := num balance;
                 "available_balance" := num balance;
                 "unrealized_pnl" := unrealized;
                 "open_positions" := num (inject_Z (Z.of_nat (length all_positions)));
                 "daily_pnl" := daily_pnl ]}
              (current_timestamp clk)) ;;
     ret tt)
    (fun e => emit (LogError "Error saving portfolio snapshot" VNone e)).

Definition run_monitor (b : bot) (clk : clock) (w : world) : world :=
  let body :=
    open_trades <~ read_db (fun d => Database.get_open_trades d VNone) ;;
    _ <~ monitor_trades b clk open_trades ;;
    take_snapshot b clk in
  match body w with
  | (Ok _, w') => w'
  | (Raise e, w') => snd (emit (LogError "Error in position monitor" VNone e) w')
  end.

(** [len([x for x in xs if test(x)])] *)
Fixpoint count_where (test : value -> result bool) (xs : list value) : result nat :=
  match xs with
  | [] => Ok 0%nat
  | x :: rest =>
      hit <- test x ;;
      n <- count_where test rest ;;
      Ok (if hit then S n else n)
  end.

(** [max(xs)] and [min(xs)] of a list that starts with [x]: the first of the
    largest, the first of the smallest. *)
Definition py_max_list (x : value) (rest : list value) : result value :=
  foldl (fun acc y => m <- acc ;; gt <- py_gt y m ;; Ok (if gt then y else m))
        (Ok x) rest.

Definition py_min_list (x : value) (rest : list value) : result value :=
  foldl (fun acc y => m <- acc ;; lt <- py_lt y m ;; Ok (if lt then y else m))
        (Ok x) rest.

(** [t.get('pnl', 0) or 0] *)
Definition pnl_or_0 (trade : dict) : value := py_or (get trade "pnl" (num 0)) (num 0).

Definition closed_today (trades_today : list dict) : list dict :=
  filter (fun trade => py_eq (get_ trade "status") (VStr "CLOSED") = true) trades_today.

(** The [try] block of [run_daily_report] up to the call of the notifier:
    the statistics it hands over. *)
Definition daily_report_stats (b : bot) (clk : clock) : M world dict :=
  trades_today <~ read_db (fun d => Database.get_trades_today d (current_timestamp clk)) ;;
  let closed_trades := closed_today trades_today in
  let pnl_values := map pnl_or_0 closed_trades in
  wins <~ lift (count_where (fun pnl => py_gt pnl (num 0)) pnl_values) ;;
  losses <~ lift (count_where (fun pnl => py_lt pnl (num 0)) pnl_values) ;;
  let win_rate :=
    match closed_trades with
    | [] => num 0
    | _ => num (inject_Z (Z.of_nat wins) / inject_Z (Z.of_nat (length closed_trades))
                * 100)
    end in
  total_pnl <~ lift (py_sum pnl_values) ;;
  best_trade <~ lift (match pnl_values with
                      | [] => Ok (num 0)
                      | x :: rest => py_max_list x rest
                      end) ;;
  worst_trade <~ lift (match pnl_values with
                       | [] => Ok (num 0)
                       | x :: rest => py_min_list x rest
                       end) ;;
  balance <~ on_venue (DataCollector.fetch_balance (collector b)) ;;
  open_positions <~ read_db (fun d => length (Database.get_open_trades d VNone)) ;;
  ret ({[ "total_trades" := num (inject_Z (Z.of_nat (length trades_today)));
          "wins" := num (inject_Z (Z.of_nat wins));
          "losses" := num (inject_Z (Z.of_nat losses));
          "win_rate" := win_rate;
          "total_pnl" := total_pnl;
          "best_trade" := best_trade;
          "worst_trade" := worst_trade;
          "open_positions" := num (inject_Z (Z.of_nat open_positions));
          "balance" := num balance ]} : dict).

(** ** Vocabulary of the properties *)

(** The row a closing update leaves under the key it names: five columns
    written, the others as they were. *)
Definition closed_row (exit_price pnl pnl_percent : value) (ts : string)
    (row : dict) : dict :=
  <["exit_price" := exit_price]>
    (<["pnl" := pnl]>
       (<["pnl_percent" := pnl_percent]>
          (<["status" := VStr "CLOSED"]>
             (<["closed_at" := VStr ts]> row)))).

(** The realized PnL of a trade closed at [exit]: the difference runs from
    entry to exit for a BUY and from exit to entry otherwise. *)
Definition side_pnl (side : string) (entry exit quantity : Q) : Q :=
  if String.eqb side "BUY" then (exit - entry) * quantity
  else (entry - exit) * quantity.

(** What one attempt of [fetch_candles] yields at request [n]. *)
Definition candles_attempt (c : DataCollector.t) (n : nat) : result (list (list value)) :=
  ohlcv <- fetch_ohlcv (DataCollector.exchange_ c) n ;; DataCollector.to_dataframe ohlcv.

(** [abs(pos.get('size', 0)) > 0], when it can be evaluated. *)
Definition size_test (pos : dict) : result bool :=
  a <- py_abs (get pos "size" (num 0)) ;; py_gt a (num 0).

(** A world with other tables, requests and log lines but these trades. *)
Definition with_trades (w : world) (tr : gmap Z dict) : world :=
  {| db := Database.set_trades (db w) tr; market := market w; journal := journal w |}.

Definition with_market (w : world) (v : venue) : world :=
  {| db := db w; market := v; journal := journal w |}.

Definition with_event (w : world) (ev : event) : world :=
  {| db := db w; market := market w; journal := journal w ++ [ev] |}.

(** Running [m] from [w] relates the trade table before and after by [T],
    whether [m] returns or raises. *)
Definition preserves_at (T : gmap Z dict -> gmap Z dict -> Prop) {A : Type}
    (m : M world A) (w : world) : Prop :=
  forall r w', m w = (r, w') ->
    T (Database.trades (db w)) (Database.trades (db w')).

(** The row under [k] is what it was. *)
Definition same_at (k : Z) (tr tr' : gmap Z dict) : Prop := tr' !! k = tr !! k.

(** If [row] was under [k], it still is. *)
Definition kept_at (k : Z) (row : dict) (tr tr' : gmap Z dict) : Prop :=
  tr !! k = Some row -> tr' !! k = Some row.

(** The columns a closing update writes. *)
Definition closing_columns : list string :=
  ["exit_price"; "pnl"; "pnl_percent"; "status"; "closed_at"].

(** Every row of the table holds only columns the table declares. *)
Definition within_schema (tr : gmap Z dict) : bool :=
  forallb (fun kr : Z * dict => Database.known_columns kr.2) (map_to_list tr).

(** [m], run from [v], makes between one and three requests, pauses one
    second after the first failure and two after the second, and ends in a
    network error only after the third request. *)
Definition bounded_retries {A : Type} (m : M venue A) (v : venue) : Prop :=
  exists k : nat,
    (1 <= k <= 3)%nat /\
    requests (m v).2 = (requests v + k)%nat /\
    sleeps (m v).2 = (sleeps v ++ take (k - 1) [1%Q; 2%Q])%list /\
    ((m v).1 = Raise NetworkError -> k = 3%nat).

(** Where the trade table hands back what was stored. SQLite converts a
    value on its way into a column of another type, and the driver refuses
    integers of 2^63 or more; a string or NULL in a TEXT column, and a number
    below 2^53 in size or NULL in a REAL or INTEGER column, come back as they
    went in. The key and the two stamps are left out: SQLite writes them. *)
Definition text_columns : list string :=
  ["symbol"; "side"; "status"; "exchange_order_id"].

Definition number_columns : list string :=
  ["signal_id"; "quantity"; "entry_price"; "exit_price"; "stop_loss";
   "take_profit"; "pnl"; "pnl_percent"].

Definition stored_as_given (c : string) (v : value) : bool :=
  match v with
  | VNone => bool_decide (c ∈ text_columns) || bool_decide (c ∈ number_columns)
  | VStr _ => bool_decide (c ∈ text_columns)
  | VNum q => bool_decide (c ∈ number_columns) && Qltb (Qabs q) (inject_Z (2 ^ 53))
  | _ => false
  end.

(** What [save_signal] and [save_ai_log] can bind without an error: a
    string, a bool, a number below 2^53 in size, or [None], in every field of
    the signal they read. *)
Definition bindable (v : value) : bool :=
  match v with
  | VNone | VStr _ | VBool _ => true
  | VNum q => Qltb (Qabs q) (inject_Z (2 ^ 53))
  | VDatetime _ => false
  end.

Definition signal_fields : list string :=
  ["symbol"; "action"; "confidence"; "reasoning"; "entry_price"; "stop_loss";
   "take_profit"; "position_size_pct"; "indicators"; "ai_raw_response";
   "prompt_version"; "latency_ms"].

Definition signal_bindable (signal : dict) : bool :=
  forallb (fun c => bindable (get_ signal c)) signal_fields.





(** The stop orders among the open orders. *)
Definition stop_orders (open_orders : list dict) : list dict :=
  filter (fun order => py_eq (get_ order "type") (VStr "stop_market") = true) open_orders.



(** The trades the monitoring loop handles before it comes to the trade
    with id [k]. *)
Fixpoint trades_before (k : Z) (open_trades : list dict) : list dict :=
  match open_trades with
  | [] => []
  | trade :: rest =>
      if py_eq (get_ trade "id") (num (inject_Z k)) then []
      else trade :: trades_before k rest
  end.

(** The world in which the monitoring cycle started in [w] turns to the
    trade with id [k]: the venue has by then answered the requests made for
    the trades before it. *)
Definition monitor_reaches (b : bot) (clk : clock) (k : Z) (w : world) : world :=
  (monitor_trades b clk
     (trades_before k (Database.get_open_trades (db w) VNone)) w).2.

(** The periodic tasks, and a run of them in the order the scheduler fires
    them, each with the clock readings of its turn. *)
Inductive task : Type :=
| Analysis (symbol : string)
| Monitor.

Definition run_task (b : bot) (clk : clock) (t : task) (w : world) : world :=
  match t with
  | Analysis symbol => run_analysis b clk symbol w
  | Monitor => run_monitor b clk w
  end.

Definition run_schedule (b : bot) (schedule : list (clock * task)) (w : world) : world :=
  foldl (fun w ct => run_task b ct.1 ct.2 w) w schedule.

(** ** Scenarios

    The concrete inputs the properties below are run on. *)

Definition midnight : datetime := mk_datetime 0 None.

(** The default risk configuration. *)
Definition default_risk : RiskManager.t := RiskManager.init ∅.

(** A BUY signal with every price field and no confidence. *)
Definition signal_without_confidence : dict :=
  {[ "action" := VStr "BUY"; "entry_price" := VNum 100;
     "stop_loss" := VNum 98; "take_profit" := VNum 110;
     "position_size_pct" := VNum 2 ]}.

(** A CLOSE signal of confidence 80, and a day with one closed trade that
    lost 700 (Scenario E's figures). *)
Definition close_signal_80 : dict :=
  {[ "symbol" := VStr "X"; "action" := VStr "CLOSE"; "confidence" := VNum 80 ]}.

Definition closed_trade_minus_700 : dict :=
  {[ "id" := VNum 7; "symbol" := VStr "X"; "side" := VStr "BUY";
     "status" := VStr "CLOSED"; "pnl" := VNum (-700) ]}.

(** Scenario A: entry 100, stop 98, 2 % of the balance. *)
Definition signal_A : dict :=
  {[ "action" := VStr "BUY"; "confidence" := VNum 80;
     "entry_price" := VNum 100; "stop_loss" := VNum 98;
     "take_profit" := VNum 110; "position_size_pct" := VNum 2 ]}.

(** The same signal with a stop at price zero. *)
Definition signal_zero_stop : dict := <["stop_loss" := VNum 0]> signal_A.

(** 2024-03-01 11:00:00 on every clock. *)
Definition clock_11 : clock :=
  {| now := mk_datetime 1709290800000000 None;
     time_ms := 1709290800000;
     current_timestamp := "2024-03-01 11:00:00" |}.

(** A venue that answers every request the same way. *)
Definition steady_exchange (positions : list dict) (ticker order : dict) : exchange :=
  {| fetch_ohlcv := fun _ => Ok [];
     fetch_ticker := fun _ => Ok ticker;
     fetch_balance := fun _ => Ok {[ "USDT" := ({[ "free" := VNum 10000 ]} : dict) ]};
     fetch_positions := fun _ => Ok positions;
     create_market_order := fun _ => Ok order;
     create_order := fun _ => Ok ∅;
     fetch_open_orders := fun _ => Ok [];
     cancel_order := fun _ => Ok tt |}.

(** A live bot on exchange [ex] whose signal source answers [signal]. *)
Definition live_bot (ex : exchange) (signal : dict) : bot :=
  {| risk_manager := default_risk;
     collector := {| DataCollector.exchange_ := ex; DataCollector.demo_mode := false |};
     executor := Some {| TradeExecutor.exchange_ := ex |};
     dry_run := false;
     calculate_all_indicators := fun _ => Ok {[ "current_price" := VNum 100 ]};
     get_ai_signal := fun _ _ _ _ => signal |}.

(** The row of a trade on X opened at 10:00:00. *)
Definition trade_row (side : string) (entry quantity : Q) : dict :=
  Database.new_trade_row
    {[ "symbol" := VStr "X"; "side" := VStr side; "quantity" := VNum quantity;
       "entry_price" := VNum entry; "status" := VStr "OPEN" ]}
    "2024-03-01 10:00:00".

Definition fresh_venue : venue := {| requests := 0; sleeps := [] |}.

(** A world whose only trade is [row], under key 1. *)
Definition world_with (row : dict) : world :=
  {| db := {| Database.trades := {[ 1 := row ]};
              Database.signals := ∅;
              Database.portfolio_snapshots := [] |};
     market := fresh_venue;
     journal := [] |}.

Definition hold_signal_80 : dict :=
  {[ "symbol" := VStr "X"; "action" := VStr "HOLD"; "confidence" := VNum 80 ]}.

(** What the venue reports for a long position of 2 on X. *)
Definition long_position : dict :=
  {[ "symbol" := VStr "X"; "side" := VStr "long"; "contracts" := VNum 2;
     "unrealizedPnl" := VNum 5 ]}.

Definition short_position : dict :=
  {[ "symbol" := VStr "X"; "side" := VStr "short"; "contracts" := VNum 2;
     "unrealizedPnl" := VNum 5 ]}.

(** Scenario F: no position left on the venue, last price 110. *)
Definition bot_F : bot :=
  live_bot (steady_exchange [] {[ "last" := VNum 110 ]} ∅) hold_signal_80.

Definition world_F : world := world_with (trade_row "BUY" 100 2).

(** Scenario F inside a portfolio: a second trade, on Y, opened at 10:30:00,
    whose position is still on the venue. The monitoring loop takes the
    younger trade first, so the venue's first answer is the position on Y;
    after that it reports no position, and a last price of 110. *)
Definition trade_row_Y : dict :=
  Database.new_trade_row
    {[ "symbol" := VStr "Y"; "side" := VStr "BUY"; "quantity" := VNum 1;
       "entry_price" := VNum 50; "status" := VStr "OPEN" ]}
    "2024-03-01 10:30:00".

Definition world_F_and_Y : world :=
  {| db := {| Database.trades := {[ 1 := trade_row "BUY" 100 2; 2 := trade_row_Y ]};
              Database.signals := ∅;
              Database.portfolio_snapshots := [] |};
     market := fresh_venue;
     journal := [] |}.

Definition position_Y : dict :=
  {[ "symbol" := VStr "Y"; "side" := VStr "long"; "contracts" := VNum 1;
     "unrealizedPnl" := VNum 3 ]}.

Definition bot_F_and_Y : bot :=
  live_bot
    {| fetch_ohlcv := fun _ => Ok [];
       fetch_ticker := fun _ => Ok {[ "last" := VNum 110 ]};
       fetch_balance := fun _ => Ok {[ "USDT" := ({[ "free" := VNum 10000 ]} : dict) ]};
       fetch_positions := fun n => if (n <? 1)%nat then Ok [position_Y] else Ok [];
       create_market_order := fun _ => Ok ∅;
       create_order := fun _ => Ok ∅;
       fetch_open_orders := fun _ => Ok [];
       cancel_order := fun _ => Ok tt |}
    hold_signal_80.

(** The position is still there. *)
Definition bot_still_open : bot :=
  live_bot (steady_exchange [long_position] {[ "last" := VNum 110 ]} ∅) hold_signal_80.

(** The signal source says CLOSE and the venue fills the closing order at
    [fill]. *)
Definition bot_closing (position : dict) (fill : Q) : bot :=
  live_bot (steady_exchange [position] {[ "last" := VNum fill ]}
              {[ "id" := VStr "c1"; "average" := VNum fill ]})
           close_signal_80.

(** A trade closed earlier at 105. *)
Definition closed_trade_row : dict :=
  closed_row (VNum 105) (VNum 10) (VNum 5) "2024-03-01 10:30:00"
    (trade_row "BUY" 100 2).

(** A venue whose first answer is a network error and which answers well
    from then on. *)
Definition flaky_exchange : exchange :=
  {| fetch_ohlcv := fun n => if (n <? 1)%nat then Raise NetworkError else Ok [];
     fetch_ticker := fun n => if (n <? 1)%nat then Raise NetworkError else Ok ∅;
     fetch_balance := fun n => if (n <? 1)%nat then Raise NetworkError else Ok ∅;
     fetch_positions := fun n => if (n <? 1)%nat then Raise NetworkError else Ok [];
     create_market_order := fun n =>
       if (n <? 1)%nat then Raise NetworkError
       else Ok {[ "id" := VStr "o1"; "average" := VNum 100 ]};
     create_order := fun _ => Ok ∅;
     fetch_open_orders := fun _ => Ok [];
     cancel_order := fun _ => Ok tt |}.

(** A trade opened an hour before [clock_11], stamped in UTC with a Z, and
    the same stamp as SQLite writes it. *)
Definition last_trade_Z : dict := {[ "opened_at" := VStr "2024-03-01T10:00:00Z" ]}.
Definition last_trade_naive : dict := {[ "opened_at" := VStr "2024-03-01 10:00:00" ]}.

(** Scenario C: a BUY signal of confidence 65 against the threshold 70. *)
Definition signal_C : dict := <["confidence" := VNum 65]> signal_A.

(** A HOLD signal with nothing but its action and confidence. *)
Definition bare_hold_signal : dict :=
  {[ "action" := VStr "HOLD"; "confidence" := VNum 70 ]}.



(** A venue that fills market orders at 100, holds one stop order and one
    limit order, and refuses every new protective order. *)
Definition no_stops_exchange : exchange :=
  {| fetch_ohlcv := fun _ => Ok [];
     fetch_ticker := fun _ => Ok ∅;
     fetch_balance := fun _ => Ok ∅;
     fetch_positions := fun _ => Ok [];
     create_market_order := fun _ => Ok {[ "id" := VStr "o1"; "average" := VNum 100 ]};
     create_order := fun _ => Raise InvalidOrder;
     fetch_open_orders := fun _ =>
       Ok [ {[ "id" := VStr "s1"; "type" := VStr "stop_market" ]};
            {[ "id" := VStr "l1"; "type" := VStr "limit" ]} ];
     cancel_order := fun _ => Ok tt |}.

(** Scenario A as the signal source hands it over, with its symbol. *)
Definition signal_A_on_X : dict := <["symbol" := VStr "X"]> signal_A.

(** The bot of Scenario A on paper: the signal source says BUY, the venue
    would fill the order, and [dry_run] is set. *)
Definition paper_bot : bot :=
  {| risk_manager := default_risk;
     collector := {| DataCollector.exchange_ := no_stops_exchange;
                     DataCollector.demo_mode := true |};
     executor := Some {| TradeExecutor.exchange_ := no_stops_exchange |};
     dry_run := true;
     calculate_all_indicators := fun _ => Ok {[ "current_price" := VNum 100 ]};
     get_ai_signal := fun _ _ _ _ => signal_A_on_X |}.

(** The same bot trading for real on a venue that fills at 100. *)
Definition bot_A : bot :=
  live_bot (steady_exchange [] ∅ {[ "id" := VStr "o1"; "average" := VNum 100 ]})
           signal_A_on_X.

(** The same bot on a venue whose order reports carry no price. *)
Definition bot_priceless : bot :=
  live_bot (steady_exchange [] ∅ {[ "id" := VStr "o1"; "price" := VNone ]})
           signal_A_on_X.

Definition empty_world : world :=
  {| db := Database.empty_db; market := fresh_venue; journal := [] |}.

(** The report of a day with one trade, closed with a PnL of 10. *)
Definition report_of_one_win : dict :=
  {[ "total_trades" := VNum 1; "wins" := VNum 1; "losses" := VNum 0;
     "win_rate" := VNum 100; "total_pnl" := VNum 10; "best_trade" := VNum 10;
     "worst_trade" := VNum 10; "open_positions" := VNum 0;
     "balance" := VNum 10000 ]}.




(** * Properties *)

(** ** Numbers and values *)

Lemma Qltb_lt (x y : Q) : Qltb x y = true <-> (x < y)%Q.
Proof.
  unfold Qltb. rewrite negb_true_iff. split.
  - intros H. apply Qnot_le_lt. intros Hle.
    apply Qle_bool_iff in Hle. congruence.
  - intros H. destruct (Qle_bool y x) eqn:E; [|reflexivity].
    apply Qle_bool_iff in E. exfalso. exact (Qlt_not_le _ _ H E).
Qed.

Lemma Qltb_ge (x y : Q) : Qltb x y = false <-> (y <= x)%Q.
Proof.
  unfold Qltb. rewrite negb_false_iff. apply Qle_bool_iff.
Qed.


Lemma Qeq_bool_proper (x x' y y' : Q) :
  (x == x')%Q -> (y == y')%Q -> Qeq_bool x y = Qeq_bool x' y'.
Proof. intros Hx Hy. apply Qeqb_comp; assumption. Qed.

Lemma Qeq_bool_false (x y : Q) : ~ (x == y)%Q -> Qeq_bool x y = false.
Proof.
  intros H. destruct (Qeq_bool x y) eqn:E; [|reflexivity].
  apply Qeq_bool_iff in E. contradiction.
Qed.

Lemma py_sum_num (xs : list value) (v : value) :
  py_sum xs = Ok v -> exists q, v = VNum q.
Proof.
  unfold py_sum.
  assert (G : forall acc, (forall a, acc = Ok a -> exists q, a = VNum q) ->
              foldl (fun acc x => a <- acc ;; py_add a x) acc xs = Ok v ->
              exists q, v = VNum q).
  { induction xs as [|x xs IH]; intros acc Hacc H; simpl in H.
    - eauto.
    - apply (IH (a <- acc ;; py_add a x)); [|exact H].
      intros a Ha. destruct acc as [a0|]; simpl in Ha; [|discriminate].
      unfold py_add, arith in Ha.
      destruct (as_number a0), (as_number x); try discriminate.
      injection Ha as <-. unfold num. eauto. }
  apply G. intros a Ha. injection Ha as <-. unfold num. eauto.
Qed.


(** ** The rule chain *)

(** C10. A signal without a [confidence] entry is read as confidence 0 and,
    whenever the configured threshold is positive (70 when the option is
    absent), is rejected by rule 1; no exception is raised and no later rule
    is looked at. *)
Theorem validate_signal_missing_confidence
    (self : RiskManager.t) (now : datetime) (signal : dict)
    (portfolio_balance : Q) (open_trades trades_today : list dict)
    (last_trade : option dict) :
  signal !! "confidence" = None ->
  (0 < default 70%Q (RiskManager.config self !! "min_confidence"))%Q ->
  RiskManager.validate_signal self now signal portfolio_balance open_trades
      trades_today last_trade =
    Ok (false, ConfidenceBelowThreshold (VNum 0)
                 (default 70%Q (RiskManager.config self !! "min_confidence"))).
Proof.
  intros Hconf Hpos. unfold RiskManager.validate_signal, get.
  rewrite Hconf. simpl.
  apply Qltb_lt in Hpos. change (Qred 0) with 0%Q. rewrite Hpos. reflexivity.
Qed.

(** Under the default configuration, for a BUY signal that has every price
    field. *)
Lemma validate_signal_missing_confidence_witness :
  RiskManager.validate_signal default_risk midnight
      signal_without_confidence 10000 [] [] None =
    Ok (false, ConfidenceBelowThreshold (VNum 0) 70%Q).
Proof.
  exact (validate_signal_missing_confidence default_risk midnight
           signal_without_confidence 10000 [] [] None eq_refl eq_refl).
Defined.




(** ** Position sizing *)


(** ** Position sizing *)

Lemma Qabs_nonzero (x : Q) : ~ (x == 0)%Q -> ~ (Qabs x == 0)%Q.
Proof.
  intros Hx Habs. apply Hx.
  destruct (Qlt_le_dec x 0) as [Hneg|Hpos].
  - rewrite (Qabs_neg x) in Habs by lra. lra.
  - rewrite (Qabs_pos x Hpos) in Habs. exact Habs.
Qed.

(** C6, as the code has it. When the stop-loss is a number other than zero
    and other than the entry price, and the entry price (the signal's, or the
    current price when the signal has no such entry) is a number other than
    zero, the size returned is the smaller of the risk-based size
    [balance * max_risk_per_trade / |entry - stop|] and the notional cap
    [(balance * position_size_pct / 100) / entry], with 2 for a missing
    [position_size_pct]; it is therefore at most each of them. *)
Theorem calculate_position_size_min
    (self : RiskManager.t) (signal : dict) (portfolio_balance : Q)
    (current_price : value) (entry stop pct : Q) :
  get signal "entry_price" current_price = VNum entry ->
  get_ signal "stop_loss" = VNum stop ->
  get signal "position_size_pct" (num 2) = VNum pct ->
  ~ (stop == 0)%Q -> ~ (stop == entry)%Q -> ~ (entry == 0)%Q ->
  let raw_size := (portfolio_balance * RiskManager.max_risk_per_trade self
                   / Qabs (entry - stop))%Q in
  let cap_size := (portfolio_balance * (pct / 100) / entry)%Q in
  RiskManager.calculate_position_size self signal portfolio_balance current_price
    = Ok (num (Qmin raw_size cap_size)) /\
  (Qmin raw_size cap_size <= cap_size)%Q /\
  (Qmin raw_size cap_size <= raw_size)%Q.
Proof.
  intros Hentry Hstop Hpct Hs0 Hse He0 raw_size cap_size.
  split; [|split; [apply Q.le_min_r | apply Q.le_min_l]].
  unfold RiskManager.calculate_position_size.
  rewrite Hentry, Hstop, Hpct.
  cbn [truthy py_eq as_number negb orb].
  rewrite (Qeq_bool_false stop 0 Hs0), (Qeq_bool_false stop entry Hse).
  assert (Hrisk : Qeq_bool (Qred (Qabs (Qred (entry - stop)))) 0 = false).
  { apply Qeq_bool_false. rewrite !Qred_correct.
    apply Qabs_nonzero. intros H. apply Hse. lra. }
  unfold py_min, py_sub, py_abs, py_div, py_mul, py_lt, arith.
  unfold num at 1 2 3 4 5 6 7 8 9.
  cbn [negb orb as_number rbind].
  rewrite Hrisk. cbn [as_number rbind].
  change (Qeq_bool (Qred 100) 0) with false. cbn [as_number rbind].
  rewrite (Qeq_bool_false entry 0 He0). cbn [as_number rbind].
  set (raw := Qred (Qred (portfolio_balance * RiskManager.max_risk_per_trade self)
                    / Qred (Qabs (Qred (entry - stop))))).
  set (cap := Qred (Qred (portfolio_balance * Qred (pct / Qred 100)) / entry)).
  assert (Hraw : (raw == raw_size)%Q).
  { unfold raw, raw_size. rewrite !Qred_correct. reflexivity. }
  assert (Hcap : (cap == cap_size)%Q).
  { unfold cap, cap_size. rewrite !Qred_correct. reflexivity. }
  assert (Hred : forall x y : Q, (Qred x == y)%Q -> VNum (Qred x) = num y).
  { intros x y H. unfold num. f_equal. rewrite <- (Qred_complete _ _ H).
    symmetry. apply Qred_complete. apply Qred_correct. }
  destruct (Qltb cap raw) eqn:E; f_equal.
  - apply Qltb_lt in E. apply Hred. fold cap.
    rewrite Q.min_r by lra. exact Hcap.
  - apply Qltb_ge in E. apply Hred. fold raw.
    rewrite Q.min_l by lra. exact Hraw.
Qed.

(** Scenario A: balance 10000, 2 % risk, entry 100, stop 98, 2 % of the
    balance at most. The size is exactly 2. *)
Lemma calculate_position_size_scenario_A :
  RiskManager.calculate_position_size default_risk signal_A 10000 VNone
    = Ok (VNum 2).
Proof.
  exact (proj1 (calculate_position_size_min default_risk signal_A 10000 VNone
                  100 98 2 eq_refl eq_refl eq_refl
                  ltac:(vm_compute; discriminate) ltac:(vm_compute; discriminate)
                  ltac:(vm_compute; discriminate))).
Defined.

(** C6, as stated, fails: with a stop-loss of 0, which is present and differs
    from the entry price 100, the size is 0 although both ceilings are 2. *)
Lemma calculate_position_size_zero_stop :
  signal_zero_stop !! "stop_loss" = Some (VNum 0) /\
  py_eq (VNum 0) (get signal_zero_stop "entry_price" VNone) = false /\
  RiskManager.calculate_position_size default_risk signal_zero_stop 10000 VNone
    = Ok (VNum 0) /\
  (Qmin (10000 * RiskManager.max_risk_per_trade default_risk / Qabs (100 - 0))
        (10000 * (2 / 100) / 100) == 2)%Q.
Proof. repeat split; vm_compute; reflexivity. Qed.

(** ** The trade table *)

Lemma insert_desc_perm (x : Z * dict) (l : list (Z * dict)) :
  Database.insert_desc x l ≡ₚ x :: l.
Proof.
  induction l as [|y l IH]; simpl.
  - reflexivity.
  - destruct (Database.sql_le _ _).
    + reflexivity.
    + rewrite IH. apply Permutation_swap.
Qed.

Lemma order_by_opened_at_desc_perm (l : list (Z * dict)) :
  Database.order_by_opened_at_desc l ≡ₚ l.
Proof.
  unfold Database.order_by_opened_at_desc.
  induction l as [|x l IH]; simpl.
  - reflexivity.
  - rewrite insert_desc_perm, IH. reflexivity.
Qed.

(** A SELECT returns rows of the table, each once, and only rows that meet
    its WHERE clause. *)
Lemma select_trades_elem (d : Database.t) (where_ : dict -> bool) (trade : dict) :
  trade ∈ Database.select_trades d where_ <->
  exists k row, Database.trades d !! k = Some row /\ where_ row = true /\
                trade = Database.row_dict (k, row).
Proof.
  unfold Database.select_trades.
  rewrite list_elem_of_fmap. split.
  - intros [[k row] [-> Hin]].
    rewrite order_by_opened_at_desc_perm in Hin.
    apply list_elem_of_filter in Hin as [Hw Hin].
    apply elem_of_map_to_list in Hin. exists k, row. auto.
  - intros (k & row & Hk & Hw & ->). exists (k, row). split; [reflexivity|].
    rewrite order_by_opened_at_desc_perm.
    apply list_elem_of_filter. split; [exact Hw|].
    apply elem_of_map_to_list. exact Hk.
Qed.

Lemma status_is_true (s : string) (row : dict) :
  Database.status_is s row = true <-> get_ row "status" = VStr s.
Proof.
  unfold Database.status_is. split.
  - destruct (get_ row "status") as [| [] | q | s' | dt]; simpl; try discriminate.
    intros H. apply String.eqb_eq in H. congruence.
  - intros ->. simpl. apply String.eqb_refl.
Qed.

(** Every trade [get_open_trades] hands out is a row of the table whose
    status is OPEN, under the key it carries as its [id]. *)
Lemma get_open_trades_elem (d : Database.t) (symbol : value) (trade : dict) :
  trade ∈ Database.get_open_trades d symbol ->
  exists k row, Database.trades d !! k = Some row /\
                get_ row "status" = VStr "OPEN" /\
                trade = Database.row_dict (k, row).
Proof.
  unfold Database.get_open_trades. intros H.
  destruct (truthy symbol); apply select_trades_elem in H
    as (k & row & Hk & Hw & ->); exists k, row; repeat split; auto.
  - apply andb_true_iff in Hw as [Hw _]. apply status_is_true. exact Hw.
  - apply status_is_true. exact Hw.
Qed.


Lemma as_id_num (k : Z) : Database.as_id (num (inject_Z k)) = Some k.
Proof.
  unfold Database.as_id, num. cbn [as_number].
  assert (H : Qred (inject_Z k) = inject_Z k).
  { unfold Qred, inject_Z.
    pose proof (Z.ggcd_gcd k 1) as Hg.
    pose proof (Z.ggcd_correct_divisors k 1) as Hd.
    destruct (Z.ggcd k 1) as [g [aa bb]]. simpl in *.
    rewrite Z.gcd_1_r in Hg. subst g. destruct Hd as [Ha Hb].
    replace aa with k by lia. replace bb with 1 by lia. reflexivity. }
  rewrite !H. reflexivity.
Qed.

Lemma row_dict_id (k : Z) (row : dict) :
  getitem (Database.row_dict (k, row)) "id" = Ok (num (inject_Z k)).
Proof. unfold getitem, Database.row_dict. simpl. rewrite lookup_insert_eq. reflexivity. Qed.

Lemma row_dict_get (k : Z) (row : dict) (c : string) (dflt : value) :
  c <> "id" -> get (Database.row_dict (k, row)) c dflt = get row c dflt.
Proof.
  intros Hc. unfold get, Database.row_dict. simpl.
  rewrite lookup_insert_ne by congruence. reflexivity.
Qed.

(** A new key is larger than every key in use. *)
Lemma next_id_fresh (table : gmap Z dict) : table !! Database.next_id table = None.
Proof.
  destruct (table !! Database.next_id table) as [row|] eqn:E; [|reflexivity].
  exfalso. apply elem_of_map_to_list in E.
  assert (G : forall l : list (Z * dict), forall k r,
            (k, r) ∈ l -> k <= foldr Z.max 0 (map fst l)).
  { induction l as [|[k' r'] l IH]; intros k r Hin.
    - inversion Hin.
    - apply elem_of_cons in Hin as [Heq|Hin]; simpl.
      + injection Heq as -> ->. lia.
      + specialize (IH _ _ Hin). lia. }
  specialize (G _ _ _ E). unfold Database.next_id in G. lia.
Qed.

(** The table has no [unrealized_pnl] column: the statement that sets it
    cannot be prepared, whatever the table holds and whichever trade is
    named. *)
Lemma update_unrealized_pnl_fails (d : Database.t) (trade_id v : value) (ts : string) :
  Database.update_trade d trade_id {[ "unrealized_pnl" := v ]} ts
    = Raise OperationalError.
Proof. vm_compute. reflexivity. Qed.

Lemma update_trade_closing (d : Database.t) (k : Z) (row : dict)
    (exit_price pnl pnl_percent : value) (ts : string) :
  Database.trades d !! k = Some row ->
  Database.update_trade d (num (inject_Z k))
      (closing_updates exit_price pnl pnl_percent) ts =
    Ok (Database.set_trades d
          (<[k := closed_row exit_price pnl pnl_percent ts row]> (Database.trades d))).
Proof.
  intros Hk. unfold Database.update_trade.
  assert (Hsets : Database.assignments (closing_updates exit_price pnl pnl_percent) ts
                  = <["closed_at" := VStr ts]> (closing_updates exit_price pnl pnl_percent)).
  { vm_compute. reflexivity. }
  rewrite Hsets. clear Hsets.
  set (sets := <["closed_at" := VStr ts]> (closing_updates exit_price pnl pnl_percent)).
  assert (H1 : (size sets =? 0)%nat = false) by (vm_compute; reflexivity).
  assert (H2 : Database.known_columns sets = true) by (vm_compute; reflexivity).
  assert (H3 : existsb (Database.assigns_null sets) Database.trade_not_null = false)
    by (vm_compute; reflexivity).
  assert (H4 : sets !! "id" = None) by (vm_compute; reflexivity).
  rewrite H1, H2, as_id_num, Hk, H3, H4. cbn [negb].
  do 2 f_equal. f_equal.
  rewrite (delete_id sets "id" H4).
  unfold sets, closing_updates, closed_row.
  rewrite <- !insert_union_l, <- insert_union_singleton_l.
  rewrite (insert_insert_ne _ "closed_at" "exit_price") by congruence.
  rewrite (insert_insert_ne _ "closed_at" "pnl") by congruence.
  rewrite (insert_insert_ne _ "closed_at" "pnl_percent") by congruence.
  rewrite (insert_insert_ne _ "closed_at" "status") by congruence.
  reflexivity.
Qed.

(** ** Running a task, step by step *)

Lemma bind_ok {S A B : Type} (m : M S A) (k : A -> M S B) (s s1 : S) (a : A) :
  m s = (Ok a, s1) -> bind m k s = k a s1.
Proof. intros H. unfold bind. rewrite H. reflexivity. Qed.

Lemma bind_raise {S A B : Type} (m : M S A) (k : A -> M S B) (s s1 : S) (e : exn) :
  m s = (Raise e, s1) -> bind m k s = (Raise e, s1).
Proof. intros H. unfold bind. rewrite H. reflexivity. Qed.

Lemma bind_lift_ok {S A B : Type} (r : result A) (k : A -> M S B) (s : S) (a : A) :
  r = Ok a -> bind (lift r) k s = k a s.
Proof. intros ->. reflexivity. Qed.

Lemma on_venue_run {A : Type} (m : M venue A) (w : world) (r : result A) (v : venue) :
  m (market w) = (r, v) -> on_venue m w = (r, with_market w v).
Proof. intros H. unfold on_venue. rewrite H. reflexivity. Qed.

Lemma position_exists_none (clk : clock) (trade : dict) (positions : list dict) (w : world) :
  Forall (fun pos => size_test pos = Ok false) positions ->
  position_exists clk trade positions w = (Ok false, w).
Proof.
  induction 1 as [|pos rest Hpos _ IH]; cbn [position_exists].
  - reflexivity.
  - unfold size_test in Hpos.
    destruct (py_abs (get pos "size" (num 0))) as [a|]; simpl in Hpos;
      [|discriminate].
    unfold bind, lift. rewrite Hpos. exact IH.
Qed.

(** As soon as a position of non-zero size is met, the write of its
    unrealized PnL is attempted and fails. *)
Lemma position_exists_raises (clk : clock) (k : Z) (row : dict)
    (zeros : list dict) (pos : dict) (rest : list dict) (w : world) :
  Forall (fun pos => size_test pos = Ok false) zeros ->
  size_test pos = Ok true ->
  position_exists clk (Database.row_dict (k, row)) (zeros ++ pos :: rest) w
    = (Raise OperationalError, w).
Proof.
  intros Hzeros Hpos.
  induction Hzeros as [|z zeros Hz _ IH]; cbn [app position_exists].
  - unfold size_test in Hpos.
    destruct (py_abs (get pos "size" (num 0))) as [a|]; simpl in Hpos;
      [|discriminate].
    unfold bind, lift. rewrite Hpos, row_dict_id.
    unfold update_trade, write_db.
    rewrite update_unrealized_pnl_fails. reflexivity.
  - unfold size_test in Hz.
    destruct (py_abs (get z "size" (num 0))) as [a|]; simpl in Hz;
      [|discriminate].
    unfold bind, lift. rewrite Hz. exact IH.
Qed.

(** C3, as the code behaves. When the venue still shows a position of
    non-zero size for an open trade, the monitoring turn for that trade
    changes no table at all: the write of the unrealized PnL raises
    [OperationalError] (the table has no such column), the turn's handler
    logs it, and the trade keeps every stored field. *)
Theorem monitor_trade_unrealized_pnl_not_stored
    (b : bot) (clk : clock) (w : world) (k : Z) (row : dict)
    (zeros : list dict) (pos : dict) (rest : list dict) (v : venue) :
  DataCollector.fetch_open_positions (collector b) (get_ row "symbol") (market w)
    = (Ok (zeros ++ pos :: rest)%list, v) ->
  Forall (fun pos => size_test pos = Ok false) zeros ->
  size_test pos = Ok true ->
  monitor_trade b clk (Database.row_dict (k, row)) w =
    (Ok tt,
     with_event (with_market w v)
       (LogError "Error monitoring trade" (num (inject_Z k)) OperationalError)).
Proof.
  intros Hfetch Hzeros Hpos. unfold monitor_trade, try_except.
  unfold get_ at 1. rewrite (row_dict_get k row "symbol" VNone) by discriminate.
  fold (get_ row "symbol").
  rewrite (bind_ok _ _ _ _ _ (on_venue_run _ _ _ _ Hfetch)).
  rewrite (bind_raise _ _ _ _ _ (position_exists_raises clk k row zeros pos rest _ Hzeros Hpos)).
  unfold emit, with_event, get_, get, Database.row_dict. simpl.
  rewrite lookup_insert_eq. reflexivity.
Qed.

Lemma update_trade_closing_run (clk : clock) (w : world) (k : Z) (row : dict)
    (exit_price pnl pnl_percent : value) :
  Database.trades (db w) !! k = Some row ->
  update_trade (num (inject_Z k)) (closing_updates exit_price pnl pnl_percent) clk w =
    (Ok tt,
     with_trades w (<[k := closed_row exit_price pnl pnl_percent
                             (current_timestamp clk) row]> (Database.trades (db w)))).
Proof.
  intros Hk. unfold update_trade, write_db.
  rewrite (update_trade_closing _ _ _ _ _ _ _ Hk). reflexivity.
Qed.

Lemma num_eq (x y : Q) : (x == y)%Q -> num x = num y.
Proof. intros H. unfold num. f_equal. apply Qred_complete. exact H. Qed.

Lemma record_venue_close_run (b : bot) (clk : clock) (w : world) (k : Z)
    (row ticker : dict) (v : venue) (side : string) (price entry quantity : Q) :
  Database.trades (db w) !! k = Some row ->
  DataCollector.fetch_ticker (collector b) clk (get_ row "symbol") (market w)
    = (Ok ticker, v) ->
  get ticker "price" (num 0) = VNum price ->
  get row "entry_price" (num 0) = VNum entry ->
  get row "quantity" (num 0) = VNum quantity ->
  get row "side" (VStr "BUY") = VStr side ->
  (0 < entry * quantity)%Q ->
  record_venue_close b clk (Database.row_dict (k, row)) (get_ row "symbol") w =
    (Ok tt,
     with_trades (with_market w v)
       (<[k := closed_row (VNum price)
                 (num (side_pnl side entry price quantity))
                 (num (side_pnl side entry price quantity / (entry * quantity) * 100))
                 (current_timestamp clk) row]> (Database.trades (db w)))).
Proof.
  intros Hk Hticker Hprice Hentry Hqty Hside Hpos.
  unfold record_venue_close.
  rewrite (bind_ok _ _ _ _ _ (on_venue_run _ _ _ _ Hticker)).
  rewrite Hprice, !row_dict_get, Hentry, Hqty, Hside by discriminate.
  assert (Hgt : Qltb (Qred 0) (Qred (entry * quantity)) = true).
  { apply Qltb_lt. rewrite !Qred_correct. exact Hpos. }
  assert (Hnz : Qeq_bool (Qred (entry * quantity)) 0 = false).
  { apply Qeq_bool_false. rewrite Qred_correct. lra. }
  assert (Hpnl : (if py_eq (VStr side) (VStr "BUY")
                  then d <- py_sub (VNum price) (VNum entry) ;; py_mul d (VNum quantity)
                  else d <- py_sub (VNum entry) (VNum price) ;; py_mul d (VNum quantity))
                 = Ok (num (side_pnl side entry price quantity))).
  { unfold side_pnl. cbn [py_eq as_number].
    destruct (String.eqb side "BUY");
      cbn [py_sub py_mul arith as_number rbind num]; f_equal;
      apply num_eq; rewrite Qred_correct; reflexivity. }
  assert (Hguard : py_gt (num (entry * quantity)) (num 0) = Ok true).
  { unfold py_gt, py_lt, num. cbn [as_number]. rewrite Hgt. reflexivity. }
  assert (Hpct : (n <- py_mul (VNum entry) (VNum quantity) ;;
                  r <- py_div (num (side_pnl side entry price quantity)) n ;;
                  py_mul r (num 100))
                 = Ok (num (side_pnl side entry price quantity
                            / (entry * quantity) * 100))).
  { unfold py_mul, py_div, arith, num. cbn [as_number rbind].
    rewrite Hnz. cbn [as_number rbind]. f_equal.
    apply num_eq. rewrite !Qred_correct. reflexivity. }
  unfold bind, lift. rewrite Hpnl.
  change (py_mul (VNum entry) (VNum quantity)) with (Ok (num (entry * quantity))) at 1.
  cbv iota beta. rewrite Hguard. cbv iota beta. rewrite Hpct, row_dict_id.
  apply (update_trade_closing_run clk (with_market w v) k row _ _ _ Hk).
Qed.

(** One monitoring turn for a trade whose position is gone from the venue. *)
Lemma monitor_trade_closes (b : bot) (clk : clock) (w : world) (k : Z)
    (row ticker : dict) (positions : list dict) (v1 v2 : venue) (side : string)
    (price entry quantity : Q) :
  Database.trades (db w) !! k = Some row ->
  DataCollector.fetch_open_positions (collector b) (get_ row "symbol") (market w)
    = (Ok positions, v1) ->
  Forall (fun pos => size_test pos = Ok false) positions ->
  DataCollector.fetch_ticker (collector b) clk (get_ row "symbol") v1
    = (Ok ticker, v2) ->
  get ticker "price" (num 0) = VNum price ->
  get row "entry_price" (num 0) = VNum entry ->
  get row "quantity" (num 0) = VNum quantity ->
  get row "side" (VStr "BUY") = VStr side ->
  (0 < entry * quantity)%Q ->
  monitor_trade b clk (Database.row_dict (k, row)) w =
    (Ok tt,
     with_trades (with_market w v2)
       (<[k := closed_row (VNum price)
                 (num (side_pnl side entry price quantity))
                 (num (side_pnl side entry price quantity / (entry * quantity) * 100))
                 (current_timestamp clk) row]> (Database.trades (db w)))).
Proof.
  intros Hk Hfetch Hzeros Hticker Hprice Hentry Hqty Hside Hpos.
  unfold monitor_trade, try_except.
  unfold get_ at 1 2. rewrite (row_dict_get k row "symbol" VNone) by discriminate.
  fold (get_ row "symbol").
  rewrite (bind_ok _ _ _ _ _ (on_venue_run _ _ _ _ Hfetch)).
  rewrite (bind_ok _ _ _ _ _ (position_exists_none clk _ positions _ Hzeros)).
  cbn [negb].
  rewrite (record_venue_close_run b clk (with_market w v1) k row ticker v2 side
             price entry quantity Hk Hticker Hprice Hentry Hqty Hside Hpos).
  reflexivity.
Qed.

(** A monitoring turn never raises: its handler logs whatever went wrong. *)
Lemma monitor_trade_returns (b : bot) (clk : clock) (trade : dict) (w : world) :
  exists w', monitor_trade b clk trade w = (Ok tt, w').
Proof.
  unfold monitor_trade, try_except.
  match goal with |- context [match ?m w with _ => _ end] => destruct (m w) as [[[]|e] w1] end.
  - eauto.
  - unfold emit. eauto.
Qed.

(** ** What a task can do to the trade table *)

Section Preservation.

Variable T : gmap Z dict -> gmap Z dict -> Prop.
Hypothesis T_refl : forall tr, T tr tr.
Hypothesis T_trans : forall tr1 tr2 tr3, T tr1 tr2 -> T tr2 tr3 -> T tr1 tr3.

Lemma pres_ret {A : Type} (a : A) (w : world) : preserves_at T (ret a) w.
Proof. intros r w' H. injection H as _ <-. apply T_refl. Qed.

Lemma pres_raise {A : Type} (e : exn) (w : world) :
  preserves_at T (raise e : M world A) w.
Proof. intros r w' H. injection H as _ <-. apply T_refl. Qed.

Lemma pres_lift {A : Type} (x : result A) (w : world) : preserves_at T (lift x) w.
Proof. intros r w' H. injection H as _ <-. apply T_refl. Qed.

Lemma pres_emit (ev : event) (w : world) : preserves_at T (emit ev) w.
Proof. intros r w' H. injection H as _ <-. apply T_refl. Qed.

Lemma pres_read_db {A : Type} (f : Database.t -> A) (w : world) :
  preserves_at T (read_db f) w.
Proof. intros r w' H. injection H as _ <-. apply T_refl. Qed.

Lemma pres_on_venue {A : Type} (m : M venue A) (w : world) :
  preserves_at T (on_venue m) w.
Proof.
  intros r w' H. unfold on_venue in H. destruct (m (market w)) as [r1 v].
  injection H as _ <-. apply T_refl.
Qed.

Lemma pres_bind {A B : Type} (m : M world A) (k : A -> M world B) (w : world) :
  preserves_at T m w ->
  (forall a w1, m w = (Ok a, w1) -> preserves_at T (k a) w1) ->
  preserves_at T (bind m k) w.
Proof.
  intros Hm Hk r w' H. unfold bind in H.
  destruct (m w) as [[a|e] w1] eqn:E.
  - apply (T_trans _ (Database.trades (db w1))).
    + apply (Hm _ _ E).
    + apply (Hk a w1 eq_refl _ _ H).
  - injection H as _ <-. apply (Hm _ _ E).
Qed.

Lemma pres_try_except {A : Type} (m : M world A) (h : exn -> M world A) (w : world) :
  preserves_at T m w ->
  (forall e w1, m w = (Raise e, w1) -> preserves_at T (h e) w1) ->
  preserves_at T (try_except m h) w.
Proof.
  intros Hm Hh r w' H. unfold try_except in H.
  destruct (m w) as [[a|e] w1] eqn:E.
  - injection H as _ <-. apply (Hm _ _ E).
  - apply (T_trans _ (Database.trades (db w1))).
    + apply (Hm _ _ E).
    + apply (Hh e w1 eq_refl _ _ H).
Qed.

Lemma pres_write_db {A : Type} (f : Database.t -> result (A * Database.t)) (w : world) :
  (forall a d', f (db w) = Ok (a, d') ->
                T (Database.trades (db w)) (Database.trades d')) ->
  preserves_at T (write_db f) w.
Proof.
  intros Hf r w' H. unfold write_db in H.
  destruct (f (db w)) as [[a d']|e] eqn:E.
  - injection H as _ <-. simpl. apply (Hf a d' eq_refl).
  - injection H as _ <-. apply T_refl.
Qed.

(** An update that names trade [k] and leaves the key column alone writes
    under [k] only. *)
Lemma pres_update_trade (k : Z) (updates_dict : dict) (clk : clock) (w : world) :
  (forall tr row', T tr (<[k := row']> tr)) ->
  Database.assignments updates_dict (current_timestamp clk) !! "id" = None ->
  preserves_at T (update_trade (num (inject_Z k)) updates_dict clk) w.
Proof.
  intros HT Hid. unfold update_trade. apply pres_write_db.
  intros [] d' H. unfold Database.update_trade in H.
  rewrite as_id_num, Hid in H.
  destruct (size _ =? 0)%nat; [discriminate|].
  destruct (negb _); [discriminate|].
  destruct (Database.trades (db w) !! k) as [row|].
  - destruct (existsb _ _); [discriminate|].
    simpl in H. injection H as <-. simpl. apply HT.
  - simpl in H. injection H as <-. apply T_refl.
Qed.

Lemma pres_position_exists (clk : clock) (k : Z) (row : dict)
    (positions : list dict) (w : world) :
  (forall tr row', T tr (<[k := row']> tr)) ->
  preserves_at T (position_exists clk (Database.row_dict (k, row)) positions) w.
Proof.
  intros HT. induction positions as [|pos rest IH]; cbn [position_exists].
  - apply pres_ret.
  - apply pres_bind; [apply pres_lift|]. intros a w1 H1. injection H1 as _ <-.
    apply pres_bind; [apply pres_lift|]. intros nz w1 H1. injection H1 as _ <-.
    destruct nz; [|exact IH].
    apply pres_bind; [apply pres_lift|]. intros id w1 H1.
    unfold lift in H1. rewrite row_dict_id in H1. injection H1 as <- <-.
    apply pres_bind; [|intros; apply pres_ret].
    apply pres_update_trade; [exact HT | reflexivity].
Qed.

Lemma pres_record_venue_close (b : bot) (clk : clock) (k : Z) (row : dict)
    (symbol : value) (w : world) :
  (forall tr row', T tr (<[k := row']> tr)) ->
  preserves_at T (record_venue_close b clk (Database.row_dict (k, row)) symbol) w.
Proof.
  intros HT. unfold record_venue_close.
  apply pres_bind; [apply pres_on_venue|]. intros ticker w1 _.
  apply pres_bind; [apply pres_lift|]. intros pnl w2 H2. injection H2 as _ <-.
  apply pres_bind; [apply pres_lift|]. intros notional w2 H2. injection H2 as _ <-.
  apply pres_bind; [apply pres_lift|]. intros guarded w2 H2. injection H2 as _ <-.
  apply pres_bind; [apply pres_lift|]. intros pct w2 H2. injection H2 as _ <-.
  apply pres_bind; [apply pres_lift|]. intros id w2 H2.
  unfold lift in H2. rewrite row_dict_id in H2. injection H2 as <- <-.
  apply pres_update_trade; [exact HT | reflexivity].
Qed.

Lemma pres_monitor_trade (b : bot) (clk : clock) (k : Z) (row : dict) (w : world) :
  (forall tr row', T tr (<[k := row']> tr)) ->
  preserves_at T (monitor_trade b clk (Database.row_dict (k, row))) w.
Proof.
  intros HT. unfold monitor_trade.
  apply pres_try_except; [|intros; apply pres_emit].
  apply pres_bind; [apply pres_on_venue|]. intros positions w1 _.
  apply pres_bind; [apply pres_position_exists; exact HT|]. intros ex w2 _.
  destruct ex; cbn [negb].
  - apply pres_ret.
  - apply pres_record_venue_close. exact HT.
Qed.

Lemma pres_monitor_trades (b : bot) (clk : clock) (rows : list (Z * dict)) (w : world) :
  (forall k row, (k, row) ∈ rows -> forall tr row', T tr (<[k := row']> tr)) ->
  preserves_at T (monitor_trades b clk (map Database.row_dict rows)) w.
Proof.
  revert w. induction rows as [|[k row] rows IH]; intros w HT;
    cbn [map monitor_trades].
  - apply pres_ret.
  - apply pres_bind.
    + apply pres_monitor_trade. apply (HT k row). left.
    + intros _ w1 _. apply IH. intros k' row' Hin. apply (HT k' row'). right. exact Hin.
Qed.

(** A snapshot is appended to its own table. *)
Lemma pres_take_snapshot (b : bot) (clk : clock) (w : world) :
  preserves_at T (take_snapshot b clk) w.
Proof.
  unfold take_snapshot.
  apply pres_try_except; [|intros; apply pres_emit].
  apply pres_bind; [apply pres_on_venue|]. intros balance w1 _.
  apply pres_bind; [apply pres_on_venue|]. intros positions w2 _.
  apply pres_bind; [apply pres_read_db|]. intros today w3 _.
  apply pres_bind; [apply pres_lift|]. intros pnl w4 _.
  apply pres_bind; [apply pres_lift|]. intros unrealized w5 _.
  apply pres_bind; [|intros; apply pres_ret].
  apply pres_write_db. intros a d' H.
  unfold Database.save_portfolio_snapshot in H.
  destruct (Database.violates_not_null _ _); [discriminate|].
  injection H as _ <-. apply T_refl.
Qed.

Lemma pres_record_close (clk : clock) (signal close_result : dict) (k : Z)
    (row : dict) (w : world) :
  (forall tr row', T tr (<[k := row']> tr)) ->
  preserves_at T (record_close clk signal close_result (Database.row_dict (k, row))) w.
Proof.
  intros HT. unfold record_close.
  apply pres_bind; [apply pres_lift|]. intros diff w2 H2. injection H2 as _ <-.
  apply pres_bind; [apply pres_lift|]. intros pnl w2 H2. injection H2 as _ <-.
  apply pres_bind; [apply pres_lift|]. intros notional w2 H2. injection H2 as _ <-.
  apply pres_bind; [apply pres_lift|]. intros ratio w2 H2. injection H2 as _ <-.
  apply pres_bind; [apply pres_lift|]. intros pct w2 H2. injection H2 as _ <-.
  apply pres_bind; [apply pres_lift|]. intros id w2 H2.
  unfold lift in H2. rewrite row_dict_id in H2. injection H2 as <- <-.
  apply pres_bind; [|intros; apply pres_emit].
  apply pres_update_trade; [exact HT | reflexivity].
Qed.

(** A HOLD signal touches the venue at most. *)
Lemma pres_hold_signal (b : bot) (symbol : string) (signal : dict)
    (current_position : option dict) (w : world) :
  preserves_at T (hold_signal b symbol signal current_position) w.
Proof.
  unfold hold_signal. destruct current_position as [position|]; [|apply pres_ret].
  destruct (_ && _); [|apply pres_ret].
  apply pres_bind; [apply pres_lift|]. intros new_sl w1 _.
  destruct (live_executor b); [|apply pres_ret].
  apply pres_bind; [apply pres_on_venue|]. intros; apply pres_ret.
Qed.

(** An admitted signal adds one row, under a new key. *)
Lemma pres_admit_signal (b : bot) (clk : clock) (symbol : string) (signal : dict)
    (signal_id : Z) (portfolio_balance : Q) (indicators : dict) (action : value)
    (w : world) :
  (forall tr row', T tr (<[Database.next_id tr := row']> tr)) ->
  preserves_at T (admit_signal b clk symbol signal signal_id portfolio_balance
                    indicators action) w.
Proof.
  intros HT. unfold admit_signal.
  apply pres_bind; [apply pres_read_db|]. intros open_trades w1 _.
  apply pres_bind; [apply pres_read_db|]. intros trades_today w2 _.
  apply pres_bind; [apply pres_read_db|]. intros last_trade w3 _.
  apply pres_bind; [apply pres_lift|]. intros verdict w4 _.
  destruct (verdict.1); [|apply pres_emit].
  apply pres_bind; [apply pres_lift|]. intros position_size w5 _.
  destruct (live_executor b) as [ex|]; [|apply pres_emit].
  apply pres_bind; [apply pres_lift|]. intros side w6 _.
  apply pres_bind; [apply pres_on_venue|]. intros trade_result w7 _.
  destruct (truthy _).
  - apply pres_bind; [|intros; apply pres_emit].
    apply pres_write_db. intros a d' H.
    unfold Database.save_trade in H.
    destruct (Database.violates_not_null _ _); [discriminate|].
    injection H as _ <-. simpl. apply HT.
  - apply pres_bind; [apply pres_emit|]. intros; apply pres_emit.
Qed.

End Preservation.

Lemma same_at_refl (k : Z) (tr : gmap Z dict) : same_at k tr tr.
Proof. reflexivity. Qed.

Lemma same_at_trans (k : Z) (tr1 tr2 tr3 : gmap Z dict) :
  same_at k tr1 tr2 -> same_at k tr2 tr3 -> same_at k tr1 tr3.
Proof. unfold same_at. congruence. Qed.

Lemma same_at_insert (k k' : Z) (tr : gmap Z dict) (row' : dict) :
  k' <> k -> same_at k tr (<[k' := row']> tr).
Proof. intros H. unfold same_at. apply lookup_insert_ne. exact H. Qed.

Lemma kept_at_refl (k : Z) (row : dict) (tr : gmap Z dict) : kept_at k row tr tr.
Proof. intros H. exact H. Qed.

Lemma kept_at_trans (k : Z) (row : dict) (tr1 tr2 tr3 : gmap Z dict) :
  kept_at k row tr1 tr2 -> kept_at k row tr2 tr3 -> kept_at k row tr1 tr3.
Proof. unfold kept_at. auto. Qed.

Lemma kept_at_insert (k k' : Z) (row : dict) (tr : gmap Z dict) (row' : dict) :
  k' <> k -> kept_at k row tr (<[k' := row']> tr).
Proof. intros H Hk. rewrite lookup_insert_ne by exact H. exact Hk. Qed.

Lemma kept_at_fresh (k : Z) (row : dict) (tr : gmap Z dict) (row' : dict) :
  kept_at k row tr (<[Database.next_id tr := row']> tr).
Proof.
  intros Hk. rewrite lookup_insert_ne; [exact Hk|].
  intros Heq. pose proof (next_id_fresh tr) as Hf. rewrite Heq in Hf. congruence.
Qed.

Lemma NoDup_fst_filter (P : Z * dict -> Prop) `{!forall x, Decision (P x)}
    (l : list (Z * dict)) :
  NoDup (l.*1) -> NoDup ((filter P l).*1).
Proof.
  induction l as [|x l IH]; intros Hnd; [constructor|].
  rewrite fmap_cons in Hnd. apply NoDup_cons in Hnd as [Hx Hnd].
  rewrite filter_cons. destruct (decide (P x)).
  - rewrite fmap_cons. apply NoDup_cons. split; [|apply IH; exact Hnd].
    intros Hin. apply Hx. apply list_elem_of_fmap in Hin as [y [Hy Hin]].
    apply list_elem_of_filter in Hin as [_ Hin].
    apply list_elem_of_fmap. exists y. auto.
  - apply IH. exact Hnd.
Qed.

(** What a SELECT over the trade table hands out: rows of the table that
    meet the WHERE clause, each key once. *)
Lemma select_trades_rows (d : Database.t) (where_ : dict -> bool) :
  exists rows : list (Z * dict),
    Database.select_trades d where_ = map Database.row_dict rows /\
    NoDup (rows.*1) /\
    forall k row, (k, row) ∈ rows <->
                  Database.trades d !! k = Some row /\ where_ row = true.
Proof.
  exists (Database.order_by_opened_at_desc
            (filter (fun kr => where_ kr.2 = true) (map_to_list (Database.trades d)))).
  split; [reflexivity|]. split.
  - rewrite order_by_opened_at_desc_perm.
    apply NoDup_fst_filter, NoDup_fst_map_to_list.
  - intros k row. rewrite order_by_opened_at_desc_perm, list_elem_of_filter,
      elem_of_map_to_list. simpl. tauto.
Qed.

Lemma get_open_trades_rows (d : Database.t) (symbol : value) :
  exists rows : list (Z * dict),
    Database.get_open_trades d symbol = map Database.row_dict rows /\
    NoDup (rows.*1) /\
    (forall k row, (k, row) ∈ rows ->
                   Database.trades d !! k = Some row /\
                   get_ row "status" = VStr "OPEN") /\
    (truthy symbol = false ->
     forall k row, Database.trades d !! k = Some row ->
                   get_ row "status" = VStr "OPEN" -> (k, row) ∈ rows).
Proof.
  unfold Database.get_open_trades. destruct (truthy symbol).
  - destruct (select_trades_rows d
                (fun row => Database.status_is "OPEN" row && Database.symbol_is symbol row))
      as (rows & Heq & Hnd & Hin).
    exists rows. repeat split; auto; try discriminate.
    + apply Hin in H. tauto.
    + apply Hin in H as [_ Hw]. apply andb_true_iff in Hw as [Hw _].
      apply status_is_true. exact Hw.
  - destruct (select_trades_rows d (Database.status_is "OPEN")) as (rows & Heq & Hnd & Hin).
    exists rows. repeat split; auto.
    + apply Hin in H. tauto.
    + apply Hin in H as [_ Hw]. apply status_is_true. exact Hw.
    + intros _ k row Hk Hs. apply Hin. split; [exact Hk|].
      apply status_is_true. exact Hs.
Qed.

Lemma monitor_trades_returns (b : bot) (clk : clock) (trades : list dict) (w : world) :
  exists w', monitor_trades b clk trades w = (Ok tt, w').
Proof.
  revert w. induction trades as [|trade rest IH]; intros w; cbn [monitor_trades].
  - unfold ret. eauto.
  - destruct (monitor_trade_returns b clk trade w) as [w1 H1].
    rewrite (bind_ok _ _ _ _ _ H1). apply IH.
Qed.

Lemma take_snapshot_returns (b : bot) (clk : clock) (w : world) :
  exists w', take_snapshot b clk w = (Ok tt, w').
Proof.
  unfold take_snapshot, try_except.
  match goal with |- context [match ?m w with _ => _ end] => destruct (m w) as [[[]|e] w1] end.
  - eauto.
  - unfold emit. eauto.
Qed.

(** The trade table after a monitoring cycle is the table after its loop
    over the open trades. *)
Lemma run_monitor_trades (b : bot) (clk : clock) (w : world) :
  exists w1,
    monitor_trades b clk (Database.get_open_trades (db w) VNone) w = (Ok tt, w1) /\
    Database.trades (db (run_monitor b clk w)) = Database.trades (db w1).
Proof.
  destruct (monitor_trades_returns b clk (Database.get_open_trades (db w) VNone) w)
    as [w1 H1].
  exists w1. split; [exact H1|].
  unfold run_monitor, bind, read_db. rewrite H1.
  destruct (take_snapshot_returns b clk w1) as [w2 H2]. rewrite H2.
  pose proof (pres_take_snapshot eq (fun _ => eq_refl) (@eq_trans _) b clk w1 _ _ H2) as H.
  symmetry. exact H.
Qed.

Lemma monitor_trades_same_at (b : bot) (clk : clock) (k : Z) (rows : list (Z * dict))
    (w w' : world) (r : result unit) :
  k ∉ rows.*1 ->
  monitor_trades b clk (map Database.row_dict rows) w = (r, w') ->
  Database.trades (db w') !! k = Database.trades (db w) !! k.
Proof.
  intros Hk H.
  apply (pres_monitor_trades (same_at k) (same_at_refl k) (same_at_trans k)
           b clk rows w) in H; [exact H|].
  intros k' row' Hin tr r'. apply same_at_insert. intros ->.
  apply Hk. apply list_elem_of_fmap. exists (k, row'). auto.
Qed.

Lemma monitor_trades_app (b : bot) (clk : clock) (l1 l2 : list dict) (w : world) :
  monitor_trades b clk (l1 ++ l2) w =
    monitor_trades b clk l2 (monitor_trades b clk l1 w).2.
Proof.
  revert w. induction l1 as [|trade l1 IH]; intros w; cbn [app monitor_trades].
  - reflexivity.
  - destruct (monitor_trade_returns b clk trade w) as [w1 H1].
    rewrite !(bind_ok _ _ _ _ _ H1). apply IH.
Qed.

Lemma py_eq_id (k' k : Z) :
  py_eq (num (inject_Z k')) (num (inject_Z k)) = bool_decide (k' = k).
Proof.
  unfold py_eq, num. cbn [as_number].
  destruct (decide (k' = k)) as [->|Hne].
  - rewrite bool_decide_eq_true_2 by reflexivity. apply Qeq_bool_iff. reflexivity.
  - rewrite bool_decide_eq_false_2 by exact Hne. apply Qeq_bool_false.
    rewrite !Qred_correct. intros E. apply Hne.
    unfold Qeq, inject_Z in E. simpl in E. lia.
Qed.

Lemma trades_before_rows (k : Z) (row : dict) (rows1 rows2 : list (Z * dict)) :
  k ∉ rows1.*1 ->
  trades_before k (map Database.row_dict (rows1 ++ (k, row) :: rows2)) =
    map Database.row_dict rows1.
Proof.
  induction rows1 as [|[k' row'] rows1 IH]; intros Hk; cbn [app map trades_before].
  - unfold get_, get, Database.row_dict. cbn [fst snd].
    rewrite lookup_insert_eq. cbn [default from_option id].
    rewrite py_eq_id, bool_decide_eq_true_2 by reflexivity. reflexivity.
  - rewrite fmap_cons in Hk. apply not_elem_of_cons in Hk as [Hne Hk]. simpl in Hne.
    unfold get_ at 1, get at 1, Database.row_dict at 1. cbn [fst snd].
    rewrite lookup_insert_eq. cbn [default from_option id].
    rewrite py_eq_id, bool_decide_eq_false_2 by congruence.
    rewrite (IH Hk). reflexivity.
Qed.

(** C8. On a monitoring cycle, an OPEN trade whose symbol has no position of
    non-zero size on the venue is closed: [exit_price] is the ticker price,
    [pnl] is (exit - entry) * quantity for a BUY and (entry - exit) * quantity
    otherwise, [pnl_percent] is pnl / (entry * quantity) * 100, [status] is
    CLOSED and [closed_at] is stamped; the other columns keep their values.
    The venue's answers are those it gives when the cycle comes to this
    trade, whatever it answered for the trades handled before and whatever
    it answers afterwards; the trade is taken to have a positive notional. *)
Theorem run_monitor_closes_vanished_position
    (b : bot) (clk : clock) (w : world) (k : Z) (row ticker : dict)
    (positions : list dict) (v1 v2 : venue) (side : string)
    (price entry quantity : Q) :
  Database.trades (db w) !! k = Some row ->
  get_ row "status" = VStr "OPEN" ->
  DataCollector.fetch_open_positions (collector b) (get_ row "symbol")
    (market (monitor_reaches b clk k w)) = (Ok positions, v1) ->
  Forall (fun pos => size_test pos = Ok false) positions ->
  DataCollector.fetch_ticker (collector b) clk (get_ row "symbol") v1
    = (Ok ticker, v2) ->
  get ticker "price" (num 0) = VNum price ->
  get row "entry_price" (num 0) = VNum entry ->
  get row "quantity" (num 0) = VNum quantity ->
  get row "side" (VStr "BUY") = VStr side ->
  (0 < entry * quantity)%Q ->
  Database.trades (db (run_monitor b clk w)) !! k =
    Some (closed_row (VNum price)
            (num (side_pnl side entry price quantity))
            (num (side_pnl side entry price quantity / (entry * quantity) * 100))
            (current_timestamp clk) row).
Proof.
  intros Hk Hopen Hpositions Hzeros Hticker Hprice Hentry Hqty Hside Hpos.
  destruct (run_monitor_trades b clk w) as (w3 & H3 & ->).
  unfold monitor_reaches in Hpositions.
  destruct (get_open_trades_rows (db w) VNone) as (rows & Heq & Hnd & _ & Hall).
  rewrite Heq in H3, Hpositions.
  destruct (list_elem_of_split _ _ (Hall eq_refl k row Hk Hopen))
    as (rows1 & rows2 & ->).
  rewrite fmap_app, fmap_cons in Hnd. apply NoDup_app in Hnd as (_ & Hapart & Hnd2).
  apply NoDup_cons in Hnd2 as [Hk2 _]. simpl in Hk2.
  assert (Hk1 : k ∉ rows1.*1).
  { intros Hin. apply (Hapart k Hin). left. }
  rewrite (trades_before_rows k row rows1 rows2 Hk1) in Hpositions.
  rewrite map_app, monitor_trades_app in H3. cbn [map monitor_trades] in H3.
  destruct (monitor_trades b clk (map Database.row_dict rows1) w) as [r1 w1] eqn:E1.
  cbn [snd] in H3, Hpositions.
  assert (Hk' : Database.trades (db w1) !! k = Some row).
  { rewrite (monitor_trades_same_at b clk k rows1 _ _ _ Hk1 E1). exact Hk. }
  rewrite (bind_ok _ _ _ _ _
             (monitor_trade_closes b clk w1 k row ticker positions v1 v2 side
                price entry quantity Hk' Hpositions Hzeros Hticker Hprice Hentry
                Hqty Hside Hpos)) in H3.
  rewrite (monitor_trades_same_at b clk k rows2 _ _ _ Hk2 H3).
  simpl. apply lookup_insert_eq.
Qed.

(** ** Closed trades *)

Lemma status_closed_not_open (row : dict) :
  get_ row "status" = VStr "CLOSED" -> get_ row "status" <> VStr "OPEN".
Proof. intros ->. discriminate. Qed.

Lemma run_monitor_keeps_closed (b : bot) (clk : clock) (w : world) (k : Z) (row : dict) :
  Database.trades (db w) !! k = Some row ->
  get_ row "status" = VStr "CLOSED" ->
  Database.trades (db (run_monitor b clk w)) !! k = Some row.
Proof.
  intros Hk Hclosed.
  destruct (run_monitor_trades b clk w) as (w1 & H1 & ->).
  destruct (get_open_trades_rows (db w) VNone) as (rows & Heq & _ & Hopen & _).
  rewrite Heq in H1.
  rewrite (monitor_trades_same_at b clk k rows w w1 (Ok tt)); [exact Hk | | exact H1].
  intros Hin. apply list_elem_of_fmap in Hin as [[k' row'] [Hk' Hin]].
  simpl in Hk'. subst k'. apply Hopen in Hin as [Hrow Hstatus].
  rewrite Hk in Hrow. injection Hrow as <-.
  exact (status_closed_not_open row Hclosed Hstatus).
Qed.

Lemma pres_close_signal_kept (b : bot) (clk : clock) (symbol : string) (signal : dict)
    (current_position : option dict) (k : Z) (row : dict) (w : world) :
  get_ row "status" = VStr "CLOSED" ->
  preserves_at (kept_at k row) (close_signal b clk symbol signal current_position) w.
Proof.
  intros Hclosed.
  pose proof (kept_at_refl k row) as Hr. pose proof (kept_at_trans k row) as Ht.
  unfold close_signal.
  destruct current_position as [position|]; [|apply pres_ret; exact Hr].
  destruct (dict_truthy _); [|apply pres_ret; exact Hr].
  destruct (live_executor b) as [ex|]; [|apply pres_ret; exact Hr].
  apply pres_bind; [exact Ht | apply pres_on_venue; exact Hr |].
  intros close_result w1 _.
  destruct (truthy _); [|apply pres_ret; exact Hr].
  apply pres_bind; [exact Ht | apply pres_read_db; exact Hr |].
  intros open_trades w2 H2. unfold read_db in H2. injection H2 as <- <-.
  destruct (get_open_trades_rows (db w1) (VStr symbol)) as (rows & Heq & _ & Hopen & _).
  rewrite Heq. destruct rows as [|[k' row'] rows]; cbn [map].
  - apply pres_ret; exact Hr.
  - destruct (Hopen k' row' ltac:(left)) as [Hrow' Hstatus'].
    destruct (Z.eq_dec k' k) as [->|Hne].
    + intros r w' _ Hk. rewrite Hk in Hrow'. injection Hrow' as <-.
      destruct (status_closed_not_open row Hclosed Hstatus').
    + apply pres_record_close; [exact Hr | exact Ht |].
      intros tr r'. apply kept_at_insert. exact Hne.
Qed.

Lemma run_analysis_keeps_closed (b : bot) (clk : clock) (symbol : string) (w : world)
    (k : Z) (row : dict) :
  Database.trades (db w) !! k = Some row ->
  get_ row "status" = VStr "CLOSED" ->
  Database.trades (db (run_analysis b clk symbol w)) !! k = Some row.
Proof.
  intros Hk Hclosed.
  pose proof (kept_at_refl k row) as Hr. pose proof (kept_at_trans k row) as Ht.
  assert (Hbody : preserves_at (kept_at k row) (run_analysis_body b clk symbol) w).
  { unfold run_analysis_body.
    apply pres_bind; [exact Ht | apply pres_on_venue; exact Hr |]. intros c1 w1 _.
    apply pres_bind; [exact Ht | apply pres_on_venue; exact Hr |]. intros c4 w2 _.
    apply pres_bind; [exact Ht | apply pres_lift; exact Hr |]. intros ind w3 _.
    apply pres_bind; [exact Ht | apply pres_on_venue; exact Hr |]. intros bal w4 _.
    apply pres_bind; [exact Ht | apply pres_on_venue; exact Hr |]. intros pos w5 _.
    apply pres_bind; [exact Ht | |].
    { apply pres_write_db; [exact Hr|]. intros a d' H.
      unfold Database.save_signal in H.
      destruct (Database.violates_not_null _ _); [discriminate|].
      injection H as _ <-. apply Hr. }
    intros signal_id w6 _.
    apply pres_bind; [exact Ht | apply pres_lift; exact Hr |]. intros a1 w7 _.
    apply pres_bind; [exact Ht | apply pres_lift; exact Hr |]. intros a2 w8 _.
    destruct (is_buy_or_sell _).
    - apply pres_admit_signal; [exact Hr | exact Ht |].
      intros tr r'. apply kept_at_fresh.
    - destruct (py_eq _ (VStr "CLOSE")).
      + apply pres_close_signal_kept. exact Hclosed.
      + destruct (py_eq _ (VStr "HOLD")).
        * apply pres_hold_signal; [exact Hr | exact Ht].
        * apply pres_ret; exact Hr. }
  unfold run_analysis.
  destruct (run_analysis_body b clk symbol w) as [[[]|e] w'] eqn:E.
  - apply (Hbody _ _ E Hk).
  - simpl. apply (Hbody _ _ E Hk).
Qed.

(** C9. Whatever tasks run, in whatever order and at whatever times, a trade
    that is CLOSED keeps its row as it is: its status never returns to OPEN
    and its exit price, PnL and closing stamp are never written again. Both
    close paths pick their trades from [get_open_trades], which hands out
    rows whose status is OPEN only. *)
Theorem closed_trades_stay_closed
    (b : bot) (schedule : list (clock * task)) (w : world) (k : Z) (row : dict) :
  Database.trades (db w) !! k = Some row ->
  get_ row "status" = VStr "CLOSED" ->
  Database.trades (db (run_schedule b schedule w)) !! k = Some row /\
  forall symbol trade,
    trade ∈ Database.get_open_trades (db (run_schedule b schedule w)) symbol ->
    get_ trade "status" = VStr "OPEN" /\ getitem trade "id" <> Ok (num (inject_Z k)).
Proof.
  intros Hk Hclosed.
  assert (Hkept : Database.trades (db (run_schedule b schedule w)) !! k = Some row).
  { unfold run_schedule. revert w Hk.
    induction schedule as [|[clk t] schedule IH]; intros w Hk; simpl.
    - exact Hk.
    - apply IH. destruct t as [symbol|]; simpl.
      + apply run_analysis_keeps_closed; assumption.
      + apply run_monitor_keeps_closed; assumption. }
  split; [exact Hkept|].
  intros symbol trade Hin.
  apply get_open_trades_elem in Hin as (k' & row' & Hk' & Hstatus & ->).
  split.
  - unfold get_. rewrite row_dict_get by discriminate. exact Hstatus.
  - rewrite row_dict_id. intros Heq.
    assert (Hkk : k' = k).
    { assert (H : Database.as_id (num (inject_Z k')) = Database.as_id (num (inject_Z k)))
        by (injection Heq as Heq; unfold num; rewrite Heq; reflexivity).
      rewrite !as_id_num in H. congruence. }
    subst k'. rewrite Hkept in Hk'. injection Hk' as <-.
    exact (status_closed_not_open row Hclosed Hstatus).
Qed.

(** ** The scenarios, run *)

(** Scenario F: side BUY, entry 100, quantity 2, ticker 110, held next to a
    trade on Y whose position is live. The venue shows the position on Y
    when asked for the younger trade and no position when asked for this
    one: the trade ends CLOSED with exit price 110, PnL 20 and 10 %. *)
Lemma run_monitor_scenario_F :
  Database.trades (db (run_monitor bot_F_and_Y clock_11 world_F_and_Y)) !! 1 =
    Some (closed_row (VNum 110) (VNum 20) (VNum 10) "2024-03-01 11:00:00"
            (trade_row "BUY" 100 2)).
Proof.
  exact (run_monitor_closes_vanished_position bot_F_and_Y clock_11 world_F_and_Y 1
           (trade_row "BUY" 100 2) {[ "symbol" := VStr "X"; "price" := VNum 110;
              "change_24h" := VNum 0; "volume_24h" := VNum 0; "high_24h" := VNum 0;
              "low_24h" := VNum 0; "timestamp" := VNum 1709290800000 ]}
           [] {| requests := 2; sleeps := [] |} {| requests := 3; sleeps := [] |}
           "BUY" 110 100 2
           eq_refl eq_refl eq_refl (List.Forall_nil _) eq_refl
           eq_refl eq_refl eq_refl eq_refl eq_refl).
Defined.

(** The position of Scenario F is still on the venue, with an unrealized PnL
    of 5: the monitoring turn logs the failed write, and after the whole
    cycle the trade row is what it was. *)
Lemma monitor_trade_unrealized_pnl_witness :
  monitor_trade bot_still_open clock_11
      (Database.row_dict (1, trade_row "BUY" 100 2)) world_F =
    (Ok tt,
     with_event (with_market world_F {| requests := 1; sleeps := [] |})
       (LogError "Error monitoring trade" (VNum 1) OperationalError)) /\
  Database.trades (db (run_monitor bot_still_open clock_11 world_F)) !! 1 =
    Some (trade_row "BUY" 100 2).
Proof.
  split.
  - exact (monitor_trade_unrealized_pnl_not_stored bot_still_open clock_11 world_F 1
             (trade_row "BUY" 100 2) []
             (DataCollector.format_position long_position (VNum 2)) []
             {| requests := 1; sleeps := [] |}
             eq_refl (List.Forall_nil _) eq_refl).
  - vm_compute. reflexivity.
Defined.

(** A trade closed at 10:30 goes through a monitoring cycle and an analysis
    that ends in a CLOSE signal, and stays as it was. *)
Lemma closed_trades_stay_closed_witness :
  Database.trades
    (db (run_schedule (bot_closing long_position 110)
           [(clock_11, Monitor); (clock_11, Analysis "X")]
           (world_with closed_trade_row))) !! 1 = Some closed_trade_row.
Proof.
  exact (proj1 (closed_trades_stay_closed (bot_closing long_position 110)
                  [(clock_11, Monitor); (clock_11, Analysis "X")]
                  (world_with closed_trade_row) 1 closed_trade_row
                  eq_refl eq_refl)).
Defined.

(** C1, on the code. An explicit CLOSE of a SELL trade (entry 100, quantity
    2) filled at 90 records a PnL of -20 and -10 %: the explicit path
    computes (exit - entry) * quantity whatever the side. The claim's value
    for a SELL trade, (entry - exit) * quantity, is 20, which is what the
    monitoring path records for the same trade closed at the same price. *)
Theorem explicit_close_ignores_side :
  let closed_by_signal :=
    run_analysis (bot_closing short_position 90) clock_11 "X"
      (world_with (trade_row "SELL" 100 2)) in
  let closed_by_monitor :=
    run_monitor (live_bot (steady_exchange [] {[ "last" := VNum 90 ]} ∅) hold_signal_80)
      clock_11 (world_with (trade_row "SELL" 100 2)) in
  Database.trades (db closed_by_signal) !! 1 =
    Some (closed_row (VNum 90) (VNum (-20)) (VNum (-10)) "2024-03-01 11:00:00"
            (trade_row "SELL" 100 2)) /\
  Database.trades (db closed_by_monitor) !! 1 =
    Some (closed_row (VNum 90) (VNum 20) (VNum 10) "2024-03-01 11:00:00"
            (trade_row "SELL" 100 2)) /\
  side_pnl "SELL" 100 90 2 = 20%Q.
Proof. repeat split; vm_compute; reflexivity. Qed.

(** C4, on the code. A trade stored with entry price 0 (what [save_trade]
    receives when the venue reports no fill price) and closed by a CLOSE
    signal filled at 110: the explicit path divides by entry * quantity = 0,
    the analysis ends in its handler with [ZeroDivisionError], and the trade
    stays OPEN with no exit price and no PnL although the venue closed the
    position. The monitoring path, which tests the divisor, closes the same
    trade with a percentage of 0. *)
Theorem explicit_close_divides_by_zero :
  let after_signal :=
    run_analysis (bot_closing long_position 110) clock_11 "X"
      (world_with (trade_row "BUY" 0 2)) in
  let after_monitor :=
    run_monitor bot_F clock_11 (world_with (trade_row "BUY" 0 2)) in
  Database.trades (db after_signal) !! 1 = Some (trade_row "BUY" 0 2) /\
  journal after_signal =
    [LogError "Error in analysis" (VStr "X") ZeroDivisionError;
     ErrorAlert "Analysis error" (VStr "ZeroDivisionError")] /\
  requests (market after_signal) = 5%nat /\
  Database.trades (db after_monitor) !! 1 =
    Some (closed_row (VNum 110) (VNum 220) (VNum 0) "2024-03-01 11:00:00"
            (trade_row "BUY" 0 2)).
Proof. repeat split; vm_compute; reflexivity. Qed.

(** ** Cooldown *)

(** C7, on the code. The last trade was opened one hour ago and the cooldown
    is two hours. With the stamp SQLite writes, the symbol is in cooldown.
    With the same instant written with a trailing Z, the stamp parses to an
    aware datetime, subtracting it from the naive [datetime.now()] raises
    [TypeError], and the handler answers "not in cooldown". *)
Theorem is_in_cooldown_utc_suffix_fails_open :
  RiskManager.cooldown_hours default_risk = 2%Q /\
  Datetime.fromisoformat (Datetime.replace_Z "2024-03-01T10:00:00Z")
    = Ok (mk_datetime 1709287200000000 (Some 0)) /\
  Datetime.sub (now clock_11) (mk_datetime 1709287200000000 (Some 0))
    = Raise TypeError /\
  RiskManager.is_in_cooldown default_risk (now clock_11) (Some last_trade_Z) = false /\
  Datetime.fromisoformat (Datetime.replace_Z "2024-03-01 10:00:00")
    = Ok (mk_datetime 1709287200000000 None) /\
  RiskManager.is_in_cooldown default_risk (now clock_11) (Some last_trade_naive) = true.
Proof. repeat split; vm_compute; reflexivity. Qed.

(** ** Retries *)

Lemma to_dataframe_not_network (ohlcv : list (list value)) :
  DataCollector.to_dataframe ohlcv <> Raise NetworkError.
Proof.
  unfold DataCollector.to_dataframe.
  induction ohlcv as [|row rows IH]; simpl; [discriminate|].
  destruct (foldr _ _ rows) as [acc|e] eqn:E; simpl.
  - destruct row as [|ts [|? [|? [|? [|? [|? [|? ?]]]]]]]; try discriminate.
    destruct (as_number ts); discriminate.
  - intros H. apply IH. exact H.
Qed.

Lemma candles_body_run (c : DataCollector.t) (v : venue) :
  (ohlcv <~ request (fetch_ohlcv (DataCollector.exchange_ c)) ;;
   lift (DataCollector.to_dataframe ohlcv)) v =
    (candles_attempt c (requests v),
     {| requests := S (requests v); sleeps := sleeps v |}).
Proof.
  unfold bind, request, lift, candles_attempt.
  destruct (fetch_ohlcv _ _); reflexivity.
Qed.

Lemma candles_attempt_network (c : DataCollector.t) (n : nat) :
  fetch_ohlcv (DataCollector.exchange_ c) n = Raise NetworkError ->
  candles_attempt c n = Raise NetworkError.
Proof. intros H. unfold candles_attempt. rewrite H. reflexivity. Qed.

Lemma candles_attempt_other (c : DataCollector.t) (n : nat) :
  fetch_ohlcv (DataCollector.exchange_ c) n <> Raise NetworkError ->
  match candles_attempt c n with
  | Ok _ => True
  | Raise e => is_network_error e = false
  end.
Proof.
  intros H. unfold candles_attempt.
  destruct (fetch_ohlcv _ n) as [ohlcv|e]; simpl.
  - pose proof (to_dataframe_not_network ohlcv) as Hdf.
    destruct (DataCollector.to_dataframe ohlcv) as [df|e]; [exact I|].
    destruct e; try reflexivity. congruence.
  - destruct e; try reflexivity. congruence.
Qed.

(** One turn of the retry loop: the attempt ends the loop unless it raised a
    network error before the last attempt. *)
Lemma retry_loop_settled (c : DataCollector.t) (attempt : nat) (rest : list nat)
    (v : venue) :
  fetch_ohlcv (DataCollector.exchange_ c) (requests v) <> Raise NetworkError ->
  DataCollector.retry_loop
    (ohlcv <~ request (fetch_ohlcv (DataCollector.exchange_ c)) ;;
     lift (DataCollector.to_dataframe ohlcv)) [] (attempt :: rest) v =
    (candles_attempt c (requests v),
     {| requests := S (requests v); sleeps := sleeps v |}).
Proof.
  intros H. cbn [DataCollector.retry_loop]. unfold try_except.
  rewrite candles_body_run.
  pose proof (candles_attempt_other c (requests v) H) as Ho.
  destruct (candles_attempt c (requests v)) as [df|e]; [reflexivity|].
  rewrite Ho. reflexivity.
Qed.

Lemma retry_loop_again (c : DataCollector.t) (attempt : nat) (rest : list nat)
    (v : venue) :
  fetch_ohlcv (DataCollector.exchange_ c) (requests v) = Raise NetworkError ->
  DataCollector.retry_loop
    (ohlcv <~ request (fetch_ohlcv (DataCollector.exchange_ c)) ;;
     lift (DataCollector.to_dataframe ohlcv)) [] (attempt :: rest) v =
    if (attempt <? 2)%nat then
      DataCollector.retry_loop
        (ohlcv <~ request (fetch_ohlcv (DataCollector.exchange_ c)) ;;
         lift (DataCollector.to_dataframe ohlcv)) [] rest
        {| requests := S (requests v);
           sleeps := sleeps v ++ [(DataCollector.retry_delay * inject_Z (2 ^ Z.of_nat attempt)%Z)%Q] |}
    else (Raise NetworkError, {| requests := S (requests v); sleeps := sleeps v |}).
Proof.
  intros H. cbn [DataCollector.retry_loop]. unfold try_except.
  rewrite candles_body_run, (candles_attempt_network c _ H).
  cbn [is_network_error]. unfold DataCollector.max_retries.
  change (3 - 1)%nat with 2%nat.
  destruct (attempt <? 2)%nat; reflexivity.
Qed.

(** C5, as the code has it. A candle fetch retries network errors only: if
    the first [k] answers are network errors ([k] at most 3) and the next one
    is anything else, the fetch ends with that answer after [k + 1] requests
    and pauses of 1 and 2 seconds between them; after three network errors it
    raises the third. An order placement makes one attempt: whatever
    [create_market_order] raises, a network error included, comes back at
    once as a failure dict with the matching [error] text, after one request
    and no pause. *)
Theorem fetch_retries_order_placement_does_not
    (c : DataCollector.t) (x : TradeExecutor.t) (v : venue) (k : nat)
    (symbol timeframe side : string) (limit quantity : Q)
    (stop_loss take_profit : value) (e : exn) :
  (k <= 3)%nat ->
  (forall j, (j < k)%nat ->
     fetch_ohlcv (DataCollector.exchange_ c) (requests v + j) = Raise NetworkError) ->
  ((k < 3)%nat ->
     fetch_ohlcv (DataCollector.exchange_ c) (requests v + k) <> Raise NetworkError) ->
  create_market_order (TradeExecutor.exchange_ x) (requests v) = Raise e ->
  DataCollector.fetch_candles c symbol timeframe limit v =
    ((if (k <? 3)%nat then candles_attempt c (requests v + k) else Raise NetworkError),
     {| requests := requests v + Nat.min (k + 1) 3;
        sleeps := sleeps v ++ take k [1%Q; 2%Q] |}) /\
  TradeExecutor.place_market_order x symbol side (VNum quantity) stop_loss take_profit v =
    (Ok (TradeExecutor.failure (TradeExecutor.order_error e) e),
     {| requests := S (requests v); sleeps := sleeps v |}).
Proof.
  intros Hk Hnet Hother Horder. split.
  - unfold DataCollector.fetch_candles, DataCollector.range, DataCollector.max_retries.
    cbn [seq].
    destruct k as [|[|[|[|k]]]]; [| | | |lia].
    + rewrite Nat.add_0_r in Hother |- *.
      rewrite retry_loop_settled by (apply Hother; lia).
      cbn [Nat.ltb Nat.leb Nat.min Nat.add take]. rewrite Nat.add_1_r, app_nil_r.
      reflexivity.
    + pose proof (Hnet 0%nat ltac:(lia)) as H0. rewrite Nat.add_0_r in H0.
      rewrite (retry_loop_again c 0 _ v H0). cbn [Nat.ltb Nat.leb].
      rewrite retry_loop_settled
        by (cbn [requests]; rewrite <- Nat.add_1_r; apply Hother; lia).
      cbn [requests sleeps Nat.min Nat.add take]. rewrite <- Nat.add_1_r.
      do 2 f_equal. lia.
    + pose proof (Hnet 0%nat ltac:(lia)) as H0. rewrite Nat.add_0_r in H0.
      pose proof (Hnet 1%nat ltac:(lia)) as H1. rewrite Nat.add_1_r in H1.
      rewrite (retry_loop_again c 0 _ v H0). cbn [Nat.ltb Nat.leb].
      rewrite retry_loop_again by exact H1. cbn [Nat.ltb Nat.leb].
      rewrite retry_loop_settled
        by (cbn [requests]; replace (S (S (requests v))) with (requests v + 2)%nat by lia;
            apply Hother; lia).
      cbn [requests sleeps Nat.min Nat.add take].
      replace (S (S (requests v))) with (requests v + 2)%nat by lia.
      rewrite <- app_assoc. do 2 f_equal. lia.
    + pose proof (Hnet 0%nat ltac:(lia)) as H0. rewrite Nat.add_0_r in H0.
      pose proof (Hnet 1%nat ltac:(lia)) as H1. rewrite Nat.add_1_r in H1.
      pose proof (Hnet 2%nat ltac:(lia)) as H2.
      replace (requests v + 2)%nat with (S (S (requests v))) in H2 by lia.
      rewrite (retry_loop_again c 0 _ v H0). cbn [Nat.ltb Nat.leb].
      rewrite retry_loop_again by exact H1. cbn [Nat.ltb Nat.leb].
      rewrite retry_loop_again by exact H2. cbn [Nat.ltb Nat.leb].
      cbn [requests sleeps Nat.min Nat.add take].
      rewrite <- app_assoc. do 2 f_equal. lia.
  - unfold TradeExecutor.place_market_order, try_except,
      TradeExecutor.place_market_order_body.
    unfold bind at 1. cbn [as_number lift].
    unfold bind at 1. unfold request at 1. rewrite Horder.
    reflexivity.
Qed.

(** On a venue whose first answer is a network error: the candle fetch
    pauses one second and succeeds at its second request; the order placement
    gives up at its first. *)
Lemma fetch_retries_order_placement_does_not_witness :
  DataCollector.fetch_candles (collector (live_bot flaky_exchange hold_signal_80))
      "X" "1h" 200 fresh_venue =
    (Ok [], {| requests := 2; sleeps := [1%Q] |}) /\
  TradeExecutor.place_market_order {| TradeExecutor.exchange_ := flaky_exchange |}
      "X" "buy" (VNum 2) (VNum 98) (VNum 110) fresh_venue =
    (Ok (TradeExecutor.failure "Network error" NetworkError),
     {| requests := 1; sleeps := [] |}).
Proof.
  exact (fetch_retries_order_placement_does_not
           (collector (live_bot flaky_exchange hold_signal_80))
           {| TradeExecutor.exchange_ := flaky_exchange |}
           fresh_venue 1 "X" "1h" "buy" 200 2 (VNum 98) (VNum 110) NetworkError
           ltac:(lia)
           ltac:(intros [|j] Hj; [reflexivity | lia])
           ltac:(intros _; discriminate)
           eq_refl).
Defined.

(** C5, as stated, fails for order placement: the venue answers the first
    request with a network error and would fill the order at the second, yet
    [place_market_order] returns the failure after one request and no pause,
    where the candle fetch on the same venue goes on to a second request. *)
Lemma order_placement_is_not_retried :
  create_market_order flaky_exchange 0 = Raise NetworkError /\
  create_market_order flaky_exchange 1 =
    Ok {[ "id" := VStr "o1"; "average" := VNum 100 ]} /\
  TradeExecutor.place_market_order {| TradeExecutor.exchange_ := flaky_exchange |}
      "X" "buy" (VNum 2) VNone VNone fresh_venue =
    (Ok (TradeExecutor.failure "Network error" NetworkError),
     {| requests := 1; sleeps := [] |}) /\
  DataCollector.fetch_candles
      {| DataCollector.exchange_ := flaky_exchange; DataCollector.demo_mode := false |}
      "X" "1h" 200 fresh_venue =
    (Ok [], {| requests := 2; sleeps := [1%Q] |}).
Proof. repeat split; vm_compute; reflexivity. Qed.

(** * Further properties of the code *)

(** ** The rule chain, rule by rule *)

(** Rule 1 comes first: a signal whose confidence is a number below the
    threshold is rejected with that reason whatever its action, its other
    fields, the open trades, the day's trades and the last trade are; none of
    them is even read, so nothing can raise. *)
Theorem validate_signal_low_confidence
    (self : RiskManager.t) (now : datetime) (signal : dict)
    (portfolio_balance : Q) (open_trades trades_today : list dict)
    (last_trade : option dict) (confidence : Q) :
  as_number (get signal "confidence" (num 0)) = Some confidence ->
  (confidence < default 70%Q (RiskManager.config self !! "min_confidence"))%Q ->
  RiskManager.validate_signal self now signal portfolio_balance open_trades
      trades_today last_trade =
    Ok (false, ConfidenceBelowThreshold (get signal "confidence" (num 0))
                 (default 70%Q (RiskManager.config self !! "min_confidence"))).
Proof.
  intros Hc Hlt. unfold RiskManager.validate_signal.
  unfold py_lt at 1. rewrite Hc. cbn [as_number rbind].
  apply Qltb_lt in Hlt. rewrite Hlt. reflexivity.
Qed.

(** Scenario C: confidence 65 under the default threshold 70, with every
    price field in order and ten trades open. *)
Lemma validate_signal_low_confidence_witness :
  RiskManager.validate_signal default_risk midnight signal_C 10000
      (replicate 10 closed_trade_minus_700) [] None =
    Ok (false, ConfidenceBelowThreshold (VNum 65) 70%Q).
Proof.
  exact (validate_signal_low_confidence default_risk midnight signal_C 10000
           (replicate 10 closed_trade_minus_700) [] None 65 eq_refl eq_refl).
Defined.

(** Rule 2: a HOLD signal that passes rule 1 is accepted at once. The open
    trades, the day's PnL, the cooldown and the price fields play no part, so
    a HOLD is accepted even on a day past the drawdown limit. *)
Theorem validate_signal_hold
    (self : RiskManager.t) (now : datetime) (signal : dict)
    (portfolio_balance : Q) (open_trades trades_today : list dict)
    (last_trade : option dict) (confidence : Q) :
  get_ signal "action" = VStr "HOLD" ->
  as_number (get signal "confidence" (num 0)) = Some confidence ->
  (default 70%Q (RiskManager.config self !! "min_confidence") <= confidence)%Q ->
  RiskManager.validate_signal self now signal portfolio_balance open_trades
      trades_today last_trade = Ok (true, HoldRequiresNoValidation).
Proof.
  intros Haction Hc Hge. unfold RiskManager.validate_signal.
  unfold py_lt at 1. rewrite Hc, Haction. cbn [as_number rbind].
  apply Qltb_ge in Hge. rewrite Hge. reflexivity.
Qed.

(** A bare HOLD of confidence 70 on the day that lost 700. *)
Lemma validate_signal_hold_witness :
  RiskManager.validate_signal default_risk midnight bare_hold_signal 10000
      [] [closed_trade_minus_700] None = Ok (true, HoldRequiresNoValidation).
Proof.
  exact (validate_signal_hold default_risk midnight bare_hold_signal 10000
           [] [closed_trade_minus_700] None 70 eq_refl eq_refl
           ltac:(vm_compute; discriminate)).
Defined.





Lemma py_abs_inv (a r : value) :
  py_abs a = Ok r -> exists x, as_number a = Some x /\ r = num (Qabs x).
Proof.
  unfold py_abs. destruct (as_number a) as [x|]; [|discriminate].
  intros H. injection H as <-. eauto.
Qed.

Lemma truthy_number (a : value) (x : Q) :
  as_number a = Some x -> truthy a = true -> ~ (x == 0)%Q.
Proof.
  destruct a as [| [] | q | s | d]; simpl; try discriminate.
  - intros H _. injection H as <-. discriminate.
  - intros H Ht. injection H as <-. apply negb_true_iff in Ht.
    apply Qeq_bool_neq. exact Ht.
Qed.














(** ** Cooldown, in general *)

Lemma dict_with_key_nonempty (d : dict) (k : string) (v : value) :
  d !! k = Some v -> (size d =? 0)%nat = false.
Proof.
  intros H. apply Nat.eqb_neq. intros Hsize.
  apply map_size_empty_inv in Hsize. subst d.
  rewrite lookup_empty in H. discriminate.
Qed.

(** For a stamp without offset, as SQLite writes it, the symbol is in
    cooldown exactly when less than [cooldown_hours] have passed between the
    stamp and the reading of the clock. *)
Theorem is_in_cooldown_naive
    (self : RiskManager.t) (now : datetime) (trade : dict) (s : string)
    (opened : datetime) (cooldown : Z) :
  trade !! "opened_at" = Some (VStr s) ->
  Datetime.fromisoformat (Datetime.replace_Z s) = Ok opened ->
  dt_tz opened = None ->
  dt_tz now = None ->
  Datetime.timedelta_hours (RiskManager.cooldown_hours self) = Ok cooldown ->
  RiskManager.is_in_cooldown self now (Some trade) =
    (dt_micros now - dt_micros opened <? cooldown).
Proof.
  intros Hat Hparse Hnaive Hnow Hdelta.
  unfold RiskManager.is_in_cooldown, get_, get.
  rewrite (dict_with_key_nonempty _ _ _ Hat), Hat. cbn [default id truthy].
  assert (Hs : String.eqb s "" = false).
  { destruct s; [|reflexivity]. vm_compute in Hparse. discriminate. }
  rewrite Hs. cbn [negb].
  unfold RiskManager.cooldown_check. rewrite Hparse, Hdelta. cbn [rbind].
  unfold Datetime.sub_value, Datetime.sub. rewrite Hnow, Hnaive. reflexivity.
Qed.

(** The stamp of 10:00:00 read at 11:00:00 under a two-hour cooldown: one
    hour is less than two. *)
Lemma is_in_cooldown_naive_witness :
  RiskManager.is_in_cooldown default_risk (now clock_11) (Some last_trade_naive)
    = (1709290800000000 - 1709287200000000 <? 7200000000).
Proof.
  exact (is_in_cooldown_naive default_risk (now clock_11) last_trade_naive
           "2024-03-01 10:00:00" (mk_datetime 1709287200000000 None) 7200000000
           eq_refl eq_refl eq_refl eq_refl eq_refl).
Defined.

(** A stamp that carries a UTC offset (a trailing Z becomes one) is never in
    cooldown, however recent: the clock reading is naive, the subtraction
    raises, and the handler answers [False]. *)
Theorem is_in_cooldown_aware_never
    (self : RiskManager.t) (now : datetime) (trade : dict) (s : string)
    (opened : datetime) (offset : Z) :
  get_ trade "opened_at" = VStr s ->
  Datetime.fromisoformat (Datetime.replace_Z s) = Ok opened ->
  dt_tz opened = Some offset ->
  dt_tz now = None ->
  RiskManager.is_in_cooldown self now (Some trade) = false.
Proof.
  intros Hat Hparse Haware Hnow.
  unfold RiskManager.is_in_cooldown. rewrite Hat.
  destruct (size trade =? 0)%nat; [reflexivity|].
  destruct (negb (truthy (VStr s))); [reflexivity|].
  unfold RiskManager.cooldown_check. rewrite Hparse. cbn [rbind].
  destruct (Datetime.timedelta_hours _); [|reflexivity]. cbn [rbind].
  unfold Datetime.sub_value, Datetime.sub. rewrite Hnow, Haware. reflexivity.
Qed.

(** A trade stamped at the very reading of the clock, with offset +02:00. *)
Lemma is_in_cooldown_aware_never_witness :
  RiskManager.is_in_cooldown default_risk (now clock_11)
    (Some {[ "opened_at" := VStr "2024-03-01T11:00:00+02:00" ]}) = false.
Proof.
  exact (is_in_cooldown_aware_never default_risk (now clock_11)
           {[ "opened_at" := VStr "2024-03-01T11:00:00+02:00" ]}
           "2024-03-01T11:00:00+02:00"
           (mk_datetime 1709290800000000 (Some 7200000000)) 7200000000
           eq_refl eq_refl eq_refl eq_refl).
Defined.

(** Missing or ill-typed data never puts a symbol in cooldown. Without a
    last trade, with an empty one, with no stamp on it, or with a stamp that
    is [None], the empty string, a bool or a number, the answer is "not in
    cooldown" and nothing is raised: the early returns take the first cases,
    and the subtraction of a non-date from the clock reading raises inside
    the handler for the last two. *)
Theorem is_in_cooldown_fails_open
    (self : RiskManager.t) (now : datetime) (trade : dict) (flag : bool) (q : Q) :
  RiskManager.is_in_cooldown self now None = false /\
  RiskManager.is_in_cooldown self now (Some ∅) = false /\
  RiskManager.is_in_cooldown self now (Some (delete "opened_at" trade)) = false /\
  RiskManager.is_in_cooldown self now (Some (<["opened_at" := VNone]> trade)) = false /\
  RiskManager.is_in_cooldown self now (Some (<["opened_at" := VStr ""]> trade)) = false /\
  RiskManager.is_in_cooldown self now (Some (<["opened_at" := VBool flag]> trade)) = false /\
  RiskManager.is_in_cooldown self now (Some (<["opened_at" := VNum q]> trade)) = false.
Proof.
  unfold RiskManager.is_in_cooldown, get_, get.
  split; [reflexivity|]. split; [reflexivity|].
  rewrite lookup_delete_eq, !lookup_insert_eq. cbn [default from_option id].
  repeat split; destruct (_ =? _)%nat; try reflexivity.
  - destruct (negb _); [reflexivity|].
    unfold RiskManager.cooldown_check. cbn [rbind].
    destruct (Datetime.timedelta_hours _); reflexivity.
  - destruct (negb _); [reflexivity|].
    unfold RiskManager.cooldown_check. cbn [rbind].
    destruct (Datetime.timedelta_hours _); reflexivity.
Qed.

(** ** Emergency stop *)

(** With a positive initial balance the stop is triggered exactly when the
    balance has fallen to 90 % of it or lower. With an initial balance of
    zero the drawdown cannot be computed: [ZeroDivisionError]. *)
Theorem check_emergency_stop_threshold (portfolio_balance initial_balance : Q) :
  (0 < initial_balance)%Q ->
  RiskManager.check_emergency_stop portfolio_balance initial_balance
    = Ok (Qle_bool portfolio_balance (0.9 * initial_balance)) /\
  RiskManager.check_emergency_stop portfolio_balance 0 = Raise ZeroDivisionError.
Proof.
  intros Hpos. split; [|reflexivity].
  unfold RiskManager.check_emergency_stop, py_div, py_ge, num.
  cbn [as_number rbind].
  rewrite (Qeq_bool_false initial_balance 0) by lra.
  cbn [as_number rbind]. f_equal.
  assert (Hdiv : (Qred (Qred (initial_balance - portfolio_balance) / initial_balance)
                  == 1 - portfolio_balance / initial_balance)%Q).
  { rewrite !Qred_correct. field. lra. }
  destruct (Qle_bool portfolio_balance (0.9 * initial_balance)) eqn:E.
  - apply Qle_bool_iff in E. apply Qle_bool_iff.
    rewrite Hdiv, Qred_correct.
    assert (H : (portfolio_balance / initial_balance <= 0.9)%Q).
    { apply Qle_shift_div_r; [exact Hpos|]. exact E. }
    lra.
  - apply not_true_is_false. intros E'.
    apply Qle_bool_iff in E'. rewrite Hdiv, Qred_correct in E'.
    assert (H : (portfolio_balance <= 0.9 * initial_balance)%Q).
    { assert (H1 : (portfolio_balance / initial_balance <= 0.9)%Q) by lra.
      apply (Qmult_le_r _ _ initial_balance Hpos) in H1.
      assert (H2 : (portfolio_balance / initial_balance * initial_balance
                    == portfolio_balance)%Q) by (field; lra).
      rewrite H2 in H1. exact H1. }
    apply Qle_bool_iff in H. congruence.
Qed.

(** 10000 at the start: 9000 triggers the stop, 9001 does not. *)
Lemma check_emergency_stop_threshold_witness :
  RiskManager.check_emergency_stop 9000 10000 = Ok true /\
  RiskManager.check_emergency_stop 9001 10000 = Ok false.
Proof.
  split.
  - exact (proj1 (check_emergency_stop_threshold 9000 10000 eq_refl)).
  - exact (proj1 (check_emergency_stop_threshold 9001 10000 eq_refl)).
Defined.

(** ** The two ways a task changes the trade table *)

Lemma update_trade_missing (d : Database.t) (k : Z) (updates_dict : dict) (ts : string)
    (d' : Database.t) :
  Database.trades d !! k = None ->
  Database.update_trade d (num (inject_Z k)) updates_dict ts = Ok d' -> d' = d.
Proof.
  intros Hk H. unfold Database.update_trade in H.
  rewrite as_id_num, Hk in H.
  destruct (size _ =? 0)%nat; [discriminate|].
  destruct (negb _); [discriminate|]. injection H as <-. reflexivity.
Qed.

Section Changes.

Variable T : gmap Z dict -> gmap Z dict -> Prop.
Hypothesis T_refl : forall tr, T tr tr.
Hypothesis T_trans : forall tr1 tr2 tr3, T tr1 tr2 -> T tr2 tr3 -> T tr1 tr3.
Hypothesis T_close : forall tr k row exit_price pnl pnl_percent ts,
  tr !! k = Some row ->
  T tr (<[k := closed_row exit_price pnl pnl_percent ts row]> tr).
Hypothesis T_open : forall tr trade_dict ts,
  T tr (<[Database.next_id tr := Database.new_trade_row trade_dict ts]> tr).

Lemma chg_update_closing (trade_id exit_price pnl pnl_percent : value) (clk : clock)
    (w : world) :
  preserves_at T
    (update_trade trade_id (closing_updates exit_price pnl pnl_percent) clk) w.
Proof.
  unfold update_trade. apply pres_write_db; [exact T_refl|].
  intros [] d' H.
  destruct (Database.update_trade (db w) trade_id
              (closing_updates exit_price pnl pnl_percent) (current_timestamp clk))
    as [d1|] eqn:E; [|discriminate].
  injection H as <-.
  assert (Hid : exists k, Database.as_id trade_id = Some k /\
                          Database.update_trade (db w) (num (inject_Z k))
                            (closing_updates exit_price pnl pnl_percent)
                            (current_timestamp clk) = Ok d1
                \/ d1 = db w).
  { unfold Database.update_trade in E |- *.
    destruct (Database.as_id trade_id) as [k|] eqn:Ek.
    - exists k. left. split; [reflexivity|]. rewrite as_id_num. exact E.
    - exists 0. right.
      destruct (size _ =? 0)%nat; [discriminate|].
      destruct (negb _); [discriminate|]. injection E as <-. reflexivity. }
  destruct Hid as [k [[_ Hk] | ->]]; [|apply T_refl].
  destruct (Database.trades (db w) !! k) as [row|] eqn:Erow.
  - rewrite (update_trade_closing _ _ _ _ _ _ _ Erow) in Hk. injection Hk as <-.
    simpl. apply T_close. exact Erow.
  - rewrite (update_trade_missing _ _ _ _ _ Erow Hk). apply T_refl.
Qed.

(** The inner loop of the monitor never changes the table: its only write
    names a column the table does not have. *)
Lemma chg_position_exists (clk : clock) (trade : dict) (positions : list dict)
    (w : world) :
  preserves_at T (position_exists clk trade positions) w.
Proof.
  induction positions as [|pos rest IH]; cbn [position_exists].
  - apply pres_ret; exact T_refl.
  - apply pres_bind; [exact T_trans | apply pres_lift; exact T_refl |].
    intros a w1 H1. injection H1 as _ <-.
    apply pres_bind; [exact T_trans | apply pres_lift; exact T_refl |].
    intros nz w1 H1. injection H1 as _ <-.
    destruct nz; [|exact IH].
    apply pres_bind; [exact T_trans | apply pres_lift; exact T_refl |].
    intros id w1 H1. injection H1 as _ <-.
    apply pres_bind; [exact T_trans | | intros; apply pres_ret; exact T_refl].
    unfold update_trade. apply pres_write_db; [exact T_refl|].
    intros [] d' H. rewrite update_unrealized_pnl_fails in H. discriminate.
Qed.

Lemma chg_record_venue_close (b : bot) (clk : clock) (trade : dict) (symbol : value)
    (w : world) :
  preserves_at T (record_venue_close b clk trade symbol) w.
Proof.
  unfold record_venue_close.
  apply pres_bind; [exact T_trans | apply pres_on_venue; exact T_refl |].
  intros ticker w1 _.
  apply pres_bind; [exact T_trans | apply pres_lift; exact T_refl |]. intros pnl w2 _.
  apply pres_bind; [exact T_trans | apply pres_lift; exact T_refl |]. intros n w3 _.
  apply pres_bind; [exact T_trans | apply pres_lift; exact T_refl |]. intros g w4 _.
  apply pres_bind; [exact T_trans | apply pres_lift; exact T_refl |]. intros pct w5 _.
  apply pres_bind; [exact T_trans | apply pres_lift; exact T_refl |]. intros id w6 _.
  apply chg_update_closing.
Qed.

Lemma chg_monitor_trades (b : bot) (clk : clock) (trades : list dict) (w : world) :
  preserves_at T (monitor_trades b clk trades) w.
Proof.
  revert w. induction trades as [|trade rest IH]; intros w; cbn [monitor_trades].
  - apply pres_ret; exact T_refl.
  - apply pres_bind; [exact T_trans | | intros; apply IH].
    unfold monitor_trade.
    apply pres_try_except; [exact T_trans | | intros; apply pres_emit; exact T_refl].
    apply pres_bind; [exact T_trans | apply pres_on_venue; exact T_refl |].
    intros positions w1 _.
    apply pres_bind; [exact T_trans | apply chg_position_exists |].
    intros ex w2 _. destruct ex; cbn [negb].
    + apply pres_ret; exact T_refl.
    + apply chg_record_venue_close.
Qed.

Lemma chg_run_monitor (b : bot) (clk : clock) (w : world) :
  T (Database.trades (db w)) (Database.trades (db (run_monitor b clk w))).
Proof.
  destruct (run_monitor_trades b clk w) as (w1 & H1 & ->).
  exact (chg_monitor_trades b clk _ w _ _ H1).
Qed.

Lemma chg_record_close (clk : clock) (signal close_result trade : dict) (w : world) :
  preserves_at T (record_close clk signal close_result trade) w.
Proof.
  unfold record_close.
  apply pres_bind; [exact T_trans | apply pres_lift; exact T_refl |]. intros d w1 _.
  apply pres_bind; [exact T_trans | apply pres_lift; exact T_refl |]. intros pnl w2 _.
  apply pres_bind; [exact T_trans | apply pres_lift; exact T_refl |]. intros n w3 _.
  apply pres_bind; [exact T_trans | apply pres_lift; exact T_refl |]. intros r w4 _.
  apply pres_bind; [exact T_trans | apply pres_lift; exact T_refl |]. intros pct w5 _.
  apply pres_bind; [exact T_trans | apply pres_lift; exact T_refl |]. intros id w6 _.
  apply pres_bind; [exact T_trans | apply chg_update_closing |].
  intros; apply pres_emit; exact T_refl.
Qed.

Lemma chg_close_signal (b : bot) (clk : clock) (symbol : string) (signal : dict)
    (current_position : option dict) (w : world) :
  preserves_at T (close_signal b clk symbol signal current_position) w.
Proof.
  unfold close_signal.
  destruct current_position as [position|]; [|apply pres_ret; exact T_refl].
  destruct (dict_truthy _); [|apply pres_ret; exact T_refl].
  destruct (live_executor b) as [ex|]; [|apply pres_ret; exact T_refl].
  apply pres_bind; [exact T_trans | apply pres_on_venue; exact T_refl |].
  intros close_result w1 _.
  destruct (truthy _); [|apply pres_ret; exact T_refl].
  apply pres_bind; [exact T_trans | apply pres_read_db; exact T_refl |].
  intros open_trades w2 _.
  destruct open_trades as [|trade rest]; [apply pres_ret; exact T_refl|].
  apply chg_record_close.
Qed.

Lemma chg_run_analysis (b : bot) (clk : clock) (symbol : string) (w : world) :
  T (Database.trades (db w)) (Database.trades (db (run_analysis b clk symbol w))).
Proof.
  assert (Hbody : preserves_at T (run_analysis_body b clk symbol) w).
  { unfold run_analysis_body.
    apply pres_bind; [exact T_trans | apply pres_on_venue; exact T_refl |]. intros c1 w1 _.
    apply pres_bind; [exact T_trans | apply pres_on_venue; exact T_refl |]. intros c4 w2 _.
    apply pres_bind; [exact T_trans | apply pres_lift; exact T_refl |]. intros ind w3 _.
    apply pres_bind; [exact T_trans | apply pres_on_venue; exact T_refl |]. intros bal w4 _.
    apply pres_bind; [exact T_trans | apply pres_on_venue; exact T_refl |]. intros pos w5 _.
    apply pres_bind; [exact T_trans | |].
    { apply pres_write_db; [exact T_refl|]. intros a d' H.
      unfold Database.save_signal in H.
      destruct (Database.violates_not_null _ _); [discriminate|].
      injection H as _ <-. apply T_refl. }
    intros signal_id w6 _.
    apply pres_bind; [exact T_trans | apply pres_lift; exact T_refl |]. intros a1 w7 _.
    apply pres_bind; [exact T_trans | apply pres_lift; exact T_refl |]. intros a2 w8 _.
    destruct (is_buy_or_sell _).
    - unfold admit_signal.
      apply pres_bind; [exact T_trans | apply pres_read_db; exact T_refl |]. intros ot w9 _.
      apply pres_bind; [exact T_trans | apply pres_read_db; exact T_refl |]. intros tt w10 _.
      apply pres_bind; [exact T_trans | apply pres_read_db; exact T_refl |]. intros lt w11 _.
      apply pres_bind; [exact T_trans | apply pres_lift; exact T_refl |].
      intros verdict w12 _.
      destruct (verdict.1); [|apply pres_emit; exact T_refl].
      apply pres_bind; [exact T_trans | apply pres_lift; exact T_refl |]. intros ps w13 _.
      destruct (live_executor b) as [ex|]; [|apply pres_emit; exact T_refl].
      apply pres_bind; [exact T_trans | apply pres_lift; exact T_refl |]. intros side w14 _.
      apply pres_bind; [exact T_trans | apply pres_on_venue; exact T_refl |].
      intros trade_result w15 _.
      destruct (truthy _).
      + apply pres_bind; [exact T_trans | | intros; apply pres_emit; exact T_refl].
        apply pres_write_db; [exact T_refl|]. intros a d' H.
        unfold Database.save_trade in H.
        destruct (Database.violates_not_null _ _); [discriminate|].
        injection H as _ <-. simpl. apply T_open.
      + apply pres_bind; [exact T_trans | apply pres_emit; exact T_refl |].
        intros; apply pres_emit; exact T_refl.
    - destruct (py_eq _ (VStr "CLOSE")).
      + apply chg_close_signal.
      + destruct (py_eq _ (VStr "HOLD")).
        * apply pres_hold_signal; [exact T_refl | exact T_trans].
        * apply pres_ret; exact T_refl. }
  unfold run_analysis.
  destruct (run_analysis_body b clk symbol w) as [[[]|e] w'] eqn:E.
  - apply (Hbody _ _ E).
  - simpl. apply (Hbody _ _ E).
Qed.

(** Any relation between trade tables that holds across the insertion of a
    new row under the next key and across the closing of a row holds across
    every run of tasks. *)
Lemma chg_run_schedule (b : bot) (schedule : list (clock * task)) (w : world) :
  T (Database.trades (db w)) (Database.trades (db (run_schedule b schedule w))).
Proof.
  unfold run_schedule. revert w.
  induction schedule as [|[clk t] schedule IH]; intros w; simpl.
  - apply T_refl.
  - eapply T_trans; [|apply IH].
    destruct t as [symbol|]; simpl.
    + apply chg_run_analysis.
    + apply chg_run_monitor.
Qed.

End Changes.

(** ** What every run of tasks leaves alone *)

Lemma known_columns_spec (sets : dict) :
  Database.known_columns sets = true <->
  forall c, is_Some (sets !! c) -> c ∈ Database.trade_columns.
Proof.
  unfold Database.known_columns. rewrite forallb_forall. split.
  - intros H c [v Hv]. apply elem_of_map_to_list in Hv.
    assert (Hin : In c (map fst (map_to_list sets))).
    { apply in_map_iff. exists (c, v). split; [reflexivity|].
      apply list_elem_of_In. exact Hv. }
    apply H in Hin. apply bool_decide_eq_true in Hin. exact Hin.
  - intros H c Hin. apply in_map_iff in Hin as [[c' v] [Hc Hin]]. simpl in Hc. subst c'.
    apply list_elem_of_In, elem_of_map_to_list in Hin.
    apply bool_decide_eq_true. apply H. eauto.
Qed.

Lemma within_schema_spec (tr : gmap Z dict) :
  within_schema tr = true <->
  forall k row, tr !! k = Some row -> Database.known_columns row = true.
Proof.
  unfold within_schema. rewrite forallb_forall. split.
  - intros H k row Hk. apply elem_of_map_to_list, list_elem_of_In in Hk.
    exact (H _ Hk).
  - intros H [k row] Hin. apply list_elem_of_In, elem_of_map_to_list in Hin.
    exact (H _ _ Hin).
Qed.

Lemma new_trade_row_known (trade_dict : dict) (ts : string) :
  Database.known_columns (Database.new_trade_row trade_dict ts) = true.
Proof. vm_compute. reflexivity. Qed.

Lemma closed_row_known (exit_price pnl pnl_percent : value) (ts : string) (row : dict) :
  Database.known_columns row = true ->
  Database.known_columns (closed_row exit_price pnl pnl_percent ts row) = true.
Proof.
  rewrite !known_columns_spec. intros H c Hc. unfold closed_row in Hc.
  repeat (apply lookup_insert_is_Some in Hc as [<- | [_ Hc]];
          [apply (bool_decide_unpack _); vm_compute; exact I|]).
  apply H. exact Hc.
Qed.

Lemma closed_row_other (exit_price pnl pnl_percent : value) (ts : string) (row : dict)
    (c : string) :
  bool_decide (c ∈ closing_columns) = false ->
  closed_row exit_price pnl pnl_percent ts row !! c = row !! c.
Proof.
  intros H. apply bool_decide_eq_false in H. unfold closing_columns in H.
  unfold closed_row.
  rewrite !lookup_insert_ne; [reflexivity| | | | |]; intros <-; apply H;
    apply (bool_decide_unpack _); vm_compute; exact I.
Qed.

Lemma within_schema_run_schedule (b : bot) (schedule : list (clock * task)) (w : world) :
  within_schema (Database.trades (db w)) = true ->
  within_schema (Database.trades (db (run_schedule b schedule w))) = true.
Proof.
  apply (chg_run_schedule
           (fun tr tr' => within_schema tr = true -> within_schema tr' = true)).
  - auto.
  - auto.
  - intros tr k row e p pp ts Hk. rewrite !within_schema_spec. intros H k' row' Hk'.
    apply lookup_insert_Some in Hk' as [[<- <-] | [_ Hk']].
    + apply closed_row_known. exact (H _ _ Hk).
    + exact (H _ _ Hk').
  - intros tr t ts. rewrite !within_schema_spec. intros H k' row' Hk'.
    apply lookup_insert_Some in Hk' as [[_ <-] | [_ Hk']].
    + apply new_trade_row_known.
    + exact (H _ _ Hk').
Qed.

(** The terms of a trade are fixed when it is recorded. Whatever tasks run
    and whatever the venue and the signal source answer, a trade in the
    table stays in the table under its key, and every column other than the
    five a close writes (exit price, PnL, PnL percent, status, closing
    stamp) keeps its value: symbol, side, quantity, entry price, stop-loss,
    take-profit, order id and opening stamp never change. *)
Theorem trade_terms_never_change (b : bot) (schedule : list (clock * task))
    (w : world) (k : Z) (row : dict) (c : string) :
  Database.trades (db w) !! k = Some row ->
  bool_decide (c ∈ closing_columns) = false ->
  exists row',
    Database.trades (db (run_schedule b schedule w)) !! k = Some row' /\
    row' !! c = row !! c.
Proof.
  intros Hk Hc. revert row Hk.
  apply (chg_run_schedule
           (fun tr tr' => forall r, tr !! k = Some r ->
                          exists r', tr' !! k = Some r' /\ r' !! c = r !! c)).
  - intros tr r Hr. eauto.
  - intros tr1 tr2 tr3 H12 H23 r Hr.
    destruct (H12 r Hr) as (r2 & Hr2 & E2).
    destruct (H23 r2 Hr2) as (r3 & Hr3 & E3).
    exists r3. split; [exact Hr3 | congruence].
  - intros tr k0 row0 e p pp ts Hk0 r Hr.
    destruct (decide (k0 = k)) as [->|Hne].
    + rewrite lookup_insert_eq. eexists. split; [reflexivity|].
      rewrite closed_row_other by exact Hc. congruence.
    + rewrite lookup_insert_ne by exact Hne. eauto.
  - intros tr t ts r Hr.
    rewrite lookup_insert_ne; [eauto|].
    intros E. rewrite <- E, next_id_fresh in Hr. discriminate.
Qed.

(** The trade of Scenario F is closed by the monitoring cycle; its quantity
    is still 2. *)
Lemma trade_terms_never_change_witness :
  exists row',
    Database.trades (db (run_schedule bot_F [(clock_11, Monitor)] world_F)) !! 1
      = Some row' /\
    row' !! "quantity" = trade_row "BUY" 100 2 !! "quantity".
Proof.
  exact (trade_terms_never_change bot_F [(clock_11, Monitor)] world_F 1
           (trade_row "BUY" 100 2) "quantity" eq_refl eq_refl).
Defined.

Lemma py_sum_zeros (xs : list value) :
  Forall (fun x => x = num 0) xs -> py_sum xs = Ok (num 0).
Proof.
  unfold py_sum. induction 1 as [|x xs -> _ IH]; [reflexivity|].
  cbn [foldl]. exact IH.
Qed.

Lemma stored_trade_has_no_unrealized_pnl (d : Database.t) (symbol : value) (trade : dict) :
  within_schema (Database.trades d) = true ->
  trade ∈ Database.get_open_trades d symbol ->
  py_or (get trade "unrealized_pnl" (num 0)) (num 0) = num 0.
Proof.
  intros Hs Hin. apply get_open_trades_elem in Hin as (k & row & Hk & _ & ->).
  rewrite row_dict_get by discriminate.
  rewrite within_schema_spec in Hs. specialize (Hs _ _ Hk).
  rewrite known_columns_spec in Hs.
  unfold get. destruct (row !! "unrealized_pnl") as [v|] eqn:E; [|reflexivity].
  exfalso. specialize (Hs "unrealized_pnl" ltac:(eauto)).
  revert Hs. apply (bool_decide_eq_false_1 _). vm_compute. reflexivity.
Qed.

(** The daily PnL the risk rules see counts no open trade. The open trades
    handed to [calculate_daily_pnl] are rows of the trade table, and no row
    ever has an [unrealized_pnl] entry: starting from a table that holds
    only declared columns, after any run of tasks the daily PnL computed
    over the stored open trades is the realized PnL of today's closed trades
    alone, whatever the venue reports for the open positions. *)
Theorem daily_pnl_of_stored_trades_is_realized (b : bot)
    (schedule : list (clock * task)) (w : world) (symbol : value)
    (trades_today : list dict) :
  within_schema (Database.trades (db w)) = true ->
  RiskManager.calculate_daily_pnl trades_today
    (Database.get_open_trades (db (run_schedule b schedule w)) symbol) =
  RiskManager.calculate_daily_pnl trades_today [].
Proof.
  intros Hs. apply (within_schema_run_schedule b schedule) in Hs.
  assert (E : py_sum (map (fun trade => py_or (get trade "unrealized_pnl" (num 0)) (num 0))
                       (Database.get_open_trades (db (run_schedule b schedule w)) symbol))
              = Ok (num 0)).
  { apply py_sum_zeros, Forall_map, Forall_forall. intros trade Hin.
    exact (stored_trade_has_no_unrealized_pnl _ _ _ Hs Hin). }
  unfold RiskManager.calculate_daily_pnl.
  destruct (py_sum (map _ (filter _ trades_today))) as [realized|e]; [|reflexivity].
  cbn [rbind]. rewrite E. reflexivity.
Qed.

(** The position of Scenario F is still on the venue with an unrealized PnL
    of 5; after a monitoring cycle the trade is open and the daily PnL of
    the open trades is that of no trades. *)
Lemma daily_pnl_of_stored_trades_witness :
  RiskManager.calculate_daily_pnl []
    (Database.get_open_trades
       (db (run_schedule bot_still_open [(clock_11, Monitor)] world_F)) VNone) =
  RiskManager.calculate_daily_pnl [] [].
Proof.
  exact (daily_pnl_of_stored_trades_is_realized bot_still_open
           [(clock_11, Monitor)] world_F VNone []
           ltac:(vm_compute; reflexivity)).
Defined.

(** ** The trade table *)

Lemma new_trade_row_entries (trade_dict : dict) (ts : string) :
  let row := Database.new_trade_row trade_dict ts in
  get_ row "status" = get trade_dict "status" (VStr "OPEN") /\
  get_ row "opened_at" = VStr ts /\
  get_ row "exit_price" = VNone /\ get_ row "pnl" = VNone /\
  get_ row "pnl_percent" = VNone /\ get_ row "closed_at" = VNone /\
  Forall (fun c => get_ row c = get_ trade_dict c)
    ["signal_id"; "symbol"; "side"; "quantity"; "entry_price"; "stop_loss";
     "take_profit"; "exchange_order_id"].
Proof.
  cbv zeta. unfold Database.new_trade_row, list_to_map. cbn [foldr fst snd].
  repeat split; repeat constructor; unfold get_ at 1, get at 1;
    repeat (rewrite lookup_insert_ne by discriminate);
    rewrite lookup_insert_eq; reflexivity.
Qed.











(** ** Orders *)

Lemma protective_order_run (self : TradeExecutor.t) (v : venue) :
  try_except (_ <~ request (create_order (TradeExecutor.exchange_ self)) ;; ret tt)
    (fun _ => ret tt) v =
  (Ok tt, {| requests := S (requests v); sleeps := sleeps v |}).
Proof.
  unfold try_except, bind, request, ret.
  destruct (create_order (TradeExecutor.exchange_ self) (requests v)); reflexivity.
Qed.

Lemma set_sl_tp_run (self : TradeExecutor.t) (stop_loss take_profit : value)
    (v : venue) :
  TradeExecutor._set_sl_tp self stop_loss take_profit v =
    (Ok tt,
     {| requests := requests v + (if truthy stop_loss then 1 else 0)
                    + (if truthy take_profit then 1 else 0);
        sleeps := sleeps v |}).
Proof.
  destruct v as [n pauses].
  unfold TradeExecutor._set_sl_tp. unfold bind at 1.
  destruct (truthy stop_loss), (truthy take_profit);
    rewrite ?protective_order_run; unfold ret; rewrite ?protective_order_run;
    cbn [requests sleeps]; (apply f_equal; f_equal; lia).
Qed.

(** A filled market order is reported as a success whatever becomes of its
    protective orders. If the quantity is a number and the venue fills the
    market order, [place_market_order] returns a success dict with the
    order's id and fill price after one request for the order and one for
    each of stop-loss and take-profit that is set, whether the venue accepts
    or refuses those: nothing in the result tells a protected position from
    an unprotected one. *)
Theorem place_market_order_success_hides_protection (self : TradeExecutor.t)
    (symbol side : string) (quantity stop_loss take_profit : value) (q : Q)
    (order : dict) (v : venue) :
  as_number quantity = Some q ->
  create_market_order (TradeExecutor.exchange_ self) (requests v) = Ok order ->
  exists result,
    TradeExecutor.place_market_order self symbol side quantity stop_loss take_profit v =
      (Ok result,
       {| requests := requests v + 1 + (if truthy stop_loss then 1 else 0)
                      + (if truthy take_profit then 1 else 0);
          sleeps := sleeps v |}) /\
    get_ result "success" = VBool true /\
    get_ result "order_id" = get_ order "id" /\
    get_ result "price" = TradeExecutor.fill_price order.
Proof.
  intros Hq Horder. destruct v as [n pauses]. cbn [requests sleeps] in *.
  exists ({[ "success" := VBool true;
             "order_id" := get_ order "id";
             "symbol" := VStr symbol;
             "side" := VStr side;
             "quantity" := quantity;
             "price" := TradeExecutor.fill_price order;
             "status" := get_ order "status";
             "timestamp" := get_ order "timestamp" ]} : dict).
  split; [|split; [|split]].
  - unfold TradeExecutor.place_market_order, try_except,
      TradeExecutor.place_market_order_body.
    unfold bind at 1. rewrite Hq. cbn [lift].
    unfold bind at 1. unfold request at 1. cbn [requests sleeps]. rewrite Horder.
    unfold bind at 1.
    destruct (truthy stop_loss) eqn:Esl, (truthy take_profit) eqn:Etp; cbn [orb];
      rewrite ?set_sl_tp_run, ?Esl, ?Etp; unfold ret; cbn [requests sleeps];
      (apply f_equal; f_equal; lia).
  - reflexivity.
  - reflexivity.
  - reflexivity.
Qed.

(** The venue fills the order at 100 and refuses both protective orders;
    the result is a success after three requests. *)
Lemma place_market_order_success_hides_protection_witness :
  exists result,
    TradeExecutor.place_market_order {| TradeExecutor.exchange_ := no_stops_exchange |}
        "X" "buy" (VNum 2) (VNum 98) (VNum 110) fresh_venue =
      (Ok result, {| requests := 3; sleeps := [] |}) /\
    get_ result "success" = VBool true /\
    get_ result "order_id" = VStr "o1" /\
    get_ result "price" = VNum 100.
Proof.
  exact (place_market_order_success_hides_protection
           {| TradeExecutor.exchange_ := no_stops_exchange |}
           "X" "buy" (VNum 2) (VNum 98) (VNum 110) 2
           {[ "id" := VStr "o1"; "average" := VNum 100 ]} fresh_venue
           eq_refl eq_refl).
Defined.

(** ** Fetches *)

Lemma retry_loop_step {A : Type} (body : M venue A) (after_loop : A)
    (attempt : nat) (rest : list nat) (v : venue) (r : result A) :
  body v = (r, {| requests := S (requests v); sleeps := sleeps v |}) ->
  DataCollector.retry_loop body after_loop (attempt :: rest) v =
    match r with
    | Raise NetworkError =>
        if (attempt <? 2)%nat then
          DataCollector.retry_loop body after_loop rest
            {| requests := S (requests v);
               sleeps := sleeps v ++
                 [(DataCollector.retry_delay * inject_Z (2 ^ Z.of_nat attempt)%Z)%Q] |}
        else (r, {| requests := S (requests v); sleeps := sleeps v |})
    | _ => (r, {| requests := S (requests v); sleeps := sleeps v |})
    end.
Proof.
  intros H. cbn [DataCollector.retry_loop]. unfold try_except. rewrite H.
  destruct r as [a|e]; [reflexivity|].
  unfold DataCollector.max_retries. change (3 - 1)%nat with 2%nat.
  destruct e; cbn [is_network_error]; try reflexivity.
  destruct (attempt <? 2)%nat; reflexivity.
Qed.

Lemma retry_loop_bounded {A : Type} (body : M venue A) (after_loop : A) (v : venue) :
  (forall v0, (body v0).2 = {| requests := S (requests v0); sleeps := sleeps v0 |}) ->
  bounded_retries
    (DataCollector.retry_loop body after_loop
       (DataCollector.range DataCollector.max_retries)) v.
Proof.
  intros Hbody.
  assert (Hrun : forall v0, exists r,
            body v0 = (r, {| requests := S (requests v0); sleeps := sleeps v0 |})).
  { intros v0. specialize (Hbody v0). destruct (body v0) as [r v1].
    simpl in Hbody. subst v1. eauto. }
  assert (G : exists (k : nat) (r : result A),
            (1 <= k <= 3)%nat /\
            DataCollector.retry_loop body after_loop
              (DataCollector.range DataCollector.max_retries) v =
              (r, {| requests := requests v + k;
                     sleeps := sleeps v ++ take (k - 1) [1%Q; 2%Q] |}) /\
            (r = Raise NetworkError -> k = 3%nat)).
  { unfold DataCollector.range, DataCollector.max_retries. cbn [seq].
    destruct (Hrun v) as [r1 H1]. rewrite (retry_loop_step _ _ _ _ _ _ H1).
    assert (D1 : r1 = Raise NetworkError \/ r1 <> Raise NetworkError).
    { destruct r1 as [a|[]]; auto; right; discriminate. }
    destruct D1 as [->|D1].
    2:{ exists 1%nat, r1. split; [lia|]. split; [|intros; contradiction].
        cbn [take Nat.sub]. rewrite app_nil_r, Nat.add_1_r.
        destruct r1 as [a|[]]; try reflexivity. contradiction. }
    cbn [Nat.ltb Nat.leb].
    match goal with |- context [DataCollector.retry_loop _ _ _ ?v0] =>
      destruct (Hrun v0) as [r2 H2]; rewrite (retry_loop_step _ _ _ _ _ _ H2) end.
    cbn [requests sleeps].
    assert (D2 : r2 = Raise NetworkError \/ r2 <> Raise NetworkError).
    { destruct r2 as [a|[]]; auto; right; discriminate. }
    destruct D2 as [->|D2].
    2:{ exists 2%nat, r2. split; [lia|]. split; [|intros; contradiction].
        cbn [take Nat.sub]. replace (requests v + 2)%nat with (S (S (requests v))) by lia.
        destruct r2 as [a|[]]; try reflexivity. contradiction. }
    cbn [Nat.ltb Nat.leb].
    match goal with |- context [DataCollector.retry_loop _ _ _ ?v0] =>
      destruct (Hrun v0) as [r3 H3]; rewrite (retry_loop_step _ _ _ _ _ _ H3) end.
    cbn [requests sleeps Nat.ltb Nat.leb].
    exists 3%nat, r3. split; [lia|]. split; [|reflexivity].
    cbn [take Nat.sub]. replace (requests v + 3)%nat with (S (S (S (requests v)))) by lia.
    rewrite <- app_assoc.
    destruct r3 as [a|[]]; reflexivity. }
  destruct G as (k & r & Hk & E & Hr).
  exists k. rewrite E. auto.
Qed.

(** Every fetch of the collector is bounded like the candle fetch. A ticker
    fetch makes between one and three requests, pauses one second after a
    first network error and two after a second, and raises a network error
    only after the third request; so do the balance and position fetches of
    a live collector. In demo mode the balance is 10000 and the positions
    are none, and the venue is not asked at all. *)
Theorem fetches_are_bounded (self : DataCollector.t) (clk : clock) (symbol : value)
    (v : venue) :
  bounded_retries (DataCollector.fetch_ticker self clk symbol) v /\
  if DataCollector.demo_mode self then
    DataCollector.fetch_balance self v = (Ok 10000%Q, v) /\
    DataCollector.fetch_open_positions self symbol v = (Ok [], v)
  else
    bounded_retries (DataCollector.fetch_balance self) v /\
    bounded_retries (DataCollector.fetch_open_positions self symbol) v.
Proof.
  assert (Hreq : forall (A B : Type) (reply : nat -> result A) (k : A -> result B)
                   (v0 : venue),
            ((x <~ request reply ;; lift (k x)) v0).2 =
              {| requests := S (requests v0); sleeps := sleeps v0 |}).
  { intros A B reply k v0. unfold bind, request, lift.
    destruct (reply (requests v0)); reflexivity. }
  split.
  - unfold DataCollector.fetch_ticker. apply retry_loop_bounded.
    intros v0. exact (Hreq _ _ _ (fun ticker => Ok _) v0).
  - unfold DataCollector.fetch_balance, DataCollector.fetch_open_positions.
    destruct (DataCollector.demo_mode self); [split; reflexivity|]. split.
    + apply retry_loop_bounded. intros v0. apply Hreq.
    + apply retry_loop_bounded. intros v0.
      exact (Hreq _ _ _ (fun positions => Ok _) v0).
Qed.

(** Every position the collector hands out is one the venue reported with
    contracts that are neither missing, [None] nor zero, and carries them as
    its [size]; when that size is a number, the monitor's own test
    [abs(size) > 0] holds for it. *)
Theorem open_positions_have_size (positions : list dict) (pos : dict) :
  pos ∈ DataCollector.open_positions_of positions ->
  (exists raw, raw ∈ positions /\
     pos = DataCollector.format_position raw (get raw "contracts" (num 0))) /\
  truthy (get_ pos "size") = true /\
  py_eq (get_ pos "size") (num 0) = false /\
  (forall q, as_number (get_ pos "size") = Some q -> size_test pos = Ok true).
Proof.
  intros Hin. unfold DataCollector.open_positions_of in Hin.
  apply list_elem_of_omap in Hin as (raw & Hraw & Hsome). cbv zeta in Hsome.
  set (contracts := get raw "contracts" (num 0)) in *.
  destruct (negb (truthy contracts) || py_eq contracts (num 0)) eqn:E; [discriminate|].
  injection Hsome as <-.
  apply orb_false_iff in E as [Ht Hz]. apply negb_false_iff in Ht.
  assert (Hsize : forall dflt,
            get (DataCollector.format_position raw contracts) "size" dflt = contracts).
  { intros dflt. unfold get, DataCollector.format_position.
    rewrite lookup_insert_ne by discriminate.
    rewrite lookup_insert_ne by discriminate.
    rewrite lookup_insert_eq. reflexivity. }
  split; [eauto|]. unfold get_. rewrite Hsize.
  split; [exact Ht|]. split; [exact Hz|].
  intros q Hq. unfold size_test. rewrite Hsize.
  unfold py_abs. rewrite Hq. cbn [rbind].
  unfold py_gt, py_lt, num. cbn [as_number]. f_equal.
  apply Qltb_lt. rewrite !Qred_correct.
  pose proof (Qabs_nonneg q) as Hnn.
  pose proof (Qabs_nonzero q (truthy_number _ _ Hq Ht)) as Hne.
  lra.
Qed.

(** The venue reports a flat position and the long position of 2: only the
    second is handed out, and it passes the monitor's test. *)
Lemma open_positions_have_size_witness :
  size_test (DataCollector.format_position long_position (VNum 2)) = Ok true.
Proof.
  exact (proj2 (proj2 (proj2
           (open_positions_have_size
              [{[ "symbol" := VStr "X"; "contracts" := VNum 0 ]}; long_position]
              (DataCollector.format_position long_position (VNum 2))
              (list_elem_of_here _ _)))) 2%Q eq_refl).
Defined.

(** ** Dry runs *)

Ltac same_trades :=
  repeat first
    [ apply pres_ret; reflexivity
    | apply pres_lift; reflexivity
    | apply pres_emit; reflexivity
    | apply pres_read_db; reflexivity
    | apply pres_on_venue; reflexivity
    | apply pres_bind; [intros; congruence | | intros ? ? _] ].

(** An analysis in dry-run mode, or without an executor, never writes to the
    trade table: whatever the signal, the rules and the venue say, no trade
    is inserted and none is closed. *)
Theorem dry_run_analysis_keeps_trades (b : bot) (clk : clock) (symbol : string)
    (w : world) :
  live_executor b = None ->
  Database.trades (db (run_analysis b clk symbol w)) = Database.trades (db w).
Proof.
  intros Hlive.
  assert (Hbody : preserves_at eq (run_analysis_body b clk symbol) w).
  { unfold run_analysis_body. same_trades.
    { apply pres_write_db; [reflexivity|]. intros sid d' H.
      unfold Database.save_signal in H.
      destruct (Database.violates_not_null _ _); [discriminate|].
      injection H as _ <-. reflexivity. }
    same_trades.
    destruct (is_buy_or_sell _).
    - unfold admit_signal. same_trades.
      destruct (_.1); [|same_trades].
      same_trades. rewrite Hlive. same_trades.
    - destruct (py_eq _ (VStr "CLOSE")).
      + unfold close_signal.
        destruct (head _) as [position|]; [|same_trades].
        destruct (dict_truthy _); [|same_trades].
        rewrite Hlive. same_trades.
      + destruct (py_eq _ (VStr "HOLD")).
        * apply pres_hold_signal; [reflexivity | intros; congruence].
        * same_trades. }
  unfold run_analysis.
  destruct (run_analysis_body b clk symbol w) as [[[]|e] w'] eqn:E.
  - symmetry. apply (Hbody _ _ E).
  - simpl. symmetry. apply (Hbody _ _ E).
Qed.

(** Scenario A's BUY signal on paper, an hour after the trade of Scenario F
    was opened: the rules turn it down for the cooldown, and the table still
    holds the one trade it held. *)
Lemma dry_run_analysis_keeps_trades_witness :
  Database.trades (db (run_analysis paper_bot clock_11 "X" world_F)) =
  Database.trades (db world_F).
Proof.
  exact (dry_run_analysis_keeps_trades paper_bot clock_11 "X" world_F eq_refl).
Defined.

(** ** The trend *)


Lemma Qltb_asym (x y : Q) : Qltb x y = true -> Qltb y x = false.
Proof. intros H. apply Qltb_lt in H. apply Qltb_ge. lra. Qed.


(** ** The most recent trade *)

Lemma string_le_trans (s u v : string) :
  String.ltb u s = false -> String.ltb v u = false -> String.ltb v s = false.
Proof.
  unfold String.ltb. intros Hus Hvu.
  destruct (String.compare v s) eqn:Evs; try reflexivity. exfalso.
  apply OrderedTypeEx.String_as_OT.cmp_lt in Evs.
  destruct (String.compare s u) eqn:Esu.
  - apply String.compare_eq_iff in Esu. subst u.
    apply OrderedTypeEx.String_as_OT.cmp_lt in Evs.
    unfold OrderedTypeEx.String_as_OT.cmp in Evs. rewrite Evs in Hvu. discriminate.
  - apply OrderedTypeEx.String_as_OT.cmp_lt in Esu.
    pose proof (OrderedTypeEx.String_as_OT.lt_trans _ _ _ Evs Esu) as Hvu'.
    apply OrderedTypeEx.String_as_OT.cmp_lt in Hvu'.
    unfold OrderedTypeEx.String_as_OT.cmp in Hvu'. rewrite Hvu' in Hvu. discriminate.
  - rewrite String.compare_antisym, Esu in Hus. discriminate.
Qed.

Lemma string_le_total (s u : string) :
  String.ltb u s = false \/ String.ltb s u = false.
Proof.
  unfold String.ltb. rewrite (String.compare_antisym s u).
  destruct (String.compare u s); auto.
Qed.

Lemma sql_le_total (a b : value) :
  Database.sql_le a b = true \/ Database.sql_le b a = true.
Proof.
  unfold Database.sql_le.
  destruct (as_number a) as [x|] eqn:Ea, (as_number b) as [y|] eqn:Eb.
  - destruct (Qle_bool x y) eqn:E; [auto|]. right.
    apply Qle_bool_iff. apply Qlt_le_weak, Qnot_le_lt. intros H.
    apply Qle_bool_iff in H. congruence.
  - destruct a as [| [] | q | s | dt], b as [| [] | q' | s' | dt'];
      try discriminate; cbn; auto.
  - destruct a as [| [] | q | s | dt], b as [| [] | q' | s' | dt'];
      try discriminate; cbn; auto.
  - destruct a as [| [] | q | s | dt], b as [| [] | q' | s' | dt'];
      try discriminate; cbn; auto.
    destruct (string_le_total s s') as [->| ->]; auto.
Qed.

Lemma sql_le_trans (a b c : value) :
  Database.sql_le a b = true -> Database.sql_le b c = true ->
  Database.sql_le a c = true.
Proof.
  unfold Database.sql_le.
  destruct (as_number a) as [x|] eqn:Ea, (as_number b) as [y|] eqn:Eb,
           (as_number c) as [z|] eqn:Ec.
  1:{ rewrite !Qle_bool_iff. apply Qle_trans. }
  all: destruct a as [| [] | q | s | dt]; try discriminate;
    destruct b as [| [] | q' | s' | dt']; try discriminate;
    destruct c as [| [] | q'' | s'' | dt'']; try discriminate;
    cbn; try (intros; congruence).
  rewrite !negb_true_iff. apply string_le_trans.
Qed.

Lemma insert_desc_sorted (x : Z * dict) (l : list (Z * dict)) :
  StronglySorted
    (fun a b => Database.sql_le (get_ b.2 "opened_at") (get_ a.2 "opened_at") = true) l ->
  StronglySorted
    (fun a b => Database.sql_le (get_ b.2 "opened_at") (get_ a.2 "opened_at") = true)
    (Database.insert_desc x l).
Proof.
  induction 1 as [|y l Hs IH Hy]; cbn [Database.insert_desc].
  - repeat constructor.
  - destruct (Database.sql_le (get_ y.2 "opened_at") (get_ x.2 "opened_at")) eqn:E.
    + constructor; [constructor; assumption|].
      constructor; [exact E|].
      eapply Forall_impl; [exact Hy|]. intros z Hz.
      exact (sql_le_trans _ _ _ Hz E).
    + constructor; [exact IH|].
      rewrite insert_desc_perm. constructor; [|exact Hy].
      destruct (sql_le_total (get_ x.2 "opened_at") (get_ y.2 "opened_at")) as [H|H];
        [exact H | congruence].
Qed.

Lemma order_by_opened_at_desc_sorted (l : list (Z * dict)) :
  StronglySorted
    (fun a b => Database.sql_le (get_ b.2 "opened_at") (get_ a.2 "opened_at") = true)
    (Database.order_by_opened_at_desc l).
Proof.
  unfold Database.order_by_opened_at_desc.
  induction l as [|x l IH]; cbn [foldr]; [constructor|].
  apply insert_desc_sorted. exact IH.
Qed.

(** [get_last_trade] hands out the most recent trade of the symbol. It is
    [None] exactly when the table has no row of the symbol; otherwise it is
    a row of the symbol, under its key, and no row of the symbol has a later
    [opened_at] in the order of SQL values. *)
Theorem get_last_trade_is_latest (d : Database.t) (symbol : value) :
  match Database.get_last_trade d symbol with
  | None =>
      forall k row, Database.trades d !! k = Some row ->
                    Database.symbol_is symbol row = false
  | Some trade =>
      exists k row,
        Database.trades d !! k = Some row /\
        Database.symbol_is symbol row = true /\
        trade = Database.row_dict (k, row) /\
        forall k' row', Database.trades d !! k' = Some row' ->
                        Database.symbol_is symbol row' = true ->
                        Database.sql_le (get_ row' "opened_at")
                                        (get_ row "opened_at") = true
  end.
Proof.
  unfold Database.get_last_trade, Database.select_trades.
  pose proof (order_by_opened_at_desc_sorted
                (filter (fun kr => Database.symbol_is symbol kr.2 = true)
                        (map_to_list (Database.trades d)))) as Hsorted.
  assert (Hmem : forall k row,
            (k, row) ∈ Database.order_by_opened_at_desc
                         (filter (fun kr => Database.symbol_is symbol kr.2 = true)
                                 (map_to_list (Database.trades d))) <->
            Database.trades d !! k = Some row /\ Database.symbol_is symbol row = true).
  { intros k row. rewrite order_by_opened_at_desc_perm, list_elem_of_filter,
      elem_of_map_to_list. simpl. tauto. }
  destruct (Database.order_by_opened_at_desc _) as [|[k row] rest]; cbn [map head].
  - intros k row Hk. destruct (Database.symbol_is symbol row) eqn:E; [|reflexivity].
    exfalso. assert (Hin : (k, row) ∈ @nil (Z * dict)) by (apply Hmem; auto).
    inversion Hin.
  - destruct (proj1 (Hmem k row) (list_elem_of_here _ _)) as [Hk Hsym].
    exists k, row. repeat split; auto.
    intros k' row' Hk' Hsym'.
    assert (Hin : (k', row') ∈ (k, row) :: rest) by (apply Hmem; auto).
    apply elem_of_cons in Hin as [Heq|Hin].
    + injection Heq as -> ->.
      destruct (sql_le_total (get_ row "opened_at") (get_ row "opened_at")); assumption.
    + inversion Hsorted as [|? ? _ Hall]; subst.
      rewrite Forall_forall in Hall. exact (Hall _ Hin).
Qed.

(** ** Moving a stop *)

Lemma cancel_stop_orders_run (self : TradeExecutor.t) (open_orders : list dict)
    (v : venue) :
  Forall (fun order => is_Some (order !! "id")) open_orders ->
  TradeExecutor.cancel_stop_orders self open_orders v =
    (Ok tt, {| requests := requests v + length (stop_orders open_orders);
               sleeps := sleeps v |}).
Proof.
  intros Hids. revert v.
  induction Hids as [|order rest [id Hid] _ IH]; intros [n pauses];
    cbn [TradeExecutor.cancel_stop_orders requests sleeps].
  - unfold ret. cbn. rewrite Nat.add_0_r. reflexivity.
  - unfold stop_orders. rewrite filter_cons. fold (stop_orders rest).
    unfold bind at 1.
    destruct (py_eq (get_ order "type") (VStr "stop_market")) eqn:E.
    + rewrite decide_True by reflexivity.
      assert (Hrun : try_except
                (_ <~ lift (getitem order "id") ;;
                 _ <~ request (cancel_order (TradeExecutor.exchange_ self)) ;; ret tt)
                (fun _ => _ <~ lift (getitem order "id") ;; ret tt)
                {| requests := n; sleeps := pauses |} =
              (Ok tt, {| requests := S n; sleeps := pauses |})).
      { unfold try_except, bind, lift, request, ret, getitem. rewrite Hid.
        cbn [requests sleeps].
        destruct (cancel_order (TradeExecutor.exchange_ self) n); reflexivity. }
      rewrite Hrun, IH. cbn [requests sleeps length]. do 2 f_equal. lia.
    + rewrite decide_False by discriminate. unfold ret at 1. apply IH.
Qed.

(** Moving a stop cancels before it places. When the venue lists the open
    orders, each with an id, and the position has a side and a numeric size,
    [adjust_stop_loss] first spends one request on every stop order, whether
    or not the cancellation succeeds, and only then asks for the new stop;
    its answer is the fate of that last request alone. A refused new stop
    therefore returns [False] with the old stops already cancelled. *)
Theorem adjust_stop_loss_cancels_first (self : TradeExecutor.t) (symbol : string)
    (position : dict) (new_stop_loss : value) (v : venue) (open_orders : list dict)
    (side : string) (size : Q) :
  fetch_open_orders (TradeExecutor.exchange_ self) (requests v) = Ok open_orders ->
  Forall (fun order => is_Some (order !! "id")) open_orders ->
  get position "side" (VStr "") = VStr side ->
  as_number (get position "size" (num 0)) = Some size ->
  TradeExecutor.adjust_stop_loss self symbol position new_stop_loss v =
    (Ok (match create_order (TradeExecutor.exchange_ self)
                 (requests v + 1 + length (stop_orders open_orders)) with
         | Ok _ => true
         | Raise _ => false
         end),
     {| requests := requests v + 1 + length (stop_orders open_orders) + 1;
        sleeps := sleeps v |}).
Proof.
  intros Hfetch Hids Hside Hsize. destruct v as [n pauses]. cbn [requests sleeps] in *.
  unfold TradeExecutor.adjust_stop_loss, try_except.
  unfold bind at 1. unfold request at 1. cbn [requests sleeps]. rewrite Hfetch.
  unfold bind at 1. rewrite (cancel_stop_orders_run _ _ _ Hids). cbn [requests sleeps].
  unfold bind at 1. unfold TradeExecutor.position_side. rewrite Hside. cbn [lift].
  unfold bind at 1. unfold py_abs. rewrite Hsize. cbn [lift].
  unfold bind at 1. unfold request at 1. cbn [requests sleeps].
  replace (S n + length (stop_orders open_orders))%nat
    with (n + 1 + length (stop_orders open_orders))%nat by lia.
  destruct (create_order _ _); unfold ret; do 2 f_equal; lia.
Qed.

(** The venue holds one stop order and refuses the new one: the call
    returns false after three requests. *)
Lemma adjust_stop_loss_cancels_first_witness :
  TradeExecutor.adjust_stop_loss {| TradeExecutor.exchange_ := no_stops_exchange |}
      "X" (DataCollector.format_position long_position (VNum 2)) (VNum 99)
      fresh_venue =
    (Ok false, {| requests := 3; sleeps := [] |}).
Proof.
  exact (adjust_stop_loss_cancels_first
           {| TradeExecutor.exchange_ := no_stops_exchange |}
           "X" (DataCollector.format_position long_position (VNum 2)) (VNum 99)
           fresh_venue
           [ {[ "id" := VStr "s1"; "type" := VStr "stop_market" ]};
             {[ "id" := VStr "l1"; "type" := VStr "limit" ]} ]
           "long" 2 eq_refl
           (List.Forall_cons (fun order : dict => is_Some (order !! "id")) _ _
              (mk_is_Some _ (VStr "s1") eq_refl)
              (List.Forall_cons (fun order : dict => is_Some (order !! "id")) _ _
                 (mk_is_Some _ (VStr "l1") eq_refl)
                 (List.Forall_nil _)))
           eq_refl eq_refl).
Defined.

(** ** Closing a position *)

(** [close_position] never raises: every failure comes back as a dict whose
    [success] is false. A success means that the position had a string side
    and a numeric size and that the venue took the order at the first and
    only request; the order closes the absolute size, on the side opposite
    to a long or buy position and on the buy side for any other side. *)
Theorem close_position_never_raises (self : TradeExecutor.t) (symbol : string)
    (position : dict) (v : venue) :
  exists result,
    (TradeExecutor.close_position self symbol position v).1 = Ok result /\
    (truthy (get_ result "success") = true ->
     exists side size order,
       get position "side" (VStr "") = VStr side /\
       as_number (get position "size" (num 0)) = Some size /\
       create_market_order (TradeExecutor.exchange_ self) (requests v) = Ok order /\
       get_ result "side" = VStr (TradeExecutor.closing_side (lower side)) /\
       get_ result "quantity" = num (Qabs size) /\
       get_ result "price" = TradeExecutor.fill_price order /\
       (TradeExecutor.close_position self symbol position v).2 =
         {| requests := S (requests v); sleeps := sleeps v |}).
Proof.
  unfold TradeExecutor.close_position, try_except.
  unfold bind at 1. unfold TradeExecutor.position_side.
  destruct (get position "side" (VStr "")) as [| bb | qq | side | dd] eqn:Eside;
    cbn [lift];
    try (eexists; split; [reflexivity|]; intros H; discriminate H).
  unfold bind at 1. unfold py_abs.
  destruct (as_number (get position "size" (num 0))) as [size|] eqn:Esize; cbn [lift];
    [|eexists; split; [reflexivity|]; intros H; discriminate H].
  unfold bind at 1. unfold request at 1.
  destruct (create_market_order (TradeExecutor.exchange_ self) (requests v))
    as [order|e] eqn:Eorder;
    [|eexists; split; [reflexivity|]; intros H; discriminate H].
  eexists. split; [reflexivity|]. intros _.
  exists side, size, order. repeat split; try reflexivity.
  unfold bind, lift, request. rewrite Eorder. reflexivity.
Qed.

(** ** From a signal to a trade *)

Lemma getitem_not_null (d : dict) (k : string) :
  Database.is_none (get_ d k) = false -> getitem d k = Ok (get_ d k).
Proof.
  unfold get_, get, getitem. destruct (d !! k); [reflexivity|discriminate].
Qed.

Section FilledOrder.

Variables (b : bot) (clk : clock) (symbol : string) (w : world).
Variables (candles_1h candles_4h : list (list value)) (indicators : dict).
Variables (balance : Q) (positions : list dict) (signal : dict) (action : string).
Variables (r : reason) (size : value) (ex : TradeExecutor.t) (trade_result : dict).
Variables (v1 v2 v3 v4 v5 : venue).

(** The venue's answers, each at the state the run has reached when it
    asks. *)
Hypothesis Hc1 :
  DataCollector.fetch_candles (collector b) symbol "1h" 200 (market w)
    = (Ok candles_1h, v1).
Hypothesis Hc4 :
  DataCollector.fetch_candles (collector b) symbol "4h" 200 v1 = (Ok candles_4h, v2).
Hypothesis Hind : calculate_all_indicators b candles_1h = Ok indicators.
Hypothesis Hbal :
  DataCollector.fetch_balance (collector b) v2 = (Ok balance, v3).
Hypothesis Hpos :
  DataCollector.fetch_open_positions (collector b) (VStr symbol) v3
    = (Ok positions, v4).
Hypothesis Hsignal :
  get_ai_signal b symbol indicators (head positions) balance = signal.
(** The signal and the trade can be stored: the signal's fields bind, the
    next keys are within SQLite's range, and the stops and the order id are
    of their columns' types. *)
Hypothesis Hbindable : signal_bindable signal = true.
Hypothesis Hsignal_id :
  Database.next_id (Database.signals (db w)) < 2 ^ 63.
Hypothesis Htrade_id :
  Database.next_id (Database.trades (db w)) < 2 ^ 63.
Hypothesis Hstop :
  stored_as_given "stop_loss" (get_ signal "stop_loss") = true.
Hypothesis Htarget :
  stored_as_given "take_profit" (get_ signal "take_profit") = true.
Hypothesis Horder_id :
  stored_as_given "exchange_order_id" (get_ trade_result "order_id") = true.
Hypothesis Hquantity : stored_as_given "quantity" size = true.
Hypothesis Hsig : Database.violates_not_null Database.signal_not_null signal = false.
Hypothesis Haction : get_ signal "action" = VStr action.
Hypothesis Hbs : is_buy_or_sell (VStr action) = true.
Hypothesis Hvalid :
  RiskManager.validate_signal (risk_manager b) (now clk) signal balance
    (Database.get_open_trades (db w) (VStr symbol))
    (Database.get_trades_today (db w) (current_timestamp clk))
    (Database.get_last_trade (db w) (VStr symbol)) = Ok (true, r).
Hypothesis Hsize :
  RiskManager.calculate_position_size (risk_manager b) signal balance
    (get_ indicators "current_price") = Ok size.
Hypothesis Hlive : live_executor b = Some ex.
Hypothesis Horder :
  TradeExecutor.place_market_order ex symbol (lower action) size
    (get_ signal "stop_loss") (get_ signal "take_profit") v4 = (Ok trade_result, v5).
Hypothesis Hsuccess : truthy (get_ trade_result "success") = true.

(** Up to the insertion of the trade: the analysis comes down to saving a
    trade made of the signal, the size and the executor's report. *)
Lemma analysis_reaches_save_trade :
  exists (w5 : world) (trade_dict : dict),
    run_analysis_body b clk symbol w =
      (_ <~ write_db (fun d =>
              Database.save_trade d trade_dict (current_timestamp clk)) ;;
       emit (TradeAlert signal (Some trade_result))) w5 /\
    Database.trades (db w5) = Database.trades (db w) /\
    journal w5 = journal w /\
    get_ trade_dict "symbol" = VStr symbol /\
    get_ trade_dict "side" = VStr action /\
    get_ trade_dict "quantity" = size /\
    get_ trade_dict "entry_price" =
      get trade_result "price" (get_ indicators "current_price") /\
    get_ trade_dict "stop_loss" = get_ signal "stop_loss" /\
    get_ trade_dict "take_profit" = get_ signal "take_profit" /\
    get trade_dict "status" (VStr "OPEN") = VStr "OPEN" /\
    get_ trade_dict "exchange_order_id" = get_ trade_result "order_id".
Proof.
  unfold run_analysis_body.
  rewrite (bind_ok _ _ _ _ _ (on_venue_run _ _ _ _ Hc1)).
  rewrite (bind_ok _ _ _ _ _ (on_venue_run _ (with_market w v1) _ _ Hc4)).
  rewrite (bind_lift_ok _ _ _ _ Hind).
  rewrite (bind_ok _ _ _ _ _
             (on_venue_run _ (with_market (with_market w v1) v2) _ _ Hbal)).
  rewrite (bind_ok _ _ _ _ _
             (on_venue_run _ (with_market (with_market (with_market w v1) v2) v3)
                _ _ Hpos)).
  rewrite Hsignal.
  set (w4 := with_market _ v4).
  assert (Hconf : Database.is_none (get_ signal "confidence") = false).
  { pose proof Hsig as H.
    unfold Database.violates_not_null, Database.signal_not_null in H.
    cbn [existsb] in H.
    apply orb_false_iff in H as [_ H]. apply orb_false_iff in H as [_ H].
    apply orb_false_iff in H as [H _]. exact H. }
  assert (Hact : Database.is_none (get_ signal "action") = false)
    by (rewrite Haction; reflexivity).
  unfold bind at 1. unfold write_db at 1, Database.save_signal at 1.
  rewrite Hsig. cbv zeta.
  rewrite (bind_lift_ok _ _ _ _ (getitem_not_null _ _ Hact)).
  rewrite (bind_lift_ok _ _ _ _ (getitem_not_null _ _ Hconf)).
  rewrite Haction, Hbs.
  unfold admit_signal.
  unfold bind at 1, read_db at 1.
  unfold bind at 1, read_db at 1.
  unfold bind at 1, read_db at 1.
  cbn [db Database.trades].
  set (d5 := {| Database.trades := _; Database.signals := _;
                Database.portfolio_snapshots := _ |}).
  change (Database.get_open_trades d5 (VStr symbol))
    with (Database.get_open_trades (db w) (VStr symbol)).
  change (Database.get_trades_today d5 (current_timestamp clk))
    with (Database.get_trades_today (db w) (current_timestamp clk)).
  change (Database.get_last_trade d5 (VStr symbol))
    with (Database.get_last_trade (db w) (VStr symbol)).
  rewrite (bind_lift_ok _ _ _ _ Hvalid). cbn [fst].
  rewrite (bind_lift_ok _ _ _ _ Hsize). rewrite Hlive.
  rewrite (bind_lift_ok _ _ _ _ eq_refl).
  match goal with |- context [bind (on_venue _) _ ?w0] =>
    rewrite (bind_ok _ _ _ _ _ (on_venue_run _ w0 _ _ Horder)) end.
  rewrite Hsuccess.
  set (trade_dict := ({[ "signal_id" := _; "symbol" := _; "side" := _; "quantity" := _;
                         "entry_price" := _; "stop_loss" := _; "take_profit" := _;
                         "status" := _; "exchange_order_id" := _ ]} : dict)).
  eexists _, trade_dict. split; [reflexivity|].
  split; [reflexivity|]. split; [reflexivity|].
  unfold trade_dict.
  repeat split; unfold get_ at 1, get at 1;
    repeat (rewrite lookup_insert_ne by discriminate);
    first [rewrite lookup_insert_eq | rewrite lookup_singleton_eq]; reflexivity.
Qed.

(** The happy path of an analysis. When the venue answers the fetches at
    the states the run reaches, the signal is a BUY or SELL that the
    saved-signal table accepts, the rules accept it against the stored
    trades, and a live executor reports the order as a success with a price
    that is a number, the analysis adds exactly one row to the trade table,
    under the next id: an OPEN trade of the symbol on the signal's side,
    whose quantity is what [calculate_position_size] returned, whose entry
    price is the fill price the executor reported, with the signal's
    stop-loss and take-profit and the stamp of the insertion. The values
    are of their columns' types, so that the table hands them back as they
    were stored. *)
Theorem accepted_signal_opens_one_trade :
  Database.is_none size = false ->
  Database.is_none (get trade_result "price" (get_ indicators "current_price")) = false ->
  stored_as_given "entry_price"
    (get trade_result "price" (get_ indicators "current_price")) = true ->
  exists row,
    Database.trades (db (run_analysis b clk symbol w)) =
      <[Database.next_id (Database.trades (db w)) := row]> (Database.trades (db w)) /\
    get_ row "symbol" = VStr symbol /\
    get_ row "side" = VStr action /\
    get_ row "quantity" = size /\
    get_ row "entry_price" =
      get trade_result "price" (get_ indicators "current_price") /\
    get_ row "stop_loss" = get_ signal "stop_loss" /\
    get_ row "take_profit" = get_ signal "take_profit" /\
    get_ row "status" = VStr "OPEN" /\
    get_ row "opened_at" = VStr (current_timestamp clk) /\
    get_ row "exchange_order_id" = get_ trade_result "order_id".
Proof using All.
  intros Hnn Hprice _.
  destruct analysis_reaches_save_trade
    as (w5 & trade_dict & Hbody & Htrades & _ &
        Dsym & Dside & Dqty & Dentry & Dsl & Dtp & Dstatus & Doid).
  destruct (new_trade_row_entries trade_dict (current_timestamp clk))
    as (Hs & Ho & _ & _ & _ & _ & Hf).
  rewrite !Forall_cons in Hf.
  destruct Hf as (_ & Hsym & Hside & Hqty & Hentry & Hsl & Htp & Hoid & _).
  assert (Hviol : Database.violates_not_null Database.trade_not_null
                    (Database.new_trade_row trade_dict (current_timestamp clk)) = false).
  { unfold Database.violates_not_null, Database.trade_not_null. cbn [existsb].
    rewrite Hsym, Hside, Hqty, Hentry, Dsym, Dside, Dqty, Dentry, Hnn, Hprice.
    reflexivity. }
  exists (Database.new_trade_row trade_dict (current_timestamp clk)).
  split.
  - unfold run_analysis. rewrite Hbody.
    unfold bind at 1. unfold write_db at 1, Database.save_trade at 1. cbv zeta.
    rewrite Hviol. cbn. rewrite Htrades. reflexivity.
  - rewrite Hsym, Hside, Hqty, Hentry, Hsl, Htp, Hs, Ho, Hoid.
    rewrite Dsym, Dside, Dqty, Dentry, Dsl, Dtp, Dstatus, Doid.
    repeat split; reflexivity.
Qed.

(** An order the venue takes without telling a price is placed and then
    lost to the bot. Under the same conditions, when the executor's report
    carries [None] as its price (the order has no [average] and a [price] of
    [None]), the insertion of the trade violates the NOT NULL constraint on
    [entry_price]: the trade table is what it was, and all that is left of
    the order is the error line and the alert of the analysis. *)
Theorem order_without_price_is_not_recorded :
  get trade_result "price" (get_ indicators "current_price") = VNone ->
  Database.trades (db (run_analysis b clk symbol w)) = Database.trades (db w) /\
  journal (run_analysis b clk symbol w) =
    (journal w ++ [LogError "Error in analysis" (VStr symbol) IntegrityError;
                   ErrorAlert "Analysis error" (VStr "IntegrityError")])%list.
Proof using All.
  intros Hprice.
  destruct analysis_reaches_save_trade
    as (w5 & trade_dict & Hbody & Htrades & Hjournal &
        Dsym & Dside & Dqty & Dentry & Dsl & Dtp & Dstatus & Doid).
  destruct (new_trade_row_entries trade_dict (current_timestamp clk))
    as (Hs & Ho & _ & _ & _ & _ & Hf).
  rewrite !Forall_cons in Hf.
  destruct Hf as (_ & Hsym & Hside & Hqty & Hentry & Hsl & Htp & Hoid & _).
  assert (Hviol : Database.violates_not_null Database.trade_not_null
                    (Database.new_trade_row trade_dict (current_timestamp clk)) = true).
  { unfold Database.violates_not_null, Database.trade_not_null. cbn [existsb].
    rewrite Hentry, Dentry, Hprice. cbn [Database.is_none].
    rewrite !orb_true_r. reflexivity. }
  assert (Hrun : write_db (fun d =>
                    Database.save_trade d trade_dict (current_timestamp clk)) w5
                 = (Raise IntegrityError, w5)).
  { unfold write_db, Database.save_trade. cbv zeta. rewrite Hviol. reflexivity. }
  unfold run_analysis. rewrite Hbody, (bind_raise _ _ _ _ _ Hrun).
  unfold bind, emit. cbn [snd db journal].
  split; [exact Htrades|]. rewrite Hjournal, <- app_assoc. reflexivity.
Qed.

End FilledOrder.

(** Scenario A, end to end: on an empty table the BUY signal is accepted,
    sized at 2 and filled at 100, and the table holds that trade under
    id 1. The run makes four requests before the order and three for it. *)
Lemma accepted_signal_opens_one_trade_witness :
  exists row,
    Database.trades (db (run_analysis bot_A clock_11 "X" empty_world)) =
      <[Database.next_id (Database.trades (db empty_world)) := row]>
        (Database.trades (db empty_world)) /\
    get_ row "symbol" = VStr "X" /\
    get_ row "side" = VStr "BUY" /\
    get_ row "quantity" = VNum 2 /\
    get_ row "entry_price" = VNum 100 /\
    get_ row "stop_loss" = VNum 98 /\
    get_ row "take_profit" = VNum 110 /\
    get_ row "status" = VStr "OPEN" /\
    get_ row "opened_at" = VStr "2024-03-01 11:00:00" /\
    get_ row "exchange_order_id" = VStr "o1".
Proof.
  exact (accepted_signal_opens_one_trade bot_A clock_11 "X" empty_world
           [] [] {[ "current_price" := VNum 100 ]} 10000 [] signal_A_on_X "BUY"
           SignalValidated (VNum 2)
           {| TradeExecutor.exchange_ :=
                steady_exchange [] ∅ {[ "id" := VStr "o1"; "average" := VNum 100 ]} |}
           {[ "success" := VBool true; "order_id" := VStr "o1"; "symbol" := VStr "X";
              "side" := VStr "buy"; "quantity" := VNum 2; "price" := VNum 100;
              "status" := VNone; "timestamp" := VNone ]}
           {| requests := 1; sleeps := [] |} {| requests := 2; sleeps := [] |}
           {| requests := 3; sleeps := [] |} {| requests := 4; sleeps := [] |}
           {| requests := 7; sleeps := [] |}
           eq_refl eq_refl eq_refl eq_refl eq_refl eq_refl
           eq_refl eq_refl eq_refl eq_refl eq_refl eq_refl eq_refl
           eq_refl eq_refl eq_refl eq_refl eq_refl eq_refl eq_refl eq_refl
           eq_refl eq_refl eq_refl).
Defined.

(** The same run on a venue whose order report has a [price] of [None]: the
    table stays empty and the analysis ends in an [IntegrityError]. *)
Lemma order_without_price_is_not_recorded_witness :
  Database.trades (db (run_analysis bot_priceless clock_11 "X" empty_world)) =
    Database.trades (db empty_world) /\
  journal (run_analysis bot_priceless clock_11 "X" empty_world) =
    (journal empty_world ++
       [LogError "Error in analysis" (VStr "X") IntegrityError;
        ErrorAlert "Analysis error" (VStr "IntegrityError")])%list.
Proof.
  exact (order_without_price_is_not_recorded bot_priceless clock_11 "X" empty_world
           [] [] {[ "current_price" := VNum 100 ]} 10000 [] signal_A_on_X "BUY"
           SignalValidated (VNum 2)
           {| TradeExecutor.exchange_ :=
                steady_exchange [] ∅ {[ "id" := VStr "o1"; "price" := VNone ]} |}
           {[ "success" := VBool true; "order_id" := VStr "o1"; "symbol" := VStr "X";
              "side" := VStr "buy"; "quantity" := VNum 2; "price" := VNone;
              "status" := VNone; "timestamp" := VNone ]}
           {| requests := 1; sleeps := [] |} {| requests := 2; sleeps := [] |}
           {| requests := 3; sleeps := [] |} {| requests := 4; sleeps := [] |}
           {| requests := 7; sleeps := [] |}
           eq_refl eq_refl eq_refl eq_refl eq_refl eq_refl
           eq_refl eq_refl eq_refl eq_refl eq_refl eq_refl eq_refl
           eq_refl eq_refl eq_refl eq_refl eq_refl eq_refl eq_refl eq_refl
           eq_refl).
Defined.

(** ** The rule chain, the other way round *)






(** ** The daily report *)

Lemma count_where_le (test : value -> result bool) (xs : list value) (n : nat) :
  count_where test xs = Ok n -> (n <= length xs)%nat.
Proof.
  revert n. induction xs as [|x xs IH]; intros n H; cbn [count_where] in H.
  - injection H as <-. cbn. lia.
  - destruct (test x) as [hit|]; [|discriminate]. cbn [rbind] in H.
    destruct (count_where test xs) as [m|]; [|discriminate]. cbn [rbind] in H.
    injection H as <-. specialize (IH m eq_refl). cbn [length].
    destruct hit; lia.
Qed.

Lemma wins_and_losses (xs : list value) (wins losses : nat) :
  count_where (fun pnl => py_gt pnl (num 0)) xs = Ok wins ->
  count_where (fun pnl => py_lt pnl (num 0)) xs = Ok losses ->
  (wins + losses <= length xs)%nat.
Proof.
  revert wins losses. induction xs as [|x xs IH]; intros wins losses Hw Hl;
    cbn [count_where] in Hw, Hl.
  - injection Hw as <-. injection Hl as <-. cbn. lia.
  - destruct (py_gt x (num 0)) as [won|] eqn:Eg; [|discriminate]. cbn [rbind] in Hw.
    destruct (py_lt x (num 0)) as [lost|] eqn:El; [|discriminate]. cbn [rbind] in Hl.
    destruct (count_where _ xs) as [w|] in Hw, IH; [|discriminate]. cbn [rbind] in Hw.
    destruct (count_where _ xs) as [l|] in Hl, IH; [|discriminate]. cbn [rbind] in Hl.
    injection Hw as <-. injection Hl as <-.
    specialize (IH w l eq_refl eq_refl). cbn [length].
    assert (Hboth : won && lost = false).
    { unfold py_gt, py_lt, num in Eg, El. cbn [as_number] in Eg, El.
      destruct (as_number x) as [q|].
      - injection Eg as <-. injection El as <-.
        destruct (Qltb (Qred 0) q) eqn:E; [|reflexivity].
        cbn [andb]. apply Qltb_asym. exact E.
      - destruct x; discriminate. }
    destruct won, lost; try discriminate; lia.
Qed.

Lemma py_sum_numbers (xs : list value) (v : value) :
  py_sum xs = Ok v ->
  (exists q, v = num q) /\ Forall (fun x => is_Some (as_number x)) xs.
Proof.
  unfold py_sum.
  assert (G : forall acc,
            foldl (fun acc x => a <- acc ;; py_add a x) acc xs = Ok v ->
            (forall a, acc = Ok a -> exists q, a = num q) ->
            (exists q, v = num q) /\ Forall (fun x => is_Some (as_number x)) xs).
  { induction xs as [|x xs IH]; intros acc H Hacc; cbn [foldl] in H.
    - split; [exact (Hacc _ H) | constructor].
    - destruct acc as [a|e].
      + cbn [rbind] in H. unfold py_add, arith in H.
        destruct (as_number a) as [qa|] eqn:Ea.
        * destruct (as_number x) as [qx|] eqn:Ex.
          -- destruct (IH _ H) as [Hv Hall]; [intros a' [= <-]; eauto|].
             split; [exact Hv|]. constructor; [rewrite Ex; eauto | exact Hall].
          -- exfalso. clear -H. induction xs as [|y xs IH]; cbn [foldl] in H;
               [discriminate | exact (IH H)].
        * exfalso. clear -H. induction xs as [|y xs IH]; cbn [foldl] in H;
            [discriminate | exact (IH H)].
      + exfalso. cbn [rbind] in H. clear -H.
        induction xs as [|y xs IH]; cbn [foldl] in H; [discriminate | exact (IH H)]. }
  intros H. apply (G _ H). intros a [= <-]. eauto.
Qed.

Lemma py_add_zero (q : Q) : py_add (num q) (num 0) = Ok (num q).
Proof.
  unfold py_add, arith, num. cbn [as_number]. do 2 f_equal.
  apply Qred_complete. rewrite !Qred_correct. ring.
Qed.

Lemma py_max_list_bound (rest : list value) (x m : value) (qx : Q) :
  as_number x = Some qx ->
  Forall (fun y => is_Some (as_number y)) rest ->
  py_max_list x rest = Ok m ->
  exists qm, as_number m = Some qm /\ (qx <= qm)%Q.
Proof.
  unfold py_max_list. revert x qx.
  induction rest as [|y rest IH]; intros x qx Hx Hall H; cbn [foldl] in H.
  - injection H as <-. exists qx. split; [exact Hx | lra].
  - apply Forall_cons in Hall as [[qy Hy] Hall].
    cbn [rbind] in H. unfold py_gt, py_lt in H. rewrite Hx, Hy in H. cbn [rbind] in H.
    destruct (Qltb qx qy) eqn:E.
    + destruct (IH y qy Hy Hall H) as (qm & Hm & Hle).
      exists qm. split; [exact Hm|]. apply Qltb_lt in E. lra.
    + exact (IH x qx Hx Hall H).
Qed.

Lemma py_min_list_bound (rest : list value) (x m : value) (qx : Q) :
  as_number x = Some qx ->
  Forall (fun y => is_Some (as_number y)) rest ->
  py_min_list x rest = Ok m ->
  exists qm, as_number m = Some qm /\ (qm <= qx)%Q.
Proof.
  unfold py_min_list. revert x qx.
  induction rest as [|y rest IH]; intros x qx Hx Hall H; cbn [foldl] in H.
  - injection H as <-. exists qx. split; [exact Hx | lra].
  - apply Forall_cons in Hall as [[qy Hy] Hall].
    cbn [rbind] in H. unfold py_lt in H. rewrite Hx, Hy in H. cbn [rbind] in H.
    destruct (Qltb qy qx) eqn:E.
    + destruct (IH y qy Hy Hall H) as (qm & Hm & Hle).
      exists qm. split; [exact Hm|]. apply Qltb_lt in E. lra.
    + exact (IH x qx Hx Hall H).
Qed.

Lemma on_venue_db {A : Type} (m : M venue A) (w w1 : world) (r : result A) :
  on_venue m w = (r, w1) -> db w1 = db w.
Proof.
  unfold on_venue. destruct (m (market w)) as [r1 v]. intros [= _ <-]. reflexivity.
Qed.

(** The figures of the daily report hang together. Whenever the statistics
    are computed without an exception, the database is untouched; wins and
    losses together are at most the trades closed today, which are at most
    today's trades; the win rate lies between 0 and 100; the total PnL is
    the realized part of the daily PnL the risk manager computes from the
    same trades; and the worst trade is at most the best. *)
Theorem daily_report_is_consistent (b : bot) (clk : clock) (w w' : world)
    (stats : dict) :
  daily_report_stats b clk w = (Ok stats, w') ->
  let trades_today := Database.get_trades_today (db w) (current_timestamp clk) in
  db w' = db w /\
  exists (wins losses : nat) (win_rate worst best : Q),
    get_ stats "wins" = num (inject_Z (Z.of_nat wins)) /\
    get_ stats "losses" = num (inject_Z (Z.of_nat losses)) /\
    (wins + losses <= length (closed_today trades_today))%nat /\
    (length (closed_today trades_today) <= length trades_today)%nat /\
    get_ stats "win_rate" = VNum win_rate /\
    (0 <= win_rate)%Q /\ (win_rate <= 100)%Q /\
    RiskManager.calculate_daily_pnl trades_today [] = Ok (get_ stats "total_pnl") /\
    as_number (get_ stats "worst_trade") = Some worst /\
    as_number (get_ stats "best_trade") = Some best /\
    (worst <= best)%Q.
Proof.
  intros H trades_today. unfold daily_report_stats in H.
  unfold bind at 1 in H. unfold read_db at 1 in H. fold trades_today in H.
  cbv zeta in H.
  set (pnl_values := map pnl_or_0 (closed_today trades_today)) in *.
  unfold bind at 1, lift at 1 in H.
  destruct (count_where _ pnl_values) as [wins|] eqn:Ewins in H; [|discriminate].
  unfold bind at 1, lift at 1 in H.
  destruct (count_where _ pnl_values) as [losses|] eqn:Elosses in H; [|discriminate].
  unfold bind at 1, lift at 1 in H.
  destruct (py_sum pnl_values) as [total|] eqn:Etotal in H; [|discriminate].
  unfold bind at 1, lift at 1 in H.
  destruct (match pnl_values with [] => _ | _ => _ end) as [best_v|] eqn:Ebest in H;
    [|discriminate].
  unfold bind at 1, lift at 1 in H.
  destruct (match pnl_values with [] => _ | _ => _ end) as [worst_v|] eqn:Eworst in H;
    [|discriminate].
  unfold bind at 1 in H.
  destruct (on_venue _ w) as [[balance|e] w1] eqn:Ebal in H; [|discriminate].
  apply on_venue_db in Ebal.
  unfold bind at 1, read_db at 1, ret in H. injection H as <- <-.
  split; [exact Ebal|].
  set (win_rate_v := match closed_today trades_today with [] => _ | _ => _ end).
  set (stats := ({[ "total_trades" := _; "wins" := _; "losses" := _; "win_rate" := _;
                    "total_pnl" := _; "best_trade" := _; "worst_trade" := _;
                    "open_positions" := _; "balance" := _ ]} : dict)).
  assert (Hstats :
    get_ stats "wins" = num (inject_Z (Z.of_nat wins)) /\
    get_ stats "losses" = num (inject_Z (Z.of_nat losses)) /\
    get_ stats "win_rate" = win_rate_v /\
    get_ stats "total_pnl" = total /\
    get_ stats "best_trade" = best_v /\
    get_ stats "worst_trade" = worst_v).
  { unfold stats.
    repeat split; unfold get_ at 1, get at 1;
      repeat (rewrite lookup_insert_ne by discriminate);
      rewrite lookup_insert_eq; reflexivity. }
  destruct Hstats as (Swins & Slosses & Srate & Stotal & Sbest & Sworst).
  rewrite Swins, Slosses, Srate, Stotal, Sbest, Sworst. clearbody stats.
  assert (Hlen : length pnl_values = length (closed_today trades_today))
    by apply length_map.
  pose proof (wins_and_losses _ _ _ Ewins Elosses) as Hwl. rewrite Hlen in Hwl.
  pose proof (count_where_le _ _ _ Ewins) as Hw. rewrite Hlen in Hw.
  destruct (py_sum_numbers _ _ Etotal) as [[qt ->] Hnumbers].
  assert (Hrate : exists win_rate,
            win_rate_v = VNum win_rate /\ (0 <= win_rate)%Q /\ (win_rate <= 100)%Q).
  { unfold win_rate_v. destruct (closed_today trades_today) as [|t ts] eqn:Ec.
    - exists 0%Q. repeat split; [lra | lra].
    - eexists. split; [reflexivity|]. rewrite Qred_correct.
      set (n := length (t :: ts)) in *.
      assert (Hn : (0 < inject_Z (Z.of_nat n))%Q).
      { change 0%Q with (inject_Z 0). rewrite <- Zlt_Qlt. unfold n. cbn [length]. lia. }
      assert (Ha : (0 <= inject_Z (Z.of_nat wins))%Q).
      { change 0%Q with (inject_Z 0). rewrite <- Zle_Qle. lia. }
      assert (Hb : (inject_Z (Z.of_nat wins) <= inject_Z (Z.of_nat n))%Q).
      { rewrite <- Zle_Qle. lia. }
      assert (H0 : (0 <= inject_Z (Z.of_nat wins) / inject_Z (Z.of_nat n))%Q).
      { apply Qle_shift_div_l; [exact Hn|]. lra. }
      assert (H1 : (inject_Z (Z.of_nat wins) / inject_Z (Z.of_nat n) <= 1)%Q).
      { apply Qle_shift_div_r; [exact Hn|]. lra. }
      split; lra. }
  destruct Hrate as (win_rate & Erate & Hr0 & Hr100).
  assert (Hbounds : exists worst best,
            as_number worst_v = Some worst /\ as_number best_v = Some best /\
            (worst <= best)%Q).
  { destruct pnl_values as [|x rest].
    - injection Ebest as <-. injection Eworst as <-.
      exists (Qred 0), (Qred 0). repeat split. lra.
    - apply Forall_cons in Hnumbers as [[qx Hx] Hrest].
      destruct (py_max_list_bound _ _ _ _ Hx Hrest Ebest) as (hi & Hhi & Hle).
      destruct (py_min_list_bound _ _ _ _ Hx Hrest Eworst) as (lo & Hlo & Hge).
      exists lo, hi. repeat split; auto. lra. }
  destruct Hbounds as (worst & best & Eworst' & Ebest' & Hwb).
  exists wins, losses, win_rate, worst, best.
  repeat split; auto.
  - unfold closed_today. apply length_filter.
  - unfold RiskManager.calculate_daily_pnl.
    change (py_sum (map _ (filter _ trades_today))) with (py_sum pnl_values).
    rewrite Etotal. cbn [rbind map]. apply py_add_zero.
Qed.

(** The day of the trade closed earlier at 105: one trade, one win, a win
    rate of 100, and a total of 10 that is the risk manager's realized PnL
    of the day. *)
Lemma daily_report_is_consistent_witness :
  exists (wins losses : nat) (win_rate worst best : Q),
    get_ report_of_one_win "wins" = num (inject_Z (Z.of_nat wins)) /\
    get_ report_of_one_win "losses" = num (inject_Z (Z.of_nat losses)) /\
    (wins + losses <=
       length (closed_today
                 (Database.get_trades_today (db (world_with closed_trade_row))
                    (current_timestamp clock_11))))%nat /\
    (length (closed_today
               (Database.get_trades_today (db (world_with closed_trade_row))
                  (current_timestamp clock_11))) <=
       length (Database.get_trades_today (db (world_with closed_trade_row))
                 (current_timestamp clock_11)))%nat /\
    get_ report_of_one_win "win_rate" = VNum win_rate /\
    (0 <= win_rate)%Q /\ (win_rate <= 100)%Q /\
    RiskManager.calculate_daily_pnl
      (Database.get_trades_today (db (world_with closed_trade_row))
         (current_timestamp clock_11)) [] = Ok (get_ report_of_one_win "total_pnl") /\
    as_number (get_ report_of_one_win "worst_trade") = Some worst /\
    as_number (get_ report_of_one_win "best_trade") = Some best /\
    (worst <= best)%Q.
Proof.
  exact (proj2 (daily_report_is_consistent paper_bot clock_11
                  (world_with closed_trade_row) (world_with closed_trade_row)
                  report_of_one_win eq_refl)).
Defined.

(** ** The portfolio snapshot *)








